(** * a2a_multiagent: authorization server, token validator and task router

    A shallow embedding of the parts of the repository that carry state and
    protocol logic:

    - [idp/app.py]: the token endpoint [generate_token] with its
      authorization-code store, PKCE check and scope check;
    - [auth_lib/validator.py]: [get_oidc_config], [get_jwks] and
      [is_token_valid];
    - [host_agent/routing_agent.py]: agent resolution, the OAuth redirect,
      [send_message] and [_send_message_and_process_response];
    - [host_agent/__main__.py]: the OAuth callback [handle_callback].

    Python [str] values are modelled as [string] (a sequence of bytes, the
    UTF-8 encoding of the text), dictionaries as [gmap], module-level mutable
    globals as explicit state that every function takes and returns. *)

From Stdlib Require Import ZArith List String Ascii Bool Lia.
From stdpp Require Import base option list gmap strings.

Local Open Scope string_scope.
Local Open Scope Z_scope.

(** ** Python built-ins used by the sources *)

Module Py.

(** Truthiness of a [str]: the empty string is falsy. *)
Definition str_truthy (s : string) : bool :=
  match s with EmptyString => false | _ => true end.

(** Truthiness of an optional [str] (the result of [dict.get]): [None] and
    the empty string are falsy. *)
Definition truthy (o : option string) : bool :=
  match o with
  | Some s => str_truthy s
  | None => false
  end.

(** [s.split(c)] for a one-character separator: every occurrence of the
    separator cuts; the result is never empty. *)
Fixpoint split (c : ascii) (s : string) : list string :=
  match s with
  | EmptyString => [EmptyString]
  | String a rest =>
      if Ascii.eqb a c then EmptyString :: split c rest
      else match split c rest with
           | w :: ws => String a w :: ws
           | [] => [String a EmptyString]
           end
  end.

(** [s.split(c, 1)]: cut at the first occurrence only. [None] stands for
    the one-element result (no separator in [s]). *)
Fixpoint split1 (c : ascii) (s : string) : option (string * string) :=
  match s with
  | EmptyString => None
  | String a rest =>
      if Ascii.eqb a c then Some (EmptyString, rest)
      else match split1 c rest with
           | Some (k, v) => Some (String a k, v)
           | None => None
           end
  end.

(** [sep.join(l)]. *)
Definition join (sep : string) (l : list string) : string :=
  String.concat sep l.

(** [s.startswith(p)]. *)
Definition startswith (p s : string) : bool := String.prefix p s.

(** [s.replace(c, '')] for a one-character [c]. *)
Fixpoint remove_char (c : ascii) (s : string) : string :=
  match s with
  | EmptyString => EmptyString
  | String a rest =>
      if Ascii.eqb a c then remove_char c rest
      else String a (remove_char c rest)
  end.

(** [x in l] for a list of strings. *)
Definition str_in (x : string) (l : list string) : bool :=
  existsb (String.eqb x) l.

(** [s.encode("utf-8")]: the bytes of the string, as numbers. *)
Definition encode (s : string) : list Z :=
  map (fun a => Z.of_N (N_of_ascii a)) (list_ascii_of_string s).

Definition chr (z : Z) : ascii := ascii_of_N (Z.to_N z).

(** The one-character string holding a double quote. *)
Definition dquote : string := String (ascii_of_nat 34) EmptyString.

End Py.

(** ** hashlib.sha256

    FIPS 180-4 on 32-bit words held in [Z], wrap-around written out. *)

Module Sha256.

Definition mask32 : Z := 0xFFFFFFFF.
Definition add32 (a b : Z) : Z := Z.land (a + b) mask32.
Definition rotr (n x : Z) : Z :=
  Z.land (Z.lor (Z.shiftr x n) (Z.shiftl x (32 - n))) mask32.
Definition shr (n x : Z) : Z := Z.shiftr x n.
Definition not32 (x : Z) : Z := Z.lxor x mask32.

Definition Ch (x y z : Z) : Z := Z.lxor (Z.land x y) (Z.land (not32 x) z).
Definition Maj (x y z : Z) : Z :=
  Z.lxor (Z.lxor (Z.land x y) (Z.land x z)) (Z.land y z).
Definition Sigma0 (x : Z) : Z := Z.lxor (Z.lxor (rotr 2 x) (rotr 13 x)) (rotr 22 x).
Definition Sigma1 (x : Z) : Z := Z.lxor (Z.lxor (rotr 6 x) (rotr 11 x)) (rotr 25 x).
Definition sigma0 (x : Z) : Z := Z.lxor (Z.lxor (rotr 7 x) (rotr 18 x)) (shr 3 x).
Definition sigma1 (x : Z) : Z := Z.lxor (Z.lxor (rotr 17 x) (rotr 19 x)) (shr 10 x).

(** The constants, by their definition in FIPS 180-4: the first 32 bits
    of the fractional parts of the cube roots of the first 64 primes, and,
    for the initial hash value, of the square roots of the first 8. *)
Definition is_prime (n : Z) : bool :=
  forallb (fun d => negb (n mod Z.of_nat d =? 0)) (seq 2 (Z.to_nat n - 2)).

Definition primes : list Z :=
  firstn 64 (filter is_prime (map Z.of_nat (seq 2 400))).

(** The integer cube root, bit by bit from the top. *)
Fixpoint cbrt_bits (b : nat) (n r : Z) : Z :=
  match b with
  | O => r
  | S b' =>
      let r' := r + 2 ^ Z.of_nat b' in
      cbrt_bits b' n (if r' * r' * r' <=? n then r' else r)
  end.

Definition cbrt (n : Z) : Z := cbrt_bits 40 n 0.

Definition K : list Z :=
  map (fun p => Z.land (cbrt (p * 2 ^ 96)) mask32) primes.

Definition H0 : list Z :=
  map (fun p => Z.land (Z.sqrt (p * 2 ^ 64)) mask32) (firstn 8 primes).

(** Message padding: a 1 bit, zeros up to 56 mod 64, the bit length on
    eight bytes, big endian. *)
Definition be_bytes (n : nat) (x : Z) : list Z :=
  map (fun i => Z.land (Z.shiftr x (8 * Z.of_nat i)) 0xFF) (rev (seq 0 n)).

Definition pad (msg : list Z) : list Z :=
  let len := Z.of_nat (length msg) in
  let zeros := Z.to_nat ((55 - len) mod 64) in
  msg ++ [0x80] ++ repeat 0 zeros ++ be_bytes 8 (8 * len).

Fixpoint words_of_bytes (fuel : nat) (bs : list Z) : list Z :=
  match fuel, bs with
  | S f, a :: b :: c :: d :: rest =>
      (Z.shiftl a 24 + Z.shiftl b 16 + Z.shiftl c 8 + d) :: words_of_bytes f rest
  | _, _ => []
  end.

Definition nthz (l : list Z) (i : nat) : Z := nth i l 0.

(** Message schedule: the sixteen block words, then 48 derived ones. *)
Fixpoint schedule (n : nat) (w : list Z) : list Z :=
  match n with
  | O => w
  | S n' =>
      let t := length w in
      let x := add32 (add32 (sigma1 (nthz w (t - 2))) (nthz w (t - 7)))
                     (add32 (sigma0 (nthz w (t - 15))) (nthz w (t - 16))) in
      schedule n' (w ++ [x])
  end.

Definition round (st : list Z) (kw : Z * Z) : list Z :=
  match st with
  | [a; b; c; d; e; f; g; h] =>
      let t1 := add32 (add32 (add32 h (Sigma1 e)) (add32 (Ch e f g) (fst kw))) (snd kw) in
      let t2 := add32 (Sigma0 a) (Maj a b c) in
      [add32 t1 t2; a; b; c; add32 d t1; e; f; g]
  | _ => st
  end.

Definition compress (h : list Z) (block : list Z) : list Z :=
  let w := schedule 48 (words_of_bytes 16 block) in
  let st := fold_left round (combine K w) h in
  map (fun p => add32 (fst p) (snd p)) (combine h st).

Fixpoint blocks (fuel : nat) (h : list Z) (bs : list Z) : list Z :=
  match fuel, bs with
  | S f, _ :: _ => blocks f (compress h (firstn 64 bs)) (skipn 64 bs)
  | _, _ => h
  end.

(** [hashlib.sha256(msg).digest()]. *)
Definition digest (msg : list Z) : list Z :=
  let p := pad msg in
  flat_map (be_bytes 4) (blocks (length p) H0 p).

End Sha256.

(** ** base64.urlsafe_b64encode *)

Module Base64.

Definition alphabet : string :=
  "ABCDEFGHIJKLMNOPQRSTUVWXYZabcdefghijklmnopqrstuvwxyz0123456789-_".

Definition sextet (i : Z) : ascii :=
  match String.get (Z.to_nat i) alphabet with
  | Some c => c
  | None => "="%char
  end.

Fixpoint urlsafe_b64encode (bs : list Z) : string :=
  match bs with
  | [] => EmptyString
  | [a] =>
      String (sextet (Z.shiftr a 2))
        (String (sextet (Z.shiftl (Z.land a 3) 4)) "==")
  | [a; b] =>
      String (sextet (Z.shiftr a 2))
        (String (sextet (Z.lor (Z.shiftl (Z.land a 3) 4) (Z.shiftr b 4)))
           (String (sextet (Z.shiftl (Z.land b 15) 2)) "="))
  | a :: b :: c :: rest =>
      String (sextet (Z.shiftr a 2))
        (String (sextet (Z.lor (Z.shiftl (Z.land a 3) 4) (Z.shiftr b 4)))
           (String (sextet (Z.lor (Z.shiftl (Z.land b 15) 2) (Z.shiftr c 6)))
              (String (sextet (Z.land c 63)) (urlsafe_b64encode rest))))
  end.

End Base64.

(** The PKCE transformation of [generate_token] (S256):
[[
   base64.urlsafe_b64encode(hashlib.sha256(code_verifier.encode("utf-8")).digest())
         .decode("utf-8").replace("=", '')
]] *)
Definition computed_challenge (code_verifier : string) : string :=
  Py.remove_char "="%char
    (Base64.urlsafe_b64encode (Sha256.digest (Py.encode code_verifier))).

(** ** JSON Web Tokens, symbolically

    The sources build and read tokens through PyJWT, which is not part of the
    repository. A token is modelled by what it carries: its header, its
    claims and the key pair that signed it; a key pair is named by its
    modulus, so a signature verifies against a published key exactly when the
    moduli agree. A bearer string that is not a well-formed JWT is [Opaque]. *)

Module Jwt.

Record Header := { kid : option string; alg : option string }.

Record Claims := {
  iss : option string;
  aud : option string;
  sub : option string;
  exp : option Z;
  iat : option Z;
  nbf : option Z;
  auth_time : option Z;
  scope : option string;
  tenant_id : option string;
  email : option string;
  profile : option string;
  nonce : option string
}.

Inductive Token :=
| Signed (h : Header) (c : Claims) (key : string)
| Opaque (s : string).

(** One entry of a JSON Web Key Set. *)
Record Jwk := { jwk_kid : option string; jwk_n : string }.

(** The exceptions of PyJWT that [is_token_valid] tells apart. The first
    three are subclasses of [InvalidTokenError]; [OtherError] is anything
    that is not an [InvalidTokenError]. *)
Inductive Error :=
| ExpiredSignatureError
| InvalidAudienceError
| InvalidIssuerError
| InvalidTokenError (msg : string)
| OtherError (msg : string).

(** [jwt.get_unverified_header(token)]. The message is the one that the
    library gives for a string with fewer than two dots, such as the hex
    string of the server's opaque tokens; the messages for other malformed
    strings (bad padding, a header that is not JSON) are not modelled. *)
Definition get_unverified_header (t : Token) : Error + Header :=
  match t with
  | Signed h _ _ => inr h
  | Opaque _ => inl (InvalidTokenError "Not enough segments")
  end.

(** The text of [MissingRequiredClaimError(claim)]. *)
Definition missing_claim (claim : string) : Error :=
  InvalidTokenError
    ("Token is missing the " ++ Py.dquote ++ claim ++ Py.dquote ++ " claim").

(** The [iat] check of [jwt.decode] (PyJWT 2.6 and later): an issue time
    in the future raises [ImmatureSignatureError], an [InvalidTokenError];
    a token without [iat] passes. *)
Definition validate_iat (now : Z) (c : Claims) : Error + Claims :=
  match iat c with
  | Some i =>
      if now <? i then inl (InvalidTokenError "The token is not yet valid (iat)")
      else inr c
  | None => inr c
  end.

(** The [nbf] check of [jwt.decode]: a token without [nbf] passes. *)
Definition validate_nbf (now : Z) (c : Claims) : Error + Claims :=
  match nbf c with
  | Some n =>
      if now <? n then inl (InvalidTokenError "The token is not yet valid (nbf)")
      else inr c
  | None => inr c
  end.

(** The expiry check of [jwt.decode]: a token without [exp] passes. *)
Definition validate_exp (now : Z) (c : Claims) : Error + Claims :=
  match exp c with
  | Some e => if e <=? now then inl ExpiredSignatureError else inr c
  | None => inr c
  end.

(** The issuer check of [jwt.decode]; no check when no issuer is expected. *)
Definition validate_iss (c : Claims) (issuer : option string) : Error + Claims :=
  match issuer with
  | None => inr c
  | Some i =>
      match iss c with
      | None => inl (missing_claim "iss")
      | Some i' => if String.eqb i i' then inr c else inl InvalidIssuerError
      end
  end.

(** The audience check of [jwt.decode]: an [aud] claim that is absent or
    empty is reported as missing. *)
Definition validate_aud (c : Claims) (audience : string) : Error + Claims :=
  match aud c with
  | None => inl (missing_claim "aud")
  | Some a =>
      if negb (Py.str_truthy a) then inl (missing_claim "aud")
      else if String.eqb a audience then inr c else inl InvalidAudienceError
  end.

(** The claim checks of [jwt.decode], in the library's order: [iat],
    [nbf], [exp], [iss], [aud]; the first failure is the one raised. *)
Definition validate_claims (now : Z) (c : Claims)
    (issuer : option string) (audience : string) : Error + Claims :=
  match validate_iat now c with
  | inl e => inl e
  | inr _ =>
      match validate_nbf now c with
      | inl e => inl e
      | inr _ =>
          match validate_exp now c with
          | inl e => inl e
          | inr _ =>
              match validate_iss c issuer with
              | inl e => inl e
              | inr _ => validate_aud c audience
              end
          end
      end
  end.

(** [jwt.decode(token, key, issuer, audience, algorithms=[alg],
    options={verify_exp, verify_aud, verify_iss})] at time [now]: the
    signature first, then the claims. Times are whole seconds: the
    library truncates a fractional claim and compares it with the clock. *)
Definition decode (now : Z) (t : Token) (key : Jwk)
    (issuer : option string) (audience : string) : Error + Claims :=
  match t with
  | Opaque _ => inl (InvalidTokenError "Not enough segments")
  | Signed _ c k =>
      if negb (String.eqb k (jwk_n key))
      then inl (InvalidTokenError "Signature verification failed")
      else validate_claims now c issuer audience
  end.

End Jwt.

(** ** idp/app.py: the authorization server *)

Module Idp.

Record User := {
  password : string;
  user_sub : string;
  user_profile : string;
  user_email : string;
  user_tenant_id : string
}.

Record Client := {
  client_secret : string;
  allowed_scopes : list string;
  redirect_uri : list string;
  response_types : list string;
  grant_types : list string;
  client_name : string
}.

(** A value of [AUTHORIZATION_CODES], as [consent] stores it. *)
Record AuthCode := {
  code_client_id : string;
  code_user : User;
  code_scopes : list string;
  code_redirect_uri : string;
  expires_at : Z;
  code_challenge : option string;
  code_challenge_method : option string
}.

(** What the module loads at start-up: the signing key (named by its
    modulus), the published key set and the [GENERATE_JWT] switch. *)
Record Config := {
  PRIVATE_KEY : option string;
  JWKS : option (list Jwt.Jwk);
  GENERATE_JWT : bool
}.

Definition USER_REGISTRY : gmap string User :=
  {[ "john.doe" := {| password := "password123"; user_sub := "john.doe";
                      user_profile := "I am John Doe.";
                      user_email := "john.doe @example.com";
                      user_tenant_id := "tenant-abc" |};
     "jane.doe" := {| password := "password123"; user_sub := "jane.doe";
                      user_profile := "I am Jane Doe.";
                      user_email := "jane.doe @example.com";
                      user_tenant_id := "tenant-xyz" |} ]}.

Definition CLIENT_REGISTRY : gmap string Client :=
  {[ "airbnb_agent" :=
       {| client_secret := "airbnb_secret";
          allowed_scopes := ["api:read"; "api:write"; "openid"; "profile"; "email"];
          redirect_uri := ["http://localhost:8000/dev-ui/"];
          response_types := ["code"];
          grant_types := ["authorization_code"];
          client_name := "Airbnb Agent" |};
     "weather_agent" :=
       {| client_secret := "weather_secret";
          allowed_scopes := ["api:read"; "openid"];
          redirect_uri := ["http://localhost:8083/callback"];
          response_types := ["code"];
          grant_types := ["authorization_code"];
          client_name := "Weather Agent" |};
     "Horizon Agent - Tenant ABC" :=
       {| client_secret := "horizon_secret_abc";
          allowed_scopes := ["api:read"; "openid"; "profile"; "email"];
          redirect_uri := ["http://localhost:8083/callback"];
          response_types := ["code"];
          grant_types := ["authorization_code"];
          client_name := "Horizon Agent - Tenant ABC" |};
     "Calendar Agent" :=
       {| client_secret := "calendar_secret";
          allowed_scopes := ["api:read"; "openid"; "profile"; "email"];
          redirect_uri := ["http://localhost:8083/callback"];
          response_types := ["code"];
          grant_types := ["authorization_code"];
          client_name := "Calendar Agent" |} ]}.

(** JSON values of the response bodies; a token travels as itself. *)
Inductive jval :=
| JStr (s : string)
| JNum (z : Z)
| JNull
| JTok (t : Jwt.Token).

(** [jsonify(body), status]. An exception that escapes the view is the
    framework's 500 answer, with an empty body here. *)
Record Response := { status : Z; body : list (string * jval) }.

Definition body_get (k : string) (b : list (string * jval)) : option jval :=
  snd <$> List.find (fun kv => String.eqb k (fst kv)) b.

Definition error_response (st : Z) (err : string) (descr : option string) : Response :=
  {| status := st;
     body := ("error", JStr err) ::
             match descr with
             | Some d => [("error_description", JStr d)]
             | None => []
             end |}.

Definition server_error : Response := {| status := 500; body := [] |}.

(** The POST request of the token endpoint: the [Authorization] header and
    the form fields. *)
Record Request := { authorization : option string; form : gmap string string }.

Section Endpoint.

(** [base64.b64decode(s).decode("utf-8")], [None] when either step raises
    (both exceptions are [ValueError]s). *)
Variable b64decode_utf8 : string -> option string.
(** The client registry and the start-up configuration. *)
Variable clients : gmap string Client.
Variable cfg : Config.

(** [generate_jwt(payload, key)]: raises ([None]) without a key set, without
    a first key carrying a [kid], or without a signing key. *)
Definition generate_jwt (payload : Jwt.Claims) : option Jwt.Token :=
  match JWKS cfg, PRIVATE_KEY cfg with
  | Some (k :: _), Some pk =>
      match Jwt.jwk_kid k with
      | Some id =>
          Some (Jwt.Signed {| Jwt.kid := Some id; Jwt.alg := Some "RS256" |} payload pk)
      | None => None
      end
  | _, _ => None
  end.

(** [create_access_token(client_id, scopes, user_sub, tenant_id)] at time
    [now]; [rnd] is the value of [os.urandom(32).hex()]. *)
Definition create_access_token (now : Z) (rnd : string) (client_id : string)
    (scopes : list string) (user_sub tenant_id : option string) : option Jwt.Token :=
  if GENERATE_JWT cfg then
    generate_jwt
      {| Jwt.iss := Some "http://localhost:5000";
         Jwt.aud := Some "http://localhost:8081";
         Jwt.sub := Some (match user_sub with
                          | Some s => if Py.str_truthy s then s else client_id
                          | None => client_id
                          end);
         Jwt.exp := Some (now + 3600);
         Jwt.iat := Some now;
         Jwt.nbf := None;
         Jwt.auth_time := None;
         Jwt.scope := Some (Py.join " " scopes);
         Jwt.tenant_id := if Py.truthy tenant_id then tenant_id else None;
         Jwt.email := None;
         Jwt.profile := None;
         Jwt.nonce := None |}
  else Some (Jwt.Opaque rnd).

(** [create_id_token(client_id, user_data, scopes)]: the outer [option] is
    the exception, the inner one Python's [None] result. *)
Definition create_id_token (now : Z) (client_id : string) (user_data : User)
    (scopes : list string) : option (option Jwt.Token) :=
  if negb (GENERATE_JWT cfg) then Some None
  else
    Some <$> generate_jwt
      {| Jwt.iss := Some "http://localhost:5000";
         Jwt.aud := Some client_id;
         Jwt.sub := Some (user_sub user_data);
         Jwt.exp := Some (now + 3600);
         Jwt.iat := Some now;
         Jwt.nbf := None;
         Jwt.auth_time := Some now;
         Jwt.scope := Some (Py.join " " scopes);
         Jwt.tenant_id := None;
         Jwt.email := Some (user_email user_data);
         Jwt.profile := Some (user_profile user_data);
         Jwt.nonce := None |}.

(** The HTTP Basic branch: the pair stays [(None, None)] unless the header
    starts with [Basic ], decodes, and holds a colon. *)
Definition basic_credentials (auth_header : option string)
    : option string * option string :=
  match auth_header with
  | Some h =>
      if Py.startswith "Basic " h then
        match Py.split " " h with
        | _ :: encoded_credentials :: _ =>
            match b64decode_utf8 encoded_credentials with
            | Some decoded_credentials =>
                match Py.split1 ":" decoded_credentials with
                | Some (id, secret) => (Some id, Some secret)
                | None => (None, None)
                end
            | None => (None, None)
            end
        | _ => (None, None)
        end
      else (None, None)
  | None => (None, None)
  end.

(** Client credentials: Basic when it yields both, the form fields otherwise. *)
Definition credentials (req : Request) : option string * option string :=
  let '(client_id, client_secret) := basic_credentials (authorization req) in
  if negb (Py.truthy client_id) || negb (Py.truthy client_secret)
  then (form req !! "client_id", form req !! "client_secret")
  else (client_id, client_secret).

Definition jtok (t : option Jwt.Token) : jval :=
  match t with Some t => JTok t | None => JNull end.

(** The [client_credentials] branch. *)
Definition client_credentials_grant (now : Z) (rnd : string)
    (client_id : string) (client : Client) (req : Request) : Response :=
  let scopes := Py.split " " (default EmptyString (form req !! "scope")) in
  if forallb (fun scope => Py.str_in scope (allowed_scopes client)) scopes then
    match create_access_token now rnd client_id scopes None None with
    | Some access_token =>
        {| status := 200;
           body := [("access_token", JTok access_token);
                    ("token_type", JStr "Bearer");
                    ("expires_in", JNum 3600);
                    ("scope", JStr (Py.join " " scopes))] |}
    | None => server_error
    end
  else error_response 400 "invalid_scope" None.

(** The checks of the [authorization_code] branch that follow the [pop],
    and the token issue. *)
Definition redeem (now : Z) (rnd : string) (client_id : string)
    (req : Request) (auth_code_data : AuthCode) : Response :=
  let redirect_uri := form req !! "redirect_uri" in
  let code_verifier := form req !! "code_verifier" in
  if negb (bool_decide (Some (code_redirect_uri auth_code_data) = redirect_uri))
     || negb (String.eqb (code_client_id auth_code_data) client_id)
  then error_response 400 "invalid_grant" (Some "Redirect URI or client ID mismatch")
  else if expires_at auth_code_data <? now
  then error_response 400 "invalid_grant" (Some "Authorization code has expired")
  else
    let pkce_failure :=
      if Py.truthy (code_challenge auth_code_data) then
        match code_verifier with
        | Some v =>
            if negb (Py.str_truthy v)
            then Some (error_response 400 "invalid_request"
                         (Some "Code verifier is required for PKCE flow."))
            else if negb (bool_decide (Some (computed_challenge v)
                                       = code_challenge auth_code_data))
            then Some (error_response 400 "invalid_grant"
                         (Some "PKCE code challenge mismatch."))
            else None
        | None =>
            Some (error_response 400 "invalid_request"
                    (Some "Code verifier is required for PKCE flow."))
        end
      else None in
    match pkce_failure with
    | Some r => r
    | None =>
        let user := code_user auth_code_data in
        match create_access_token now rnd client_id (code_scopes auth_code_data)
                (Some (user_sub user)) (Some (user_tenant_id user)),
              create_id_token now client_id user (code_scopes auth_code_data) with
        | Some access_token, Some id_token =>
            {| status := 200;
               body := [("access_token", JTok access_token);
                        ("id_token", jtok id_token);
                        ("token_type", JStr "Bearer");
                        ("expires_in", JNum 3600);
                        ("scope", JStr (Py.join " " (code_scopes auth_code_data)))] |}
        | _, _ => server_error
        end
    end.

(** [generate_token()], the view of [POST /generate-token], over the
    module-level store [AUTHORIZATION_CODES]: the answer and the store after
    the request. [now] is the clock, [rnd] the entropy read. *)
Definition generate_token (now : Z) (rnd : string)
    (AUTHORIZATION_CODES : gmap string AuthCode) (req : Request)
    : Response * gmap string AuthCode :=
  let '(client_id, client_secret) := credentials req in
  let grant_type := form req !! "grant_type" in
  match client_id, client_id ≫= (fun id => clients !! id) with
  | Some client_id, Some client =>
      if negb (bool_decide (Some (Idp.client_secret client) = client_secret))
      then (error_response 401 "invalid_client" (Some "Client authentication failed"),
            AUTHORIZATION_CODES)
      else if bool_decide (grant_type = Some "client_credentials")
      then (client_credentials_grant now rnd client_id client req, AUTHORIZATION_CODES)
      else if bool_decide (grant_type = Some "authorization_code")
      then
        match form req !! "code" with
        | Some code =>
            match AUTHORIZATION_CODES !! code with
            | Some auth_code_data =>
                (redeem now rnd client_id req auth_code_data,
                 delete code AUTHORIZATION_CODES)
            | None =>
                (error_response 400 "invalid_grant"
                   (Some "Invalid or expired authorization code."),
                 AUTHORIZATION_CODES)
            end
        | None =>
            (error_response 400 "invalid_grant"
               (Some "Invalid or expired authorization code."),
             AUTHORIZATION_CODES)
        end
      else (error_response 400 "unsupported_grant_type" None, AUTHORIZATION_CODES)
  | _, _ =>
      (error_response 401 "invalid_client" (Some "Client not found"),
       AUTHORIZATION_CODES)
  end.

(** A request authenticates as [client_id] when the credentials it carries
    (Basic or form) name a registered client together with its secret. *)
Definition authenticates (req : Request) (client_id : string)
    (client : Client) : Prop :=
  credentials req = (Some client_id, Some (client_secret client))
  /\ clients !! client_id = Some client.

(** Token issuance is enabled and the signing material is loaded: signing
    key [pk], and a key set whose first entry carries the key id [kid]. *)
Definition can_sign (kid pk : string) : Prop :=
  GENERATE_JWT cfg = true
  /\ PRIVATE_KEY cfg = Some pk
  /\ exists key rest, JWKS cfg = Some (key :: rest) /\ Jwt.jwk_kid key = Some kid.

End Endpoint.

End Idp.

(** ** auth_lib/validator.py: the token validator *)

Module Validator.

(** The fields of the discovery document that the validator reads. *)
Record OidcConfig := { issuer : option string; jwks_uri : option string }.

(** The module globals [oidc_config] and [jwks]; [jwks] holds the list
    under ["keys"] (empty when the document has none). *)
Record Cache := {
  oidc_config : option OidcConfig;
  jwks : option (list Jwt.Jwk)
}.

Definition empty_cache : Cache := {| oidc_config := None; jwks := None |}.

(** The outside world of the validator: the environment variable
    [OIDC_CONFIG_URL] and the two documents behind [requests.get]; [inl e]
    is a [RequestException] with text [e]. *)
Record World := {
  OIDC_CONFIG_URL : option string;
  fetch_config : string -> string + OidcConfig;
  fetch_keys : string -> string + list Jwt.Jwk
}.

(** The pair [(value, None)] or [(None, error)] that the getters return. *)
Definition result (A : Type) : Type := (string + A)%type.

(** The verdict of [is_token_valid]: [(True, decoded_token)] or
    [(False, reason)]. *)
Inductive Verdict :=
| Valid (decoded_token : Jwt.Claims)
| Invalid (reason : string).

Section Calls.

Variable w : World.

(** [get_oidc_config()]. *)
Definition get_oidc_config (c : Cache) : result OidcConfig * Cache :=
  match oidc_config c with
  | Some cfg => (inr cfg, c)
  | None =>
      let oidc_config_url :=
        default "http://localhost:5000/.well-known/openid-configuration"
                (OIDC_CONFIG_URL w) in
      match fetch_config w oidc_config_url with
      | inr cfg => (inr cfg, {| oidc_config := Some cfg; jwks := jwks c |})
      | inl e => (inl ("Error fetching OIDC config: " ++ e), c)
      end
  end.

(** [get_jwks()]. *)
Definition get_jwks (c : Cache) : result (list Jwt.Jwk) * Cache :=
  match jwks c with
  | Some ks => (inr ks, c)
  | None =>
      match get_oidc_config c with
      | (inl error, c1) => (inl error, c1)
      | (inr config, c1) =>
          if negb (Py.truthy (jwks_uri config))
          then (inl "jwks_uri not found in OIDC configuration.", c1)
          else
            match fetch_keys w (default EmptyString (jwks_uri config)) with
            | inr ks => (inr ks, {| oidc_config := oidc_config c1; jwks := Some ks |})
            | inl e => (inl ("Error fetching JWKS: " ++ e), c1)
            end
      end
  end.

(** The handlers of [is_token_valid], in the order of the source: the first
    clause that matches the exception answers. *)
Definition handle (e : Jwt.Error) : Verdict :=
  match e with
  | Jwt.ExpiredSignatureError => Invalid "Token has expired."
  | Jwt.InvalidAudienceError => Invalid "Invalid audience."
  | Jwt.InvalidIssuerError => Invalid "Invalid issuer."
  | Jwt.InvalidTokenError msg => Invalid ("Invalid token: " ++ msg)
  | Jwt.OtherError msg =>
      Invalid ("An unexpected error occurred during token validation: " ++ msg)
  end.

(** The tenant check that follows a successful [jwt.decode]. *)
Definition check_tenant (decoded_token : Jwt.Claims)
    (required_tenant_id : option string) : Verdict :=
  if Py.truthy required_tenant_id then
    let token_tenant_id := Jwt.tenant_id decoded_token in
    if negb (Py.truthy token_tenant_id)
    then Invalid "'tenant_id' claim not found in token."
    else if negb (bool_decide (token_tenant_id = required_tenant_id))
    then Invalid ("Token 'tenant_id' (" ++ default EmptyString token_tenant_id
                  ++ ") does not match required tenant_id ("
                  ++ default EmptyString required_tenant_id ++ ").")
    else Valid decoded_token
  else Valid decoded_token.

(** The body of the [try] block, with the cache as [get_jwks] left it. *)
Definition validate (now : Z) (c : Cache) (jwks_data : list Jwt.Jwk)
    (token : Jwt.Token) (required_tenant_id : option string) : Verdict :=
  match Jwt.get_unverified_header token with
  | inl e => handle e
  | inr header =>
      if negb (Py.truthy (Jwt.kid header))
      then Invalid "Token header missing 'kid'."
      else
        match List.find (fun k => bool_decide (Jwt.jwk_kid k = Jwt.kid header))
                        jwks_data with
        | None => Invalid "No matching key found in JWKS."
        | Some key =>
            match oidc_config c with
            | None => handle (Jwt.OtherError
                                "'NoneType' object has no attribute 'get'")
            | Some cfg =>
                match Jwt.alg header with
                | None => handle (Jwt.OtherError "'alg'")
                | Some _ =>
                    match Jwt.decode now token key (issuer cfg)
                                     "http://localhost:8081" with
                    | inl e => handle e
                    | inr decoded_token =>
                        check_tenant decoded_token required_tenant_id
                    end
                end
            end
        end
  end.

(** [is_token_valid(token, required_tenant_id)] at time [now]. The empty
    bearer string is [Jwt.Opaque EmptyString]. *)
Definition is_token_valid (now : Z) (c : Cache) (token : Jwt.Token)
    (required_tenant_id : option string) : Verdict * Cache :=
  match token with
  | Jwt.Opaque EmptyString => (Invalid "Token is empty.", c)
  | _ =>
      match get_jwks c with
      | (inl error, c1) => (Invalid ("Failed to get JWKS: " ++ error), c1)
      | (inr jwks_data, c1) =>
          (validate now c1 jwks_data token required_tenant_id, c1)
      end
  end.

(** The caches as the getters leave them: a cached key set comes with a
    cached discovery document. *)
Definition cache_ok (c : Cache) : Prop :=
  jwks c <> None -> oidc_config c <> None.

(** The token passes the steps that come before [jwt.decode] against the
    key set [jwks_data]: it is a JWT whose header names, by a non-empty
    [kid], the key [key] of the set, and declares an algorithm. *)
Definition selects_key (jwks_data : list Jwt.Jwk) (token : Jwt.Token)
    (key : Jwt.Jwk) : Prop :=
  exists header,
    Jwt.get_unverified_header token = inr header
    /\ Py.truthy (Jwt.kid header) = true
    /\ List.find (fun k => bool_decide (Jwt.jwk_kid k = Jwt.kid header)) jwks_data
       = Some key
    /\ Jwt.alg header <> None.

End Calls.

(** A phrase occurs in a message. *)
Definition mentions (phrase message : string) : Prop :=
  exists before after, message = before ++ phrase ++ after.

End Validator.

(** ** json.dumps and urllib.parse.urlencode, on text *)

Module Json.

Definition hex_digit (upper : bool) (n : Z) : ascii :=
  if n <? 10 then Py.chr (48 + n)
  else Py.chr ((if upper then 55 else 87) + n).

(** One ASCII character of a JSON string, escaped as [json.dumps] does:
    the short escapes, and [\u00XX] for the other control characters and
    for DEL. *)
Definition escape_char (a : ascii) : string :=
  let n := Z.of_N (N_of_ascii a) in
  if n =? 34 then "\" ++ Py.dquote
  else if n =? 92 then "\\"
  else if n =? 10 then "\n"
  else if n =? 13 then "\r"
  else if n =? 9 then "\t"
  else if n =? 8 then "\b"
  else if n =? 12 then "\f"
  else if (n <? 32) || (n =? 127) then
    "\u00" ++ String (hex_digit false (n / 16))
                (String (hex_digit false (n mod 16)) EmptyString)
  else String a EmptyString.

(** Four hexadecimal digits, in lower case. *)
Definition hex4 (n : Z) : string :=
  String (hex_digit false (n / 4096 mod 16))
    (String (hex_digit false (n / 256 mod 16))
       (String (hex_digit false (n / 16 mod 16))
          (String (hex_digit false (n mod 16)) EmptyString))).

(** A code point beyond ASCII, as [json.dumps] writes it with
    [ensure_ascii]: one [\uXXXX] escape, or a surrogate pair beyond the
    basic plane. *)
Definition escape_code_point (cp : Z) : string :=
  if cp <? 65536 then "\u" ++ hex4 cp
  else "\u" ++ hex4 (55296 + (cp - 65536) / 1024)
       ++ "\u" ++ hex4 (56320 + (cp - 65536) mod 1024).

(** The payload of a UTF-8 continuation byte. *)
Definition continuation (a : ascii) : option Z :=
  let n := Z.of_N (N_of_ascii a) in
  if (128 <=? n) && (n <? 192) then Some (n - 128) else None.

(** The text of a JSON string. A string stands for the UTF-8 bytes of a
    Python [str]: ASCII characters are escaped one by one, and a sequence
    of two, three or four bytes is decoded to its code point, which is
    escaped. Bytes that are not UTF-8 stand for no [str] and are copied. *)
Fixpoint escape (s : string) : string :=
  match s with
  | EmptyString => EmptyString
  | String a r1 =>
      let n := Z.of_N (N_of_ascii a) in
      if n <? 128 then escape_char a ++ escape r1
      else
        match r1 with
        | String b r2 =>
            match continuation b with
            | Some x1 =>
                if n <? 192 then String a (escape r1)
                else if n <? 224
                then escape_code_point ((n - 192) * 64 + x1) ++ escape r2
                else
                  match r2 with
                  | String c r3 =>
                      match continuation c with
                      | Some x2 =>
                          if n <? 240
                          then escape_code_point (((n - 224) * 64 + x1) * 64 + x2)
                               ++ escape r3
                          else
                            match r3 with
                            | String d r4 =>
                                match continuation d with
                                | Some x3 =>
                                    if n <? 248
                                    then escape_code_point
                                           ((((n - 240) * 64 + x1) * 64 + x2) * 64 + x3)
                                         ++ escape r4
                                    else String a (escape r1)
                                | None => String a (escape r1)
                                end
                            | EmptyString => String a (escape r1)
                            end
                      | None => String a (escape r1)
                      end
                  | EmptyString => String a (escape r1)
                  end
            | None => String a (escape r1)
            end
        | EmptyString => String a (escape r1)
        end
  end.

(** [json.dumps(s)] for a [str]. *)
Definition dumps_str (s : string) : string :=
  Py.dquote ++ escape s ++ Py.dquote.

(** [json.dumps(d)] for a [dict] from [str] to [str], in insertion order. *)
Definition dumps (d : list (string * string)) : string :=
  "{" ++ Py.join ", " (map (fun kv => dumps_str (fst kv) ++ ": " ++ dumps_str (snd kv)) d)
      ++ "}".

End Json.

Module Url.

(** The characters that [urllib.parse.quote] never escapes. *)
Definition always_safe (a : ascii) : bool :=
  let n := Z.of_N (N_of_ascii a) in
  ((48 <=? n) && (n <=? 57)) || ((65 <=? n) && (n <=? 90))
  || ((97 <=? n) && (n <=? 122))
  || (n =? 95) || (n =? 46) || (n =? 45) || (n =? 126).

Definition quote_char (a : ascii) : string :=
  let n := Z.of_N (N_of_ascii a) in
  if always_safe a then String a EmptyString
  else if n =? 32 then "+"
  else String "%"%char
         (String (Json.hex_digit true (n / 16))
            (String (Json.hex_digit true (n mod 16)) EmptyString)).

(** [urllib.parse.quote_plus(s)]. *)
Fixpoint quote_plus (s : string) : string :=
  match s with
  | EmptyString => EmptyString
  | String a rest => quote_char a ++ quote_plus rest
  end.

(** [urllib.parse.urlencode(params)] for a [dict] from [str] to [str]. *)
Definition urlencode (params : list (string * string)) : string :=
  Py.join "&" (map (fun kv => quote_plus (fst kv) ++ "=" ++ quote_plus (snd kv)) params).

End Url.


(** ** The a2a types that the host agent uses *)

Module A2A.

(** The task states of the lifecycle. *)
Inductive TaskState := submitted | working | completed | failed.

Record Message := {
  messageId : string;
  role : string;
  parts : list string;
  message_contextId : option string
}.

Record Task := {
  id : string;
  contextId : string;
  request : Message;
  state : TaskState;
  status_message : option Message;
  remote_task_id : option string
}.

(** [SendMessageResponse]: [root] is a [SendMessageSuccessResponse] whose
    [result] is a [Task] or a [Message], or a [JSONRPCErrorResponse]. *)
Inductive SendMessageResponse :=
| SuccessTask (result : Task)
| SuccessMessage (result : Message)
| ErrorResponse (code : Z) (message : string).

Record AgentSkill := {
  skill_id : string;
  skill_name : string;
  skill_description : string;
  tags : list string
}.

(** [ExtendedAgentCard]: the card fields that the router reads, with the
    optional [security] dictionary. *)
Record ExtendedAgentCard := {
  name : string;
  url : string;
  description : string;
  skills : list AgentSkill;
  security : option (gmap string string)
}.

(** The terminal states of the lifecycle. *)
Definition terminal (s : TaskState) : bool :=
  match s with
  | completed | failed => true
  | submitted | working => false
  end.

Definition set_state (s : TaskState) (t : Task) : Task :=
  {| id := id t; contextId := contextId t; request := request t; state := s;
     status_message := status_message t; remote_task_id := remote_task_id t |}.

Global Instance TaskState_eq_dec : EqDecision TaskState.
Proof. solve_decision. Defined.

End A2A.

(** ** The persistent task store *)

Module PersistentTaskStore.

Import A2A.

(** Modelled from the spec: [host_agent/persistent_task_store.py] is missing
    from the sources. The store is a map from task id to task, and
    [save(task)] inserts or replaces by id. *)
Definition save (t : Task) (store : gmap string Task) : gmap string Task :=
  <[id t := t]> store.

(** Modelled from the spec: [get(id)] of the missing
    [persistent_task_store.py] gives the task stored under the id, or
    nothing. *)
Definition get (task_id : string) (store : gmap string Task) : option Task :=
  store !! task_id.

(** Modelled from the spec: [set_remote_task_id(id, remote_id)] of the
    missing [persistent_task_store.py] records the remote id and also
    advances the state to [working]. The spec allows no transition from a
    terminal state: a task that is [completed] or [failed] is left as it
    is. An id that is not stored changes nothing. *)
Definition set_remote_task_id (task_id remote_id : string)
    (store : gmap string Task) : gmap string Task :=
  alter (fun t => if terminal (state t) then t
                  else {| id := id t; contextId := contextId t; request := request t;
                          state := working; status_message := status_message t;
                          remote_task_id := Some remote_id |}) task_id store.

(** Modelled from the spec: [task_failed(id, message)] of the missing
    [persistent_task_store.py] advances the state to [failed] and records
    the message; as above, a task in a terminal state is left as it is. An
    id that is not stored changes nothing. *)
Definition task_failed (task_id : string) (msg : Message)
    (store : gmap string Task) : gmap string Task :=
  alter (fun t => if terminal (state t) then t
                  else {| id := id t; contextId := contextId t; request := request t;
                          state := failed; status_message := Some msg;
                          remote_task_id := remote_task_id t |}) task_id store.

(** Every task is stored under its own id. *)
Definition keyed (store : gmap string Task) : Prop :=
  forall k t, store !! k = Some t -> id t = k.

End PersistentTaskStore.

(** ** host_agent/routing_agent.py: the router *)

Module Router.

Import A2A.

(** A Python [dict] whose order matters: keys in order of first insertion. *)
Fixpoint dict_set {V} (k : string) (v : V) (d : list (string * V)) : list (string * V) :=
  match d with
  | [] => [(k, v)]
  | (k', v') :: rest =>
      if String.eqb k' k then (k, v) :: rest else (k', v') :: dict_set k v rest
  end.

Definition dict_get {V} (k : string) (d : list (string * V)) : option V :=
  snd <$> List.find (fun kv => String.eqb (fst kv) k) d.

Definition dict_values {V} (d : list (string * V)) : list V := map snd d.

(** The session state handed in by the caller: a [dict] whose values are
    strings or [None]. [state.get(k)] is [state_get]. *)
Definition state_get (state : gmap string (option string)) (k : string) : option string :=
  mjoin (state !! k).

(** The fields of [RoutingAgent] that take part in routing. The connection
    object of [remote_agent_connection.py] is kept as the card it was built
    from. *)
Record RoutingAgent := {
  remote_agent_connections : list (string * ExtendedAgentCard);
  cards : list (string * ExtendedAgentCard)
}.

Definition new_agent : RoutingAgent :=
  {| remote_agent_connections := []; cards := [] |}.

(** The registration loop of [_async_init_components]; [connects card] tells
    whether building the connection succeeds (a failure is logged and the
    card skipped). *)
Definition register (connects : ExtendedAgentCard -> bool)
    (agent : RoutingAgent) (card : ExtendedAgentCard) : RoutingAgent :=
  if connects card then
    {| remote_agent_connections :=
         dict_set (name card) card (remote_agent_connections agent);
       cards := dict_set (name card) card (cards agent) |}
  else agent.

Definition _async_init_components (connects : ExtendedAgentCard -> bool)
    (agent : RoutingAgent) (agent_cards : list ExtendedAgentCard) : RoutingAgent :=
  fold_left (register connects) agent_cards agent.

(** [RoutingAgent.create]. *)
Definition create (connects : ExtendedAgentCard -> bool)
    (agent_cards : list ExtendedAgentCard) : RoutingAgent :=
  _async_init_components connects new_agent agent_cards.

(** The tag loop of [_find_agent_card_by_type]: every tag that holds a
    colon is cut at the first one; a later tag with the same key wins. *)
Definition add_tag (skill_tags_dict : gmap string string) (tag : string)
    : gmap string string :=
  match Py.split1 ":" tag with
  | Some (key, value) => <[key := value]> skill_tags_dict
  | None => skill_tags_dict
  end.

Definition skill_tags_dict (skill_tags : list string) : gmap string string :=
  fold_left add_tag skill_tags ∅.

(** [filter_query.items() <= skill_tags_dict.items()]. *)
Definition items_subset (filter_query : list (string * string))
    (tags_dict : gmap string string) : bool :=
  forallb (fun kv => bool_decide (tags_dict !! fst kv = Some (snd kv))) filter_query.

Definition skill_matches (filter_query : list (string * string))
    (skill : AgentSkill) : bool :=
  match tags skill with
  | [] => false
  | _ => items_subset filter_query (skill_tags_dict (tags skill))
  end.

Definition card_matches (filter_query : list (string * string))
    (card : ExtendedAgentCard) : bool :=
  existsb (skill_matches filter_query) (skills card).

(** The scan over [self.cards.values()]. *)
Fixpoint scan (filter_query : list (string * string))
    (cs : list ExtendedAgentCard) : option ExtendedAgentCard :=
  match cs with
  | [] => None
  | card :: rest =>
      if card_matches filter_query card then Some card
      else scan filter_query rest
  end.

Definition tenant_specific_agents : list string := ["horizon"].

(** The filter that [_find_agent_card_by_type] builds; [None] is the early
    [return None] for a tenant-specific type without a tenant id. *)
Definition filter_query (agent_type : string)
    (state : gmap string (option string)) : option (list (string * string)) :=
  if Py.str_in agent_type tenant_specific_agents then
    match state_get state "tenant_id" with
    | Some tenant_id =>
        if Py.str_truthy tenant_id
        then Some [("type", agent_type); ("tenant_id", tenant_id)]
        else None
    | None => None
    end
  else Some [("type", agent_type)].

(** [_find_agent_card_by_type(agent_type, state)]. *)
Definition _find_agent_card_by_type (agent : RoutingAgent) (agent_type : string)
    (state : gmap string (option string)) : option ExtendedAgentCard :=
  match filter_query agent_type state with
  | None => None
  | Some q => scan q (dict_values (cards agent))
  end.

(** The value that a skill's tags give to the key [k]: that of the last tag
    of the form [k:v], the first colon cutting the tag. *)
Fixpoint tag_value (k : string) (skill_tags : list string) : option string :=
  match skill_tags with
  | [] => None
  | tag :: rest =>
      match tag_value k rest with
      | Some v => Some v
      | None =>
          match Py.split1 ":" tag with
          | Some (k', v) => if String.eqb k' k then Some v else None
          | None => None
          end
      end
  end.

(** The tags of a skill are a superset of the filter: they give every key
    of the filter the value that the filter asks for. *)
Definition superset (filter_query : list (string * string))
    (skill : AgentSkill) : Prop :=
  Forall (fun kv => tag_value (fst kv) (tags skill) = Some (snd kv)) filter_query.

(** A card offers what the filter asks for when one of its skills does. *)
Definition offers (filter_query : list (string * string))
    (card : ExtendedAgentCard) : Prop :=
  Exists (superset filter_query) (skills card).

(** The names bound at module level in [routing_agent.py]: its imports and
    its own definitions. *)
Definition module_globals : list string :=
  [ "json"; "logging"; "os"; "uuid"; "urlencode"; "httpx";
    "AgentCard"; "Message"; "MessageSendParams"; "Part"; "SendMessageRequest";
    "SendMessageResponse"; "SendMessageSuccessResponse"; "Task"; "TaskState";
    "TaskStatus"; "load_dotenv"; "Agent"; "CallbackContext"; "ReadonlyContext";
    "ToolContext"; "PersistentTaskStore"; "RemoteAgentConnections";
    "TaskUpdateCallback"; "ExtendedAgentCard"; "RoutingAgent";
    "get_initialized_routing_agent_async" ].

Record SendMessageRequest := {
  request_id : string;
  params_message : Message
}.

(** One call of [remote_connection.send_message(message_request, headers)]. *)
Record RemoteCall := {
  to_agent : string;
  message_request : SendMessageRequest;
  headers : list (string * string)
}.

(** A coroutine [_send_message_and_process_response(agent_name,
    message_request, headers, task_id)] handed to the event loop. *)
Record Dispatch := {
  dispatch_call : RemoteCall;
  dispatch_task_id : string
}.

(** What the router acts on besides the session state: the task store, the
    calls made to remote agents so far (latest first), and the coroutines
    handed to the event loop and not yet run. *)
Record World := {
  task_store : gmap string Task;
  remote_calls : list RemoteCall;
  background : list Dispatch
}.

(** How a call ends: a returned value or a raised exception (its text). *)
Inductive Outcome :=
| Returned (value : string)
| Raised (exception : string).

(** The values of the [uuid.uuid4()] calls of one [send_message], in the
    order of the source. *)
Record Uuids := {
  u_task_id : string;
  u_context_id : string;
  u_request_message_id : string;
  u_message_id : string;
  u_request_id : string
}.

Section Dispatching.

(** The environment variable [REDIRECT_URI]. *)
Variable REDIRECT_URI : option string.
(** The remote agents: the answer to the latest call, given all calls made
    so far (latest first). *)
Variable remote : list RemoteCall -> SendMessageResponse.

(** [initiate_oauth_flow(agent_name, security_details, task_id)]. *)
Definition initiate_oauth_flow (agent_name : string)
    (security_details : gmap string string) (task_id : string)
    : list (string * string) :=
  let auth_uri := security_details !! "authorization_uri" in
  if negb (Py.truthy auth_uri)
  then [("error", "Authorization URI not found in security details.")]
  else
    let redirect_uri := default "http://localhost:8083/callback" REDIRECT_URI in
    let state_data := [("task_id", task_id)] in
    let params := [("response_type", "code");
                   ("client_id", agent_name);
                   ("redirect_uri", redirect_uri);
                   ("scope", "openid profile email api:read");
                   ("state", Json.dumps state_data)] in
    let authorization_url :=
      default EmptyString auth_uri ++ "?" ++ Url.urlencode params in
    [("redirect_url", authorization_url); ("task_id", task_id)].

(** [_send_message_and_process_response(agent_name, message_request, headers,
    task_id)]; [fail_message_id] is the [uuid4] drawn for the failure
    message. *)
Definition _send_message_and_process_response (agent : RoutingAgent)
    (d : Dispatch) (fail_message_id : string) (w : World) : World :=
  let agent_name := to_agent (dispatch_call d) in
  let task_id := dispatch_task_id d in
  match dict_get agent_name (remote_agent_connections agent) with
  | None => w
  | Some _ =>
      let calls := dispatch_call d :: remote_calls w in
      match remote calls with
      | SuccessTask remote_task =>
          {| task_store :=
               PersistentTaskStore.set_remote_task_id task_id (id remote_task)
                 (task_store w);
             remote_calls := calls;
             background := background w |}
      | _ =>
          {| task_store :=
               PersistentTaskStore.task_failed task_id
                 {| messageId := fail_message_id; role := "agent";
                    parts := ["Failed to send message"];
                    message_contextId := None |}
                 (task_store w);
             remote_calls := calls;
             background := background w |}
      end
  end.

(** [asyncio.create_task(coro)] as [send_message] writes it: the name
    [asyncio] is looked up in the module's globals first. *)
Definition create_task (d : Dispatch) (w : World) : option World :=
  if Py.str_in "asyncio" module_globals then
    Some {| task_store := task_store w; remote_calls := remote_calls w;
            background := background w ++ [d] |}
  else None.

Definition security_truthy (sec : option (gmap string string)) : bool :=
  match sec with
  | Some m => negb (bool_decide (m = ∅))
  | None => false
  end.

(** [send_message(agent_type, task, tool_context)]: the outcome, the session
    state [tool_context.state] and the world after the call. *)
Definition send_message (agent : RoutingAgent) (u : Uuids)
    (agent_type task : string) (state : gmap string (option string)) (w : World)
    : Outcome * gmap string (option string) * World :=
  match _find_agent_card_by_type agent agent_type state with
  | None =>
      (Returned ("I'm sorry, I can't find an agent with the type '" ++ agent_type
                 ++ "'. Please choose from the available agent types."),
       state, w)
  | Some found_card =>
      let agent_name := name found_card in
      let task_id := u_task_id u in
      let context_id :=
        if Py.truthy (state_get state "context_id")
        then default EmptyString (state_get state "context_id")
        else u_context_id u in
      let state1 := <["context_id" := Some context_id]> state in
      let original_request :=
        {| messageId := u_request_message_id u; role := "user";
           parts := [task]; message_contextId := None |} in
      let new_task :=
        {| id := task_id; contextId := context_id; request := original_request;
           state := submitted; status_message := None; remote_task_id := None |} in
      let w1 := {| task_store := PersistentTaskStore.save new_task (task_store w);
                   remote_calls := remote_calls w;
                   background := background w |} in
      let access_token := state_get state1 "access_token" in
      if security_truthy (security found_card) && negb (Py.truthy access_token)
      then
        let oauth_response :=
          initiate_oauth_flow agent_name (default ∅ (security found_card)) task_id in
        (Returned (Json.dumps oauth_response), state1, w1)
      else
        let state2 := <["active_agent" := Some agent_name]> state1 in
        let message :=
          {| messageId := u_message_id u; role := "user"; parts := [task];
             message_contextId := Some context_id |} in
        let request :=
          {| request_id := u_request_id u; params_message := message |} in
        let hdrs :=
          if Py.truthy access_token
          then [("Authorization", "Bearer " ++ default EmptyString access_token)]
          else [] in
        let d := {| dispatch_call := {| to_agent := agent_name;
                                        message_request := request;
                                        headers := hdrs |};
                    dispatch_task_id := task_id |} in
        match create_task d w1 with
        | None => (Raised "name 'asyncio' is not defined", state2, w1)
        | Some w2 =>
            (Returned ("I've started working on that for you. The task ID is "
                       ++ task_id ++ "."),
             state2, w2)
        end
  end.

End Dispatching.

(** The task that [send_message] persists: a fresh id, the context id of
    the session or else a fresh one, the request, and state [submitted]. *)
Definition new_task (u : Uuids) (task : string)
    (state : gmap string (option string)) : Task :=
  {| id := u_task_id u;
     contextId := if Py.truthy (state_get state "context_id")
                  then default EmptyString (state_get state "context_id")
                  else u_context_id u;
     request := {| messageId := u_request_message_id u; role := "user";
                   parts := [task]; message_contextId := None |};
     A2A.state := submitted;
     status_message := None;
     remote_task_id := None |}.

End Router.

(** ** host_agent/__main__.py: the OAuth callback *)

Module Host.

Import A2A.

(** The query parameters of [GET /callback]. *)
Record CallbackQuery := { query_code : option string; query_state : option string }.

(** [json.loads(state)] followed by [state_data.get("task_id")]:
    [BadState] when either raises ([JSONDecodeError], [AttributeError]). *)
Inductive StateData :=
| BadState
| StateObject (task_id : option string).

(** What [handle_callback] returns: a text with a status, the text built
    from the token endpoint's failed answer, or the redirect. *)
Inductive CallbackResponse :=
| ErrorText (text : string) (status : Z)
| ExchangeError (token_response : Idp.Response)
| RedirectResponse (url : string).

(** The processes side by side: the authorization server's code store, the
    session state kept by the session service, and the router's world with
    the task store ([TASK_STORE] and the router's store are the same
    database). *)
Record System := {
  AUTHORIZATION_CODES : gmap string Idp.AuthCode;
  session : gmap string (option string);
  world : Router.World
}.

Section Callback.

Variable b64decode_utf8 : string -> option string.
Variable clients : gmap string Idp.Client.
Variable cfg : Idp.Config.
(** The JSON reader, and the compact serialization of a signed token. *)
Variable loads_state : string -> StateData.
Variable encode_jwt : Jwt.Header -> Jwt.Claims -> string -> string.

Definition token_text (t : Jwt.Token) : string :=
  match t with
  | Jwt.Signed h c k => encode_jwt h c k
  | Jwt.Opaque s => s
  end.

(** [token_data.get(k)] as a session value. *)
Definition token_field (k : string) (token_data : list (string * Idp.jval))
    : option string :=
  match Idp.body_get k token_data with
  | Some (Idp.JTok t) => Some (token_text t)
  | Some (Idp.JStr s) => Some s
  | _ => None
  end.

(** The form that [handle_callback] posts to the token endpoint. *)
Definition exchange_request (code : string) : Idp.Request :=
  {| Idp.authorization := None;
     Idp.form := {[ "grant_type" := "authorization_code";
                    "code" := code;
                    "redirect_uri" := "http://localhost:8083/callback";
                    "client_id" := "Horizon Agent - Tenant ABC";
                    "client_secret" := "horizon_secret_abc" ]} |}.

(** [handle_callback(request)] at time [now], the token endpoint reading
    [rnd] from its entropy source. *)
Definition handle_callback (now : Z) (rnd : string) (q : CallbackQuery)
    (sys : System) : CallbackResponse * System :=
  if negb (Py.truthy (query_code q)) || negb (Py.truthy (query_state q))
  then (ErrorText "Error: Missing code or state." 400, sys)
  else
    match loads_state (default EmptyString (query_state q)) with
    | BadState => (ErrorText "Error: Invalid state format." 400, sys)
    | StateObject task_id =>
        if negb (Py.truthy task_id)
        then (ErrorText "Error: task_id not in state." 400, sys)
        else
          let task_id := default EmptyString task_id in
          let '(token_response, codes) :=
            Idp.generate_token b64decode_utf8 clients cfg now rnd
              (AUTHORIZATION_CODES sys)
              (exchange_request (default EmptyString (query_code q))) in
          if negb (Idp.status token_response =? 200)
          then (ExchangeError token_response,
                {| AUTHORIZATION_CODES := codes; session := session sys;
                   world := world sys |})
          else
            let token_data := Idp.body token_response in
            let access_token := token_field "access_token" token_data in
            let refresh_token := token_field "refresh_token" token_data in
            let session' :=
              <["refresh_token" := refresh_token]>
                (<["access_token" := access_token]> (session sys)) in
            let store := Router.task_store (world sys) in
            let store' :=
              match PersistentTaskStore.get task_id store with
              | Some task => PersistentTaskStore.save (set_state working task) store
              | None => store
              end in
            (RedirectResponse "http://localhost:8083/",
             {| AUTHORIZATION_CODES := codes; session := session';
                world := {| Router.task_store := store';
                            Router.remote_calls := Router.remote_calls (world sys);
                            Router.background := Router.background (world sys) |} |})
    end.

(** The three operations that write a task's state. *)
Inductive Op :=
| SendMessage (u : Router.Uuids) (agent_type task : string)
| ProcessResponse (d : Router.Dispatch) (fail_message_id : string)
| OAuthCallback (now : Z) (rnd : string) (q : CallbackQuery).

Variable REDIRECT_URI : option string.
Variable remote : list Router.RemoteCall -> SendMessageResponse.
Variable agent : Router.RoutingAgent.

Definition step (op : Op) (sys : System) : System :=
  match op with
  | SendMessage u agent_type task =>
      let '(_, state, w) :=
        Router.send_message REDIRECT_URI agent u agent_type task
          (session sys) (world sys) in
      {| AUTHORIZATION_CODES := AUTHORIZATION_CODES sys; session := state;
         world := w |}
  | ProcessResponse d fail_message_id =>
      {| AUTHORIZATION_CODES := AUTHORIZATION_CODES sys; session := session sys;
         world := Router._send_message_and_process_response remote agent d
                    fail_message_id (world sys) |}
  | OAuthCallback now rnd q => snd (handle_callback now rnd q sys)
  end.

Definition run (ops : list Op) (sys : System) : System :=
  fold_left (fun s op => step op s) ops sys.

(** The state of a task in the store, when it is stored. *)
Definition state_of (task_id : string) (sys : System) : option TaskState :=
  state <$> PersistentTaskStore.get task_id (Router.task_store (world sys)).

(** Task creation draws a task id that the store does not hold yet. *)
Definition fresh (op : Op) (sys : System) : Prop :=
  match op with
  | SendMessage u _ _ =>
      PersistentTaskStore.get (Router.u_task_id u) (Router.task_store (world sys)) = None
  | _ => True
  end.

Fixpoint fresh_run (ops : list Op) (sys : System) : Prop :=
  match ops with
  | [] => True
  | op :: rest => fresh op sys /\ fresh_run rest (step op sys)
  end.

(** The states of a task along a run: before the first operation, then
    after each one. *)
Fixpoint trace (task_id : string) (ops : list Op) (sys : System)
    : list (option TaskState) :=
  state_of task_id sys ::
  match ops with
  | [] => []
  | op :: rest => trace task_id rest (step op sys)
  end.

(** The task that a callback authorizes: the one that its state names,
    when the callback ends in the redirect. *)
Definition authorizes (now : Z) (rnd : string) (q : CallbackQuery)
    (sys : System) (task_id : string) : bool :=
  match fst (handle_callback now rnd q sys),
        loads_state (default EmptyString (query_state q)) with
  | RedirectResponse _, StateObject (Some t) => String.eqb t task_id
  | _, _ => false
  end.

(** What one operation, run on the system [sys], does to the state of the
    task [task_id]. Task creation leaves it or creates the task in state
    [submitted]. The processing of a dispatch result leaves it or moves a
    state that is not terminal to [working] or [failed]. The callback
    writes [working] over whatever state the task that it authorizes is
    stored with, and leaves every other task. *)
Definition transition (op : Op) (sys : System) (task_id : string)
    (before after : option TaskState) : Prop :=
  match op with
  | SendMessage _ _ _ =>
      after = before \/ (before = None /\ after = Some submitted)
  | ProcessResponse _ _ =>
      after = before
      \/ exists s, before = Some s /\ terminal s = false
                   /\ (after = Some working \/ after = Some failed)
  | OAuthCallback now rnd q =>
      if authorizes now rnd q sys task_id
      then after = (fun _ => working) <$> before
      else after = before
  end.

End Callback.

(** The lifecycle order: [submitted], then [working], then one of the two
    terminal states. *)
Definition rank (s : TaskState) : Z :=
  match s with
  | submitted => 0
  | working => 1
  | completed | failed => 2
  end.

(** [s'] is [s] or a state ahead of it. *)
Definition forward (s s' : TaskState) : Prop := s = s' \/ rank s < rank s'.

(** What one operation does to the task store: nothing, the creation of
    a task under a fresh id, the acceptance or the failure recorded by the
    dispatch result, or the callback's write of [working]. *)
Inductive store_change (before after : gmap string Task) : Prop :=
| Unchanged : after = before -> store_change before after
| Created u task st :
    after = PersistentTaskStore.save (Router.new_task u task st) before ->
    PersistentTaskStore.get (Router.u_task_id u) before = None ->
    store_change before after
| Accepted task_id remote_id :
    after = PersistentTaskStore.set_remote_task_id task_id remote_id before ->
    store_change before after
| Failed task_id msg :
    after = PersistentTaskStore.task_failed task_id msg before ->
    store_change before after
| Authorized task_id t :
    PersistentTaskStore.get task_id before = Some t ->
    after = PersistentTaskStore.save (set_state working t) before ->
    store_change before after.

End Host.

(** ** Concrete data for the examples

    The registries are those of the sources; the key material, codes and
    requests are sample values. *)

Module Demo.

(** No request of the examples carries an [Authorization] header. *)
Definition b64decode_utf8 (s : string) : option string := None.

Definition cfg : Idp.Config :=
  {| Idp.PRIVATE_KEY := Some "idp-modulus";
     Idp.JWKS := Some [ {| Jwt.jwk_kid := Some "idp-key-1";
                           Jwt.jwk_n := "idp-modulus" |} ];
     Idp.GENERATE_JWT := true |}.

Definition john : Idp.User :=
  {| Idp.password := "password123"; Idp.user_sub := "john.doe";
     Idp.user_profile := "I am John Doe.";
     Idp.user_email := "john.doe @example.com";
     Idp.user_tenant_id := "tenant-abc" |}.

(** A code issued with the S256 challenge of RFC 7636, appendix B. *)
Definition pkce_code : Idp.AuthCode :=
  {| Idp.code_client_id := "Horizon Agent - Tenant ABC";
     Idp.code_user := john;
     Idp.code_scopes := ["openid"; "profile"; "email"; "api:read"];
     Idp.code_redirect_uri := "http://localhost:8083/callback";
     Idp.expires_at := 1300;
     Idp.code_challenge := Some "E9Melhoa2OwvFrEMTJguCHaoeK1t8URWbuGJSstw-cM";
     Idp.code_challenge_method := Some "S256" |}.

(** A code issued without PKCE, as the router's redirect asks for. *)
Definition plain_code : Idp.AuthCode :=
  {| Idp.code_client_id := "Horizon Agent - Tenant ABC";
     Idp.code_user := john;
     Idp.code_scopes := ["openid"; "profile"; "email"; "api:read"];
     Idp.code_redirect_uri := "http://localhost:8083/callback";
     Idp.expires_at := 1300;
     Idp.code_challenge := None;
     Idp.code_challenge_method := None |}.

Definition codes : gmap string Idp.AuthCode := {[ "c0de" := pkce_code ]}.

Definition exchange (verifier : string) : Idp.Request :=
  {| Idp.authorization := None;
     Idp.form := {[ "grant_type" := "authorization_code";
                    "code" := "c0de";
                    "redirect_uri" := "http://localhost:8083/callback";
                    "code_verifier" := verifier;
                    "client_id" := "Horizon Agent - Tenant ABC";
                    "client_secret" := "horizon_secret_abc" ]} |}.

Definition good_verifier : string := "dBjftJeZ4CVP-mB92K27uhbUJU1p1r_wW1gFWFOEjXk".

Definition horizon_client : Idp.Client :=
  {| Idp.client_secret := "horizon_secret_abc";
     Idp.allowed_scopes := ["api:read"; "openid"; "profile"; "email"];
     Idp.redirect_uri := ["http://localhost:8083/callback"];
     Idp.response_types := ["code"];
     Idp.grant_types := ["authorization_code"];
     Idp.client_name := "Horizon Agent - Tenant ABC" |}.

Definition weather_client : Idp.Client :=
  {| Idp.client_secret := "weather_secret";
     Idp.allowed_scopes := ["api:read"; "openid"];
     Idp.redirect_uri := ["http://localhost:8083/callback"];
     Idp.response_types := ["code"];
     Idp.grant_types := ["authorization_code"];
     Idp.client_name := "Weather Agent" |}.

(** A [client_credentials] request of the weather client; [scope] is the
    form field, absent when [None]. *)
Definition client_credentials (scope : option string) : Idp.Request :=
  {| Idp.authorization := None;
     Idp.form :=
       match scope with
       | Some s => <["scope" := s]> {[ "grant_type" := "client_credentials";
                                       "client_id" := "weather_agent";
                                       "client_secret" := "weather_secret" ]}
       | None => {[ "grant_type" := "client_credentials";
                    "client_id" := "weather_agent";
                    "client_secret" := "weather_secret" ]}
       end |}.

(** The validator's side: the discovery document and key set of the
    authorization server, already cached, and an access token of John's. *)
Definition idp_key : Jwt.Jwk :=
  {| Jwt.jwk_kid := Some "idp-key-1"; Jwt.jwk_n := "idp-modulus" |}.

Definition oidc : Validator.OidcConfig :=
  {| Validator.issuer := Some "http://localhost:5000";
     Validator.jwks_uri := Some "http://localhost:5000/jwks.json" |}.

Definition validator_world : Validator.World :=
  {| Validator.OIDC_CONFIG_URL := None;
     Validator.fetch_config := fun _ => inr oidc;
     Validator.fetch_keys := fun _ => inr [idp_key] |}.

Definition cache : Validator.Cache :=
  {| Validator.oidc_config := Some oidc; Validator.jwks := Some [idp_key] |}.

Definition header : Jwt.Header :=
  {| Jwt.kid := Some "idp-key-1"; Jwt.alg := Some "RS256" |}.

(** Claims of an access token issued at 1000, with the given tenant claim. *)
Definition access_claims (tenant : option string) : Jwt.Claims :=
  {| Jwt.iss := Some "http://localhost:5000";
     Jwt.aud := Some "http://localhost:8081";
     Jwt.sub := Some "john.doe";
     Jwt.exp := Some 4600;
     Jwt.iat := Some 1000;
     Jwt.nbf := None;
     Jwt.auth_time := None;
     Jwt.scope := Some "openid profile email api:read";
     Jwt.tenant_id := tenant;
     Jwt.email := None;
     Jwt.profile := None;
     Jwt.nonce := None |}.

Definition access_token (tenant : option string) : Jwt.Token :=
  Jwt.Signed header (access_claims tenant) "idp-modulus".

(** Claims with an expiry in the past and an issue time still to come. *)
Definition postdated_claims : Jwt.Claims :=
  {| Jwt.iss := Some "http://localhost:5000";
     Jwt.aud := Some "http://localhost:8081";
     Jwt.sub := Some "john.doe";
     Jwt.exp := Some 1000;
     Jwt.iat := Some 5000;
     Jwt.nbf := None;
     Jwt.auth_time := None;
     Jwt.scope := Some "openid";
     Jwt.tenant_id := None;
     Jwt.email := None;
     Jwt.profile := None;
     Jwt.nonce := None |}.

(** The two cards of the router's tests, and a registry of them. *)
Definition weather_card : A2A.ExtendedAgentCard :=
  {| A2A.name := "Weather Agent";
     A2A.url := "http://weather.agent";
     A2A.description := "Provides weather forecasts.";
     A2A.skills := [ {| A2A.skill_id := "get_weather";
                        A2A.skill_name := "Get Weather";
                        A2A.skill_description := "Gets the weather.";
                        A2A.tags := ["type:weather"] |} ];
     A2A.security := None |}.

Definition secure_horizon_card : A2A.ExtendedAgentCard :=
  {| A2A.name := "Horizon Agent - Tenant ABC";
     A2A.url := "http://horizon.agent";
     A2A.description := "Secure order status agent.";
     A2A.skills := [ {| A2A.skill_id := "get_order_status";
                        A2A.skill_name := "Get Order Status";
                        A2A.skill_description := "Gets order status.";
                        A2A.tags := ["type:horizon"; "tenant_id:tenant-abc"] |} ];
     A2A.security := Some {[ "authorization_uri" := "http://idp/auth" ]} |}.

Definition all_cards : list A2A.ExtendedAgentCard := [weather_card; secure_horizon_card].

Definition routing_agent : Router.RoutingAgent :=
  Router.create (fun _ => true) all_cards.

(** The callback's side. [loads_state] reads the one state string of the
    examples, the JSON object that carries the task id [task-1]; the
    serialization of a signed token names its signer. *)
Definition loads_state (s : string) : Host.StateData :=
  if String.eqb s (Json.dumps [("task_id", "task-1")])
  then Host.StateObject (Some "task-1")
  else Host.BadState.

Definition encode_jwt (h : Jwt.Header) (c : Jwt.Claims) (k : string) : string :=
  "jwt-signed-by-" ++ k.

Definition uuids : Router.Uuids :=
  {| Router.u_task_id := "task-1";
     Router.u_context_id := "context-1";
     Router.u_request_message_id := "message-1";
     Router.u_message_id := "message-2";
     Router.u_request_id := "request-1" |}.

Definition empty_world : Router.World :=
  {| Router.task_store := ∅; Router.remote_calls := []; Router.background := [] |}.

(** A system in which the authorization server holds one code, issued
    without PKCE to the Horizon client. *)
Definition system : Host.System :=
  {| Host.AUTHORIZATION_CODES := {[ "c0de" := plain_code ]};
     Host.session := ∅;
     Host.world := empty_world |}.

(** The remote agent of the router's refresh test: the first call is
    answered with an expired-token error, any later call with a task. *)
Definition remote_task : A2A.Task :=
  {| A2A.id := "remote-task-789";
     A2A.contextId := "remote-context-101";
     A2A.request := {| A2A.messageId := "m"; A2A.role := "user";
                       A2A.parts := []; A2A.message_contextId := None |};
     A2A.state := A2A.working;
     A2A.status_message := None;
     A2A.remote_task_id := None |}.

Definition expiring_remote (calls : list Router.RemoteCall) : A2A.SendMessageResponse :=
  match calls with
  | [_] => A2A.ErrorResponse 1 "Token has expired."
  | _ => A2A.SuccessTask remote_task
  end.

(** The coroutine that [send_message] would hand over for a request to the
    Horizon agent with the access token [expired-token]. *)
Definition horizon_dispatch : Router.Dispatch :=
  {| Router.dispatch_call :=
       {| Router.to_agent := "Horizon Agent - Tenant ABC";
          Router.message_request :=
            {| Router.request_id := "request-1";
               Router.params_message :=
                 {| A2A.messageId := "message-2"; A2A.role := "user";
                    A2A.parts := ["check my order"];
                    A2A.message_contextId := Some "context-1" |} |};
          Router.headers := [("Authorization", "Bearer expired-token")] |};
     Router.dispatch_task_id := "task-1" |}.

(** The session of the router's refresh test, and the world that
    [send_message] leaves for a request to the Horizon agent in it. *)
Definition horizon_state : gmap string (option string) :=
  {[ "tenant_id" := Some "tenant-abc";
     "access_token" := Some "expired-token";
     "refresh_token" := Some "test-refresh-token" ]}.

Definition world_after_send : Router.World :=
  snd (Router.send_message None routing_agent uuids "horizon" "check my order"
         horizon_state empty_world).

(** A run: a request to the Horizon agent in the session of the refresh
    test, the remote agent's refusal of the expired token, and then an OAuth
    callback whose state names the same task. *)
Definition expired_session_system : Host.System :=
  {| Host.AUTHORIZATION_CODES := {[ "c0de" := plain_code ]};
     Host.session := horizon_state;
     Host.world := empty_world |}.

Definition callback_query : Host.CallbackQuery :=
  {| Host.query_code := Some "c0de";
     Host.query_state := Some (Json.dumps [("task_id", "task-1")]) |}.

Definition lifecycle_ops : list Host.Op :=
  [ Host.SendMessage uuids "horizon" "check my order";
    Host.ProcessResponse horizon_dispatch "message-3";
    Host.OAuthCallback 1000 "r1" callback_query ].

(** A card with a security block that names no authorization URI. *)
Definition bare_security_card : A2A.ExtendedAgentCard :=
  {| A2A.name := "Calendar Agent";
     A2A.url := "http://calendar.agent";
     A2A.description := "Secure calendar agent.";
     A2A.skills := [ {| A2A.skill_id := "get_events";
                        A2A.skill_name := "Get Events";
                        A2A.skill_description := "Gets events.";
                        A2A.tags := ["type:calendar"] |} ];
     A2A.security := Some {[ "type" := "oauth2" ]} |}.

Definition calendar_agent : Router.RoutingAgent :=
  Router.create (fun _ => true) [bare_security_card].

End Demo.

(** ** The authorization server and the validator, deployed together *)

Module Deployment.

(** The validator's cache [c] holds the key set that the server with
    configuration [cfg] publishes and a discovery document that names the
    server as issuer; the server signs, and the first published key,
    with the non-empty key id [kid], is the public half of its signing
    key [pk]. *)
Definition provisioned (cfg : Idp.Config) (c : Validator.Cache)
    (key : Jwt.Jwk) (kid pk : string) : Prop :=
  Idp.GENERATE_JWT cfg = true
  /\ Idp.PRIVATE_KEY cfg = Some pk
  /\ Jwt.jwk_kid key = Some kid
  /\ kid <> EmptyString
  /\ Jwt.jwk_n key = pk
  /\ exists rest doc,
       Idp.JWKS cfg = Some (key :: rest)
       /\ Validator.jwks c = Some (key :: rest)
       /\ Validator.oidc_config c = Some doc
       /\ Validator.issuer doc = Some "http://localhost:5000".

End Deployment.

(** ** idp/app.py: the browser-facing views [authorize] and [consent] *)

Module IdpFlow.

(** [session["auth_request"]]: the query arguments of the [GET /authorize]
    that stored it, with the client's name added. Its only writer has
    checked that [client_id] names a client and that [redirect_uri] is
    present, so the two are kept as fields; the other arguments are read
    from [args], the whole [request.args.to_dict()]. *)
Record AuthRequest := {
  client_id : string;
  redirect_uri : string;
  args : gmap string string;
  client_name : string
}.

(** The Flask session of one browser: the keys [auth_request] and [user]. *)
Record Session := {
  auth_request : option AuthRequest;
  user : option Idp.User
}.

Definition empty_session : Session := {| auth_request := None; user := None |}.

(** A value handed to [urlencode]; [None] is rendered as the text
    [None], a number in decimal. *)
Inductive Param :=
| PStr (s : string)
| PTok (t : Jwt.Token)
| PInt (z : Z)
| PNone.

Definition pstr (o : option string) : Param :=
  match o with Some s => PStr s | None => PNone end.

Definition ptok (o : option Jwt.Token) : Param :=
  match o with Some t => PTok t | None => PNone end.

Inductive Component := Query | Fragment.

(** The target of a redirect: [urlunparse] of the parsed [base] with its
    query, or its fragment, replaced by [urlencode(params)]. *)
Record Location := {
  base : string;
  replaced : Component;
  params : list (string * Param)
}.

(** The templates of [render_template], with their arguments. *)
Inductive Page :=
| Login (client_name : string) (error : option string)
| Consent (auth_request : option AuthRequest).

(** What a view returns; [InternalError] is an exception that escapes it. *)
Inductive Response :=
| Rendered (page : Page)
| Text (body : string) (status : Z)
| Redirect (location : Location)
| InternalError.

Section Views.

Variable clients : gmap string Idp.Client.
Variable users : gmap string Idp.User.
Variable cfg : Idp.Config.

(** [authorize()] for [GET], on the query arguments. *)
Definition authorize_get (request_args : gmap string string) (session : Session)
    : Response * Session :=
  match request_args !! "client_id" ≫= (fun id => pair id <$> clients !! id),
        request_args !! "redirect_uri" with
  | Some (id, client), Some uri =>
      if Py.str_in uri (Idp.redirect_uri client) then
        (Rendered (Login (Idp.client_name client) None),
         {| auth_request := Some {| client_id := id;
                                    redirect_uri := uri;
                                    args := request_args;
                                    client_name := Idp.client_name client |};
            user := user session |})
      else (Text "Invalid client or redirect URI" 400, session)
  | _, _ => (Text "Invalid client or redirect URI" 400, session)
  end.

(** [authorize()] for [POST], on the form. *)
Definition authorize_post (form : gmap string string) (session : Session)
    : Response * Session :=
  let password := form !! "password" in
  match form !! "username" ≫= (fun name => users !! name) with
  | Some u =>
      if bool_decide (Some (Idp.password u) = password) then
        (Rendered (Consent (auth_request session)),
         {| auth_request := auth_request session; user := Some u |})
      else
        match auth_request session with
        | Some ar =>
            (Rendered (Login (client_name ar) (Some "Invalid username or password")),
             session)
        | None => (InternalError, session)
        end
  | None =>
      match auth_request session with
      | Some ar =>
          (Rendered (Login (client_name ar) (Some "Invalid username or password")),
           session)
      | None => (InternalError, session)
      end
  end.

(** The redirect that reports a denial, or a response type that
    [consent] does not serve. *)
Definition denied (ar : AuthRequest) : Response :=
  Redirect {| base := redirect_uri ar;
              replaced := Query;
              params := [("error", PStr "access_denied");
                         ("error_description", PStr "User denied access");
                         ("state", pstr (args ar !! "state"))] |}.

(** [consent()] at time [now], over the code store; [rnd] is the entropy
    read ([os.urandom(16).hex()] for a code). *)
Definition consent (now : Z) (rnd : string) (form : gmap string string)
    (session : Session) (AUTHORIZATION_CODES : gmap string Idp.AuthCode)
    : Response * Session * gmap string Idp.AuthCode :=
  match auth_request session, user session with
  | Some ar, Some u =>
      let scopes := Py.split " " (default EmptyString (args ar !! "scope")) in
      let response_type := args ar !! "response_type" in
      let state := args ar !! "state" in
      if bool_decide (form !! "consent" = Some "true") then
        if bool_decide (response_type = Some "token id_token")
           || bool_decide (response_type = Some "id_token token")
        then
          match Idp.create_access_token cfg now rnd (client_id ar) scopes
                  (Some (Idp.user_sub u)) (Some (Idp.user_tenant_id u)),
                Idp.create_id_token cfg now (client_id ar) u scopes with
          | Some access_token, Some id_token =>
              (Redirect {| base := redirect_uri ar;
                           replaced := Fragment;
                           params := [("access_token", PTok access_token);
                                      ("id_token", ptok id_token);
                                      ("token_type", PStr "Bearer");
                                      ("expires_in", PInt 3600);
                                      ("scope", PStr (Py.join " " scopes));
                                      ("state", pstr state)] |},
               empty_session, AUTHORIZATION_CODES)
          | _, _ => (InternalError, session, AUTHORIZATION_CODES)
          end
        else if bool_decide (response_type = Some "code") then
          let auth_code := rnd in
          (Redirect {| base := redirect_uri ar;
                       replaced := Query;
                       params := [("code", PStr auth_code); ("state", pstr state)] |},
           empty_session,
           <[auth_code :=
               {| Idp.code_client_id := client_id ar;
                  Idp.code_user := u;
                  Idp.code_scopes := scopes;
                  Idp.code_redirect_uri := redirect_uri ar;
                  Idp.expires_at := now + 300;
                  Idp.code_challenge := args ar !! "code_challenge";
                  Idp.code_challenge_method := args ar !! "code_challenge_method" |}]>
             AUTHORIZATION_CODES)
        else (denied ar, session, AUTHORIZATION_CODES)
      else (denied ar, session, AUTHORIZATION_CODES)
  | _, _ => (Text "Invalid session" 400, session, AUTHORIZATION_CODES)
  end.

(** The requests of one browser and of the clients behind it. *)
Inductive Request :=
| AuthorizeGet (request_args : gmap string string)
| AuthorizePost (form : gmap string string)
| ConsentPost (form : gmap string string)
| TokenPost (request : Idp.Request).

(** The server's state on that browser's behalf: its session and the code
    store. *)
Record State := {
  session : Session;
  codes : gmap string Idp.AuthCode
}.

Definition initial : State := {| session := empty_session; codes := ∅ |}.

Variable b64decode_utf8 : string -> option string.

(** One request at time [now], the server reading [rnd] from its entropy
    source. *)
Definition step (now : Z) (rnd : string) (r : Request) (st : State) : State :=
  match r with
  | AuthorizeGet request_args =>
      {| session := snd (authorize_get request_args (session st)); codes := codes st |}
  | AuthorizePost form =>
      {| session := snd (authorize_post form (session st)); codes := codes st |}
  | ConsentPost form =>
      let '(_, s, c) := consent now rnd form (session st) (codes st) in
      {| session := s; codes := c |}
  | TokenPost request =>
      {| session := session st;
         codes := snd (Idp.generate_token b64decode_utf8 clients cfg now rnd
                         (codes st) request) |}
  end.

(** A run: each request with its time and entropy. *)
Definition run (rs : list (Z * string * Request)) (st : State) : State :=
  fold_left (fun s '(now, rnd, r) => step now rnd r s) rs st.

(** A client and redirect URI that the registry pairs. *)
Definition registered (id uri : string) : Prop :=
  exists client, clients !! id = Some client /\ In uri (Idp.redirect_uri client).

(** What every reachable state satisfies: the session's request names a
    registered client with one of its redirect URIs, the session's user
    is a registered user, and so it is for every stored code. *)
Definition sound (st : State) : Prop :=
  (forall ar, auth_request (session st) = Some ar ->
     registered (client_id ar) (redirect_uri ar))
  /\ (forall u, user (session st) = Some u ->
        exists name, users !! name = Some u)
  /\ (forall code data, codes st !! code = Some data ->
        registered (Idp.code_client_id data) (Idp.code_redirect_uri data)
        /\ exists name, users !! name = Some (Idp.code_user data)).

End Views.

End IdpFlow.

(** ** horizon_agent/__main__.py: the skill that the agent advertises *)

Module Horizon.

(** The [AgentSkill] that [main] builds for [--tenant-id tenant_id]; the
    [examples] are not among the fields that the router reads. *)
Definition skill (tenant_id : string) : A2A.AgentSkill :=
  {| A2A.skill_id := "get_order_status";
     A2A.skill_name := "Get Order Status";
     A2A.skill_description := "Retrieves the status of a specific order.";
     A2A.tags := ["type:horizon"; "tenant_id:" ++ tenant_id] |}.

End Horizon.

(** ** host_agent/routing_agent.py: the registry of cards *)

Module Registration.

Import A2A Router.

(** What registration maintains: the two dictionaries go together, no name
    is held twice, every card is held under its own name, and every card
    held connected and satisfies [Q]. *)
Definition registry_invariant (connects : ExtendedAgentCard -> bool)
    (Q : ExtendedAgentCard -> Prop) (agent : RoutingAgent) : Prop :=
  remote_agent_connections agent = cards agent
  /\ List.NoDup (map fst (cards agent))
  /\ Forall (fun kv => name (snd kv) = fst kv /\ Q (snd kv)
                       /\ connects (snd kv) = true) (cards agent).

End Registration.

(** ** Further sample data *)

Module Scenario.

(** A decoder that knows the one header of the examples: the Base64 of
    [weather_agent:weather_secret]. *)
Definition b64decode_utf8 (s : string) : option string :=
  if String.eqb s "d2VhdGhlcl9hZ2VudDp3ZWF0aGVyX3NlY3JldA=="
  then Some "weather_agent:weather_secret"
  else None.

(** A [client_credentials] request that carries the weather client's
    credentials in its header and another client's, with a wrong secret,
    in its form. *)
Definition basic_request : Idp.Request :=
  {| Idp.authorization := Some "Basic d2VhdGhlcl9hZ2VudDp3ZWF0aGVyX3NlY3JldA==";
     Idp.form := {[ "grant_type" := "client_credentials";
                    "scope" := "api:read openid";
                    "client_id" := "airbnb_agent";
                    "client_secret" := "wrong" ]} |}.

(** The same form under a bearer header, which is not a Basic one. *)
Definition bearer_request : Idp.Request :=
  {| Idp.authorization := Some "Bearer abc";
     Idp.form := {[ "grant_type" := "client_credentials";
                    "scope" := "api:read openid";
                    "client_id" := "weather_agent";
                    "client_secret" := "weather_secret" ]} |}.

(** The refresh that the router's test expects of the Horizon client. *)
Definition refresh_request : Idp.Request :=
  {| Idp.authorization := None;
     Idp.form := {[ "grant_type" := "refresh_token";
                    "refresh_token" := "test-refresh-token";
                    "client_id" := "Horizon Agent - Tenant ABC";
                    "client_secret" := "horizon_secret_abc" ]} |}.

(** The exchange of the code [c0de] as the host's callback posts it, with
    a verifier added. *)
Definition exchange_with_stray_verifier : Idp.Request :=
  {| Idp.authorization := None;
     Idp.form := {[ "grant_type" := "authorization_code";
                    "code" := "c0de";
                    "redirect_uri" := "http://localhost:8083/callback";
                    "code_verifier" := "anything";
                    "client_id" := "Horizon Agent - Tenant ABC";
                    "client_secret" := "horizon_secret_abc" ]} |}.

Definition plain_codes : gmap string Idp.AuthCode := {[ "c0de" := Demo.plain_code ]}.

(** A validator that cannot reach the authorization server. *)
Definition offline_world : Validator.World :=
  {| Validator.OIDC_CONFIG_URL := None;
     Validator.fetch_config := fun _ => inl "connection refused";
     Validator.fetch_keys := fun _ => inl "connection refused" |}.

(** An ID token of John's for the Horizon client, issued at 1000. *)
Definition id_token : Jwt.Token :=
  Jwt.Signed Demo.header
    {| Jwt.iss := Some "http://localhost:5000";
       Jwt.aud := Some "Horizon Agent - Tenant ABC";
       Jwt.sub := Some "john.doe";
       Jwt.exp := Some 4600;
       Jwt.iat := Some 1000;
       Jwt.nbf := None;
       Jwt.auth_time := Some 1000;
       Jwt.scope := Some "openid profile";
       Jwt.tenant_id := None;
       Jwt.email := Some "john.doe @example.com";
       Jwt.profile := Some "I am John Doe.";
       Jwt.nonce := None |}
    "idp-modulus".

(** A browser's visit: the authorization request that the router's
    redirect leads to, John's login, and his consent. *)
Definition authorization_args : gmap string string :=
  {[ "response_type" := "code";
     "client_id" := "Horizon Agent - Tenant ABC";
     "redirect_uri" := "http://localhost:8083/callback";
     "scope" := "openid profile email api:read";
     "state" := "{" ++ Py.dquote ++ "task_id" ++ Py.dquote ++ ": "
                ++ Py.dquote ++ "task-1" ++ Py.dquote ++ "}" ]}.

Definition login_form : gmap string string :=
  {[ "username" := "john.doe"; "password" := "password123" ]}.

Definition consent_form : gmap string string := {[ "consent" := "true" ]}.

Definition visit : list (Z * string * IdpFlow.Request) :=
  [ (980, "r0", IdpFlow.AuthorizeGet authorization_args);
    (990, "r1", IdpFlow.AuthorizePost login_form);
    (1000, "c0de", IdpFlow.ConsentPost consent_form) ].

(** The session of that browser after the login. *)
Definition authorization_request : IdpFlow.AuthRequest :=
  {| IdpFlow.client_id := "Horizon Agent - Tenant ABC";
     IdpFlow.redirect_uri := "http://localhost:8083/callback";
     IdpFlow.args := authorization_args;
     IdpFlow.client_name := "Horizon Agent - Tenant ABC" |}.

Definition consenting_session : IdpFlow.Session :=
  {| IdpFlow.auth_request := Some authorization_request;
     IdpFlow.user := Some Demo.john |}.

(** The callback's side when the stored code carries a PKCE challenge. *)
Definition pkce_system : Host.System :=
  {| Host.AUTHORIZATION_CODES := Demo.codes;
     Host.session := ∅;
     Host.world := Demo.empty_world |}.

(** A second draw of identifiers, for a second request of a session. *)
Definition uuids2 : Router.Uuids :=
  {| Router.u_task_id := "task-2";
     Router.u_context_id := "context-2";
     Router.u_request_message_id := "message-4";
     Router.u_message_id := "message-5";
     Router.u_request_id := "request-2" |}.

End Scenario.

(** * Properties *)

(** ** Python helpers *)

(** The S256 transform on the test vector of RFC 7636, appendix B. *)
Example computed_challenge_rfc7636 :
  computed_challenge "dBjftJeZ4CVP-mB92K27uhbUJU1p1r_wW1gFWFOEjXk"
  = "E9Melhoa2OwvFrEMTJguCHaoeK1t8URWbuGJSstw-cM".
Proof. vm_compute. reflexivity. Qed.

Example sha256_first_constants :
  firstn 2 Sha256.K = [0x428a2f98; 0x71374491]
  /\ nth 63 Sha256.K 0 = 0xc67178f2
  /\ firstn 2 Sha256.H0 = [0x6a09e667; 0xbb67ae85].
Proof. vm_compute. repeat split. Qed.

Example split_empty : Py.split " " EmptyString = [EmptyString].
Proof. reflexivity. Qed.

Example split_scopes : Py.split " " "openid  email" = ["openid"; EmptyString; "email"].
Proof. reflexivity. Qed.

Lemma str_in_In x l : Py.str_in x l = true <-> In x l.
Proof.
  unfold Py.str_in. rewrite existsb_exists. split.
  - intros [y [Hy Heq]]. apply String.eqb_eq in Heq. by subst.
  - intros H. exists x. split; [done | apply String.eqb_refl].
Qed.

Lemma str_truthy_ne s : Py.str_truthy s = true <-> s <> EmptyString.
Proof. destruct s; cbn; split; congruence. Qed.

(** ** The token endpoint *)

Section TokenEndpoint.

Variable b64decode_utf8 : string -> option string.
Variable clients : gmap string Idp.Client.
Variable cfg : Idp.Config.

Local Abbreviation generate_token := (Idp.generate_token b64decode_utf8 clients cfg).
Local Abbreviation authenticates := (Idp.authenticates b64decode_utf8 clients).

(** Past client authentication the view is a case analysis on the grant
    type; the [authorization_code] branch pops the code before anything
    else. *)
Lemma generate_token_authenticated now rnd codes req client_id client :
  authenticates req client_id client ->
  generate_token now rnd codes req =
    if bool_decide (Idp.form req !! "grant_type" = Some "client_credentials")
    then (Idp.client_credentials_grant cfg now rnd client_id client req, codes)
    else if bool_decide (Idp.form req !! "grant_type" = Some "authorization_code")
    then
      match Idp.form req !! "code" ≫= (fun code => pair code <$> codes !! code) with
      | Some (code, auth_code_data) =>
          (Idp.redeem cfg now rnd client_id req auth_code_data, delete code codes)
      | None =>
          (Idp.error_response 400 "invalid_grant"
             (Some "Invalid or expired authorization code."), codes)
      end
    else (Idp.error_response 400 "unsupported_grant_type" None, codes).
Proof.
  intros [Hcred Hclient]. unfold Idp.generate_token.
  rewrite Hcred. cbn. rewrite Hclient.
  rewrite bool_decide_eq_true_2 by reflexivity. cbn.
  repeat case_bool_decide; try reflexivity.
  destruct (Idp.form req !! "code") as [code|]; cbn; [|reflexivity].
  destruct (codes !! code); reflexivity.
Qed.

(** An [authorization_code] request whose code is stored: the answer is
    that of [redeem], and the code is gone whatever the answer. *)
Lemma exchange_pops now rnd codes req client_id client code data :
  authenticates req client_id client ->
  Idp.form req !! "grant_type" = Some "authorization_code" ->
  Idp.form req !! "code" = Some code ->
  codes !! code = Some data ->
  generate_token now rnd codes req =
    (Idp.redeem cfg now rnd client_id req data, delete code codes).
Proof.
  intros Hauth Hgrant Hcode Hdata.
  rewrite (generate_token_authenticated _ _ _ _ _ _ Hauth), Hgrant, Hcode.
  cbn. rewrite Hdata. reflexivity.
Qed.

(** An [authorization_code] request whose code is not stored. *)
Lemma exchange_unknown_code now rnd codes req client_id client code :
  authenticates req client_id client ->
  Idp.form req !! "grant_type" = Some "authorization_code" ->
  Idp.form req !! "code" = Some code ->
  codes !! code = None ->
  generate_token now rnd codes req =
    (Idp.error_response 400 "invalid_grant"
       (Some "Invalid or expired authorization code."), codes).
Proof.
  intros Hauth Hgrant Hcode Hdata.
  rewrite (generate_token_authenticated _ _ _ _ _ _ Hauth), Hgrant, Hcode.
  cbn. rewrite Hdata. reflexivity.
Qed.

(** Every answer of [redeem] is a success, one of the two grant errors, or
    the framework's 500 when signing raises. *)
Lemma redeem_answers now rnd client_id req data r :
  r = Idp.redeem cfg now rnd client_id req data ->
  Idp.status r = 200
  \/ (Idp.status r = 400
      /\ (Idp.body_get "error" (Idp.body r) = Some (Idp.JStr "invalid_grant")
          \/ Idp.body_get "error" (Idp.body r) = Some (Idp.JStr "invalid_request")))
  \/ r = Idp.server_error.
Proof.
  intros ->. unfold Idp.redeem.
  destruct (negb _ || _); [cbn; auto 6|].
  destruct (_ <? _); [cbn; auto 6|].
  destruct (Py.truthy _).
  - destruct (Idp.form req !! "code_verifier") as [v|]; [|cbn; auto 6].
    destruct (negb (Py.str_truthy v)); [cbn; auto 6|].
    destruct (negb (bool_decide _)); [cbn; auto 6|].
    destruct (Idp.create_access_token _ _ _ _ _ _ _); [|auto].
    destruct (Idp.create_id_token _ _ _ _ _); cbn; auto.
  - destruct (Idp.create_access_token _ _ _ _ _ _ _); [|auto].
    destruct (Idp.create_id_token _ _ _ _ _); cbn; auto.
Qed.


(** A valid exchange: matching redirect URI and client, a code that has not
    expired, and a verifier that hashes to the stored challenge. *)
Lemma redeem_success now rnd client_id req data verifier kid pk :
  Idp.can_sign cfg kid pk ->
  Idp.form req !! "redirect_uri" = Some (Idp.code_redirect_uri data) ->
  Idp.code_client_id data = client_id ->
  now <= Idp.expires_at data ->
  Idp.form req !! "code_verifier" = Some verifier ->
  verifier <> EmptyString ->
  Idp.code_challenge data = Some (computed_challenge verifier) ->
  Idp.redeem cfg now rnd client_id req data =
    let user := Idp.code_user data in
    let scopes := Idp.code_scopes data in
    let header := {| Jwt.kid := Some kid; Jwt.alg := Some "RS256" |} in
    {| Idp.status := 200;
       Idp.body :=
         [("access_token",
           Idp.JTok (Jwt.Signed header
             {| Jwt.iss := Some "http://localhost:5000";
                Jwt.aud := Some "http://localhost:8081";
                Jwt.sub := Some (if Py.str_truthy (Idp.user_sub user)
                                 then Idp.user_sub user else client_id);
                Jwt.exp := Some (now + 3600);
                Jwt.iat := Some now;
                Jwt.nbf := None;
                Jwt.auth_time := None;
                Jwt.scope := Some (Py.join " " scopes);
                Jwt.tenant_id := if Py.str_truthy (Idp.user_tenant_id user)
                                 then Some (Idp.user_tenant_id user) else None;
                Jwt.email := None;
                Jwt.profile := None;
                Jwt.nonce := None |} pk));
          ("id_token",
           Idp.JTok (Jwt.Signed header
             {| Jwt.iss := Some "http://localhost:5000";
                Jwt.aud := Some client_id;
                Jwt.sub := Some (Idp.user_sub user);
                Jwt.exp := Some (now + 3600);
                Jwt.iat := Some now;
                Jwt.nbf := None;
                Jwt.auth_time := Some now;
                Jwt.scope := Some (Py.join " " scopes);
                Jwt.tenant_id := None;
                Jwt.email := Some (Idp.user_email user);
                Jwt.profile := Some (Idp.user_profile user);
                Jwt.nonce := None |} pk));
          ("token_type", Idp.JStr "Bearer");
          ("expires_in", Idp.JNum 3600);
          ("scope", Idp.JStr (Py.join " " scopes))] |}.
Proof.
  intros (Hgen & Hpk & key & rest & Hjwks & Hkid) Huri Hcid Hexp Hver Hne Hch.
  unfold Idp.redeem. rewrite Huri, Hcid, Hver, Hch.
  rewrite bool_decide_eq_true_2 by reflexivity.
  rewrite String.eqb_refl. cbn [negb orb].
  replace (Idp.expires_at data <? now) with false
    by (symmetry; apply Z.ltb_ge; lia).
  apply str_truthy_ne in Hne. rewrite Hne. cbn [negb].
  rewrite bool_decide_eq_true_2 by reflexivity. cbn [negb].
  assert (Hfail :
    (if Py.truthy (Some (computed_challenge verifier))
     then @None Idp.Response else None) = None) by (destruct (Py.truthy _); reflexivity).
  rewrite Hfail.
  unfold Idp.create_access_token, Idp.create_id_token, Idp.generate_jwt.
  rewrite Hgen, Hjwks, Hpk, Hkid. cbn.
  destruct (Py.str_truthy (Idp.user_sub _)), (Py.str_truthy (Idp.user_tenant_id _));
    reflexivity.
Qed.

(** C1. A valid authorization-code exchange (authenticated client, stored
    code, matching redirect URI and client, code not expired, a verifier
    present whose S256 transform is the stored challenge) on a server that
    can sign succeeds with status 200, removes the code, and issues an
    access token and an ID token whose claims are those of the stored user
    and scopes; any later exchange of the same code, by any authenticated
    client, fails with [invalid_grant] and leaves the store as it was. *)
Theorem authorization_code_exchange_succeeds_once
    now rnd codes req client_id client code data verifier kid pk
    now2 rnd2 req2 client_id2 client2 :
  authenticates req client_id client ->
  Idp.form req !! "grant_type" = Some "authorization_code" ->
  Idp.form req !! "code" = Some code ->
  codes !! code = Some data ->
  Idp.can_sign cfg kid pk ->
  Idp.form req !! "redirect_uri" = Some (Idp.code_redirect_uri data) ->
  Idp.code_client_id data = client_id ->
  now <= Idp.expires_at data ->
  Idp.form req !! "code_verifier" = Some verifier ->
  verifier <> EmptyString ->
  Idp.code_challenge data = Some (computed_challenge verifier) ->
  authenticates req2 client_id2 client2 ->
  Idp.form req2 !! "grant_type" = Some "authorization_code" ->
  Idp.form req2 !! "code" = Some code ->
  let first := generate_token now rnd codes req in
  let second := generate_token now2 rnd2 (snd first) req2 in
  let user := Idp.code_user data in
  let scopes := Idp.code_scopes data in
  let header := {| Jwt.kid := Some kid; Jwt.alg := Some "RS256" |} in
  Idp.status (fst first) = 200
  /\ snd first = delete code codes
  /\ Idp.body_get "access_token" (Idp.body (fst first)) =
       Some (Idp.JTok (Jwt.Signed header
         {| Jwt.iss := Some "http://localhost:5000";
            Jwt.aud := Some "http://localhost:8081";
            Jwt.sub := Some (if Py.str_truthy (Idp.user_sub user)
                             then Idp.user_sub user else client_id);
            Jwt.exp := Some (now + 3600);
            Jwt.iat := Some now;
            Jwt.nbf := None;
            Jwt.auth_time := None;
            Jwt.scope := Some (Py.join " " scopes);
            Jwt.tenant_id := if Py.str_truthy (Idp.user_tenant_id user)
                             then Some (Idp.user_tenant_id user) else None;
            Jwt.email := None;
            Jwt.profile := None;
            Jwt.nonce := None |} pk))
  /\ Idp.body_get "id_token" (Idp.body (fst first)) =
       Some (Idp.JTok (Jwt.Signed header
         {| Jwt.iss := Some "http://localhost:5000";
            Jwt.aud := Some client_id;
            Jwt.sub := Some (Idp.user_sub user);
            Jwt.exp := Some (now + 3600);
            Jwt.iat := Some now;
            Jwt.nbf := None;
            Jwt.auth_time := Some now;
            Jwt.scope := Some (Py.join " " scopes);
            Jwt.tenant_id := None;
            Jwt.email := Some (Idp.user_email user);
            Jwt.profile := Some (Idp.user_profile user);
            Jwt.nonce := None |} pk))
  /\ Idp.body_get "scope" (Idp.body (fst first)) =
       Some (Idp.JStr (Py.join " " scopes))
  /\ Idp.status (fst second) = 400
  /\ Idp.body_get "error" (Idp.body (fst second)) = Some (Idp.JStr "invalid_grant")
  /\ snd second = snd first.
Proof.
  intros Hauth Hgrant Hcode Hdata Hsign Huri Hcid Hexp Hver Hne Hch
         Hauth2 Hgrant2 Hcode2.
  cbv zeta.
  rewrite (exchange_pops _ _ _ _ _ _ _ _ Hauth Hgrant Hcode Hdata).
  rewrite (redeem_success _ _ _ _ _ _ _ _ Hsign Huri Hcid Hexp Hver Hne Hch).
  cbn [fst snd].
  rewrite (exchange_unknown_code _ _ _ _ _ _ code Hauth2 Hgrant2 Hcode2)
    by apply lookup_delete_eq.
  repeat split; reflexivity.
Qed.

(** C9. The code is popped before the redirect URI, client, expiry and PKCE
    checks run: whatever the first exchange answers (success,
    [invalid_grant], [invalid_request], or a 500 when signing raises), the
    store afterwards is the old store without the code, and every later
    exchange of that code by an authenticated client, whatever its other
    parameters, answers [invalid_grant] with the description of an unknown
    code. *)
Theorem failed_exchange_consumes_code
    now rnd codes req client_id client code data
    now2 rnd2 req2 client_id2 client2 :
  authenticates req client_id client ->
  Idp.form req !! "grant_type" = Some "authorization_code" ->
  Idp.form req !! "code" = Some code ->
  codes !! code = Some data ->
  authenticates req2 client_id2 client2 ->
  Idp.form req2 !! "grant_type" = Some "authorization_code" ->
  Idp.form req2 !! "code" = Some code ->
  let first := generate_token now rnd codes req in
  let second := generate_token now2 rnd2 (snd first) req2 in
  fst first = Idp.redeem cfg now rnd client_id req data
  /\ (Idp.status (fst first) = 200
      \/ (Idp.status (fst first) = 400
          /\ (Idp.body_get "error" (Idp.body (fst first)) = Some (Idp.JStr "invalid_grant")
              \/ Idp.body_get "error" (Idp.body (fst first))
                 = Some (Idp.JStr "invalid_request")))
      \/ fst first = Idp.server_error)
  /\ snd first = delete code codes
  /\ snd first !! code = None
  /\ second = (Idp.error_response 400 "invalid_grant"
                 (Some "Invalid or expired authorization code."), snd first).
Proof.
  intros Hauth Hgrant Hcode Hdata Hauth2 Hgrant2 Hcode2. cbv zeta.
  rewrite (exchange_pops _ _ _ _ _ _ _ _ Hauth Hgrant Hcode Hdata).
  cbn [fst snd].
  split; [reflexivity|]. split; [eapply redeem_answers; reflexivity|].
  split; [reflexivity|]. split; [apply lookup_delete_eq|].
  apply (exchange_unknown_code _ _ _ _ _ _ code Hauth2 Hgrant2 Hcode2).
  apply lookup_delete_eq.
Qed.

(** C10. A [client_credentials] request without a [scope] field, or with an
    empty one, is refused with 400 [invalid_scope] unless the client's
    [allowed_scopes] holds the empty string: splitting the empty string on
    spaces gives the list with one empty scope, and that scope is checked
    like any other. The code store is not touched. *)
Theorem client_credentials_empty_scope_refused
    now rnd codes req client_id client :
  authenticates req client_id client ->
  Idp.form req !! "grant_type" = Some "client_credentials" ->
  Idp.form req !! "scope" = None \/ Idp.form req !! "scope" = Some EmptyString ->
  ~ In EmptyString (Idp.allowed_scopes client) ->
  Py.split " " (default EmptyString (Idp.form req !! "scope")) = [EmptyString]
  /\ generate_token now rnd codes req =
       ({| Idp.status := 400; Idp.body := [("error", Idp.JStr "invalid_scope")] |},
        codes).
Proof.
  intros Hauth Hgrant Hscope Hnot.
  assert (Hsplit :
    Py.split " " (default EmptyString (Idp.form req !! "scope")) = [EmptyString])
    by (destruct Hscope as [-> | ->]; reflexivity).
  split; [exact Hsplit|].
  rewrite (generate_token_authenticated _ _ _ _ _ _ Hauth), Hgrant.
  rewrite bool_decide_eq_true_2 by reflexivity.
  unfold Idp.client_credentials_grant. rewrite Hsplit. cbn [forallb andb].
  destruct (Py.str_in EmptyString (Idp.allowed_scopes client)) eqn:Hin.
  - apply str_in_In in Hin. contradiction.
  - reflexivity.
Qed.

End TokenEndpoint.

Lemma authorization_code_exchange_succeeds_once_witness :
  let gt := Idp.generate_token Demo.b64decode_utf8 Idp.CLIENT_REGISTRY Demo.cfg in
  let first := gt 1000 "r1" Demo.codes (Demo.exchange Demo.good_verifier) in
  let second := gt 1001 "r2" (snd first) (Demo.exchange Demo.good_verifier) in
  Idp.status (fst first) = 200
  /\ snd first = delete "c0de" Demo.codes
  /\ Idp.status (fst second) = 400
  /\ Idp.body_get "error" (Idp.body (fst second)) = Some (Idp.JStr "invalid_grant").
Proof.
  cbv zeta.
  destruct (authorization_code_exchange_succeeds_once
              Demo.b64decode_utf8 Idp.CLIENT_REGISTRY Demo.cfg
              1000 "r1" Demo.codes (Demo.exchange Demo.good_verifier)
              "Horizon Agent - Tenant ABC" Demo.horizon_client "c0de" Demo.pkce_code
              Demo.good_verifier "idp-key-1" "idp-modulus"
              1001 "r2" (Demo.exchange Demo.good_verifier)
              "Horizon Agent - Tenant ABC" Demo.horizon_client)
    as (H1 & H2 & _ & _ & _ & H3 & H4 & _).
  - split; vm_compute; reflexivity.
  - vm_compute; reflexivity.
  - vm_compute; reflexivity.
  - vm_compute; reflexivity.
  - split; [reflexivity|]. split; [reflexivity|].
    eexists _, _; split; reflexivity.
  - vm_compute; reflexivity.
  - reflexivity.
  - vm_compute. discriminate.
  - vm_compute; reflexivity.
  - discriminate.
  - vm_compute; reflexivity.
  - split; vm_compute; reflexivity.
  - vm_compute; reflexivity.
  - vm_compute; reflexivity.
  - auto.
Defined.

Lemma failed_exchange_consumes_code_witness :
  let gt := Idp.generate_token Demo.b64decode_utf8 Idp.CLIENT_REGISTRY Demo.cfg in
  let first := gt 1000 "r1" Demo.codes (Demo.exchange "a-wrong-verifier") in
  let second := gt 1001 "r2" (snd first) (Demo.exchange Demo.good_verifier) in
  fst first = Idp.error_response 400 "invalid_grant"
                (Some "PKCE code challenge mismatch.")
  /\ snd first !! "c0de" = None
  /\ fst second = Idp.error_response 400 "invalid_grant"
                    (Some "Invalid or expired authorization code.").
Proof.
  cbv zeta.
  destruct (failed_exchange_consumes_code
              Demo.b64decode_utf8 Idp.CLIENT_REGISTRY Demo.cfg
              1000 "r1" Demo.codes (Demo.exchange "a-wrong-verifier")
              "Horizon Agent - Tenant ABC" Demo.horizon_client "c0de" Demo.pkce_code
              1001 "r2" (Demo.exchange Demo.good_verifier)
              "Horizon Agent - Tenant ABC" Demo.horizon_client)
    as (H1 & _ & _ & H2 & H3).
  - split; vm_compute; reflexivity.
  - vm_compute; reflexivity.
  - vm_compute; reflexivity.
  - vm_compute; reflexivity.
  - split; vm_compute; reflexivity.
  - vm_compute; reflexivity.
  - vm_compute; reflexivity.
  - split; [rewrite H1; vm_compute; reflexivity|].
    split; [exact H2|]. rewrite H3. reflexivity.
Defined.

Lemma client_credentials_empty_scope_refused_witness :
  Idp.generate_token Demo.b64decode_utf8 Idp.CLIENT_REGISTRY Demo.cfg
    1000 "r1" Demo.codes (Demo.client_credentials None)
  = ({| Idp.status := 400; Idp.body := [("error", Idp.JStr "invalid_scope")] |},
     Demo.codes).
Proof.
  apply (client_credentials_empty_scope_refused
           Demo.b64decode_utf8 Idp.CLIENT_REGISTRY Demo.cfg
           1000 "r1" Demo.codes (Demo.client_credentials None)
           "weather_agent" Demo.weather_client).
  - split; vm_compute; reflexivity.
  - vm_compute; reflexivity.
  - left. vm_compute; reflexivity.
  - cbn. intros [H | [H | []]]; discriminate.
Defined.

(** An empty verifier counts as none: the request is refused although the
    stored challenge is the transform of the empty string. *)
Example empty_verifier_refused :
  let data := {| Idp.code_client_id := "Horizon Agent - Tenant ABC";
                 Idp.code_user := Demo.john;
                 Idp.code_scopes := ["openid"];
                 Idp.code_redirect_uri := "http://localhost:8083/callback";
                 Idp.expires_at := 1300;
                 Idp.code_challenge := Some (computed_challenge EmptyString);
                 Idp.code_challenge_method := Some "S256" |} in
  fst (Idp.generate_token Demo.b64decode_utf8 Idp.CLIENT_REGISTRY Demo.cfg
         1000 "r1" {[ "c0de" := data ]} (Demo.exchange EmptyString))
  = Idp.error_response 400 "invalid_request"
      (Some "Code verifier is required for PKCE flow.").
Proof. vm_compute. reflexivity. Qed.

(** With [GENERATE_JWT] off the exchange still answers 200, with a random
    opaque access token and no ID token. *)
Example exchange_without_jwt :
  let cfg := {| Idp.PRIVATE_KEY := None; Idp.JWKS := None;
                Idp.GENERATE_JWT := false |} in
  let r := fst (Idp.generate_token Demo.b64decode_utf8 Idp.CLIENT_REGISTRY cfg
                  1000 "5eed" Demo.codes (Demo.exchange Demo.good_verifier)) in
  Idp.status r = 200
  /\ Idp.body_get "access_token" (Idp.body r) = Some (Idp.JTok (Jwt.Opaque "5eed"))
  /\ Idp.body_get "id_token" (Idp.body r) = Some Idp.JNull.
Proof. cbv zeta. repeat split; vm_compute; reflexivity. Qed.

(** A request that fails client authentication is refused before the grant
    branch and leaves the code in the store. *)
Example unauthenticated_exchange_keeps_code :
  let req := {| Idp.authorization := None;
                Idp.form := {[ "grant_type" := "authorization_code";
                               "code" := "c0de";
                               "client_id" := "Horizon Agent - Tenant ABC";
                               "client_secret" := "a-wrong-secret" ]} |} in
  Idp.generate_token Demo.b64decode_utf8 Idp.CLIENT_REGISTRY Demo.cfg
    1000 "r1" Demo.codes req
  = (Idp.error_response 401 "invalid_client" (Some "Client authentication failed"),
     Demo.codes).
Proof. vm_compute. reflexivity. Qed.

(** The same request with [scope=api:read] is served: the refusal above is
    about the empty scope, not about the grant. *)
Example client_credentials_api_read :
  Idp.status (fst (Idp.generate_token Demo.b64decode_utf8 Idp.CLIENT_REGISTRY Demo.cfg
                     1000 "r1" Demo.codes (Demo.client_credentials (Some "api:read"))))
  = 200.
Proof. vm_compute. reflexivity. Qed.

(** An empty [scope] field behaves like an absent one. *)
Example client_credentials_blank_scope :
  fst (Idp.generate_token Demo.b64decode_utf8 Idp.CLIENT_REGISTRY Demo.cfg
         1000 "r1" Demo.codes (Demo.client_credentials (Some EmptyString)))
  = Idp.error_response 400 "invalid_scope" None.
Proof. vm_compute. reflexivity. Qed.

(** ** The token validator *)

Lemma append_assoc (a b c : string) : ((a ++ b) ++ c = a ++ (b ++ c))%string.
Proof.
  induction a as [|x a IH]; [reflexivity|].
  change (String x ((a ++ b) ++ c) = String x (a ++ (b ++ c)))%string.
  by rewrite IH.
Qed.

Section TokenValidator.

Variable w : Validator.World.

Local Abbreviation is_token_valid := (Validator.is_token_valid w).

(** The getters keep the caches consistent. *)
Lemma get_jwks_cache_ok c r c1 :
  Validator.cache_ok c ->
  Validator.get_jwks w c = (r, c1) ->
  Validator.cache_ok c1.
Proof.
  unfold Validator.cache_ok, Validator.get_jwks, Validator.get_oidc_config.
  intros Hok H.
  destruct (Validator.jwks c) as [ks|] eqn:Hj.
  - injection H as _ <-. rewrite Hj. intros _. apply Hok. congruence.
  - destruct (Validator.oidc_config c) as [cfg|] eqn:Ho.
    + destruct (negb _); [injection H as _ <-; congruence|].
      destruct (Validator.fetch_keys _ _); injection H as _ <-; cbn; congruence.
    + destruct (Validator.fetch_config _ _) as [e|cfg].
      * injection H as _ <-. congruence.
      * destruct (negb _); [injection H as _ <-; cbn; congruence|].
        destruct (Validator.fetch_keys _ _); injection H as _ <-; cbn; congruence.
Qed.

(** A cached key set is served from the cache, which stays as it is. *)
Lemma get_jwks_cached c ks :
  Validator.jwks c = Some ks -> Validator.get_jwks w c = (inr ks, c).
Proof. intros H. unfold Validator.get_jwks. rewrite H. reflexivity. Qed.

(** Once the key set is there and the token selects a key of it, the
    verdict is that of [jwt.decode] followed by the tenant check. *)
Lemma is_token_valid_decode now c c1 jwks_data cfg token key required_tenant_id :
  Validator.get_jwks w c = (inr jwks_data, c1) ->
  Validator.oidc_config c1 = Some cfg ->
  Validator.selects_key jwks_data token key ->
  is_token_valid now c token required_tenant_id =
    (match Jwt.decode now token key (Validator.issuer cfg) "http://localhost:8081" with
     | inl e => Validator.handle e
     | inr decoded_token => Validator.check_tenant decoded_token required_tenant_id
     end, c1).
Proof.
  intros Hget Hcfg (header & Hhdr & Hkid & Hfind & Halg).
  unfold Validator.is_token_valid.
  destruct token as [h cl k | s]; [|discriminate Hhdr].
  rewrite Hget. unfold Validator.validate. rewrite Hhdr, Hkid. cbn [negb].
  rewrite Hfind, Hcfg.
  destruct (Jwt.alg header); [reflexivity | contradiction].
Qed.

(** C5, as amended. A JWT whose header selects a key of the cached key
    set, signed by that key, whose [exp] claim lies in the past and whose
    [iat] and [nbf] claims, when it has them, do not lie in the future, is
    refused with the reason [Token has expired.], whatever its other
    claims and whatever tenant is required. *)
Theorem expired_token_rejected
    now c jwks_data key header claims signer e required_tenant_id :
  Validator.cache_ok c ->
  Validator.jwks c = Some jwks_data ->
  Validator.selects_key jwks_data (Jwt.Signed header claims signer) key ->
  signer = Jwt.jwk_n key ->
  Jwt.exp claims = Some e ->
  e < now ->
  (forall i, Jwt.iat claims = Some i -> i <= now) ->
  (forall n, Jwt.nbf claims = Some n -> n <= now) ->
  is_token_valid now c (Jwt.Signed header claims signer) required_tenant_id
  = (Validator.Invalid "Token has expired.", c).
Proof.
  intros Hok Hjwks Hsel -> Hexp Hlt Hiat Hnbf.
  destruct (Validator.oidc_config c) as [cfg|] eqn:Hcfg;
    [|exfalso; apply Hok; congruence].
  rewrite (is_token_valid_decode now c c jwks_data cfg _ key);
    [|apply get_jwks_cached; assumption | assumption | assumption].
  unfold Jwt.decode. rewrite String.eqb_refl. cbn [negb].
  unfold Jwt.validate_claims, Jwt.validate_iat, Jwt.validate_nbf, Jwt.validate_exp.
  destruct (Jwt.iat claims) as [i|].
  - specialize (Hiat i eq_refl).
    replace (now <? i) with false by (symmetry; apply Z.ltb_ge; lia).
    destruct (Jwt.nbf claims) as [n|].
    + specialize (Hnbf n eq_refl).
      replace (now <? n) with false by (symmetry; apply Z.ltb_ge; lia).
      rewrite Hexp.
      replace (e <=? now) with true by (symmetry; apply Z.leb_le; lia).
      reflexivity.
    + rewrite Hexp.
      replace (e <=? now) with true by (symmetry; apply Z.leb_le; lia).
      reflexivity.
  - destruct (Jwt.nbf claims) as [n|].
    + specialize (Hnbf n eq_refl).
      replace (now <? n) with false by (symmetry; apply Z.ltb_ge; lia).
      rewrite Hexp.
      replace (e <=? now) with true by (symmetry; apply Z.leb_le; lia).
      reflexivity.
    + rewrite Hexp.
      replace (e <=? now) with true by (symmetry; apply Z.leb_le; lia).
      reflexivity.
Qed.

(** The tenant check is the last step and does not touch the rest: a
    token that is valid without a tenant requirement gets, with one, the
    verdict of the tenant check on its claims. *)
Lemma is_token_valid_tenant now c c1 token decoded required_tenant_id :
  is_token_valid now c token None = (Validator.Valid decoded, c1) ->
  is_token_valid now c token required_tenant_id
  = (Validator.check_tenant decoded required_tenant_id, c1).
Proof.
  unfold Validator.is_token_valid.
  destruct token as [h cl k | s].
  - destruct (Validator.get_jwks w c) as [[err|ks] c2]; [discriminate|].
    unfold Validator.validate. cbn [Jwt.get_unverified_header].
    destruct (negb _); [discriminate|].
    destruct (List.find _ ks); [|discriminate].
    destruct (Validator.oidc_config c2); [|discriminate].
    destruct (Jwt.alg h); [|discriminate].
    destruct (Jwt.decode _ _ _ _ _) as [err|d].
    + destruct err; discriminate.
    + cbn. intros H. injection H as -> ->. reflexivity.
  - destruct s; [discriminate|].
    destruct (Validator.get_jwks w c) as [[err|ks] c2]; [discriminate|].
    cbn. discriminate.
Qed.

Lemma append_length (a b : string) :
  String.length (a ++ b) = (String.length a + String.length b)%nat.
Proof.
  induction a as [|x a IH]; [reflexivity|].
  change (S (String.length (a ++ b)) = S (String.length a + String.length b)).
  by rewrite IH.
Qed.

Lemma mentions_mismatch a b :
  Validator.mentions "does not match required tenant_id"
    ("Token 'tenant_id' (" ++ a ++ ") does not match required tenant_id (" ++ b ++ ").").
Proof.
  exists ("Token 'tenant_id' (" ++ a ++ ") "), (" (" ++ b ++ ").").
  rewrite !append_assoc. reflexivity.
Qed.


(** The other reason of the tenant check does not hold the phrase. *)
Lemma not_found_does_not_mention :
  ~ Validator.mentions "does not match required tenant_id"
      "'tenant_id' claim not found in token.".
Proof.
  intros (before & after & H).
  assert (Hlen : (String.length before <= 4)%nat).
  { apply (f_equal String.length) in H. rewrite !append_length in H.
    cbn in H. lia. }
  destruct before as [|a1 [|a2 [|a3 [|a4 [|a5 rest]]]]];
    cbn in Hlen; try lia; cbv [String.append] in H; discriminate H.
Qed.

(** C6, as amended. For a token that is valid without a tenant requirement
    and a non-empty required tenant: a claim that is present, non-empty and
    different is refused with a message that mentions
    [does not match required tenant_id]; a claim that is absent or the empty
    string is refused with ['tenant_id' claim not found in token.]; a claim
    equal to the requirement is accepted with the decoded claims. *)
Theorem tenant_requirement_verdicts now c c1 token decoded required :
  is_token_valid now c token None = (Validator.Valid decoded, c1) ->
  required <> EmptyString ->
  (forall t, Jwt.tenant_id decoded = Some t -> t <> EmptyString -> t <> required ->
     is_token_valid now c token (Some required)
     = (Validator.Invalid
          ("Token 'tenant_id' (" ++ t ++ ") does not match required tenant_id ("
           ++ required ++ ")."), c1)
     /\ Validator.mentions "does not match required tenant_id"
          ("Token 'tenant_id' (" ++ t ++ ") does not match required tenant_id ("
           ++ required ++ ")."))
  /\ (Jwt.tenant_id decoded = None \/ Jwt.tenant_id decoded = Some EmptyString ->
      is_token_valid now c token (Some required)
      = (Validator.Invalid "'tenant_id' claim not found in token.", c1))
  /\ (Jwt.tenant_id decoded = Some required ->
      is_token_valid now c token (Some required) = (Validator.Valid decoded, c1)).
Proof.
  intros Hvalid Hreq.
  rewrite (is_token_valid_tenant now c c1 token decoded (Some required) Hvalid).
  apply str_truthy_ne in Hreq.
  unfold Validator.check_tenant. cbn [Py.truthy]. rewrite Hreq.
  split; [|split].
  - intros t Ht Hne Hdiff. rewrite Ht. cbn [Py.truthy].
    apply str_truthy_ne in Hne. rewrite Hne. cbn [negb].
    rewrite bool_decide_eq_false_2 by congruence. cbn [negb default].
    split; [reflexivity | apply mentions_mismatch].
  - intros [-> | ->]; reflexivity.
  - intros ->. cbn [Py.truthy]. rewrite Hreq. cbn [negb].
    rewrite bool_decide_eq_true_2 by reflexivity. reflexivity.
Qed.

End TokenValidator.

Lemma expired_token_rejected_witness :
  Validator.is_token_valid Demo.validator_world 5000 Demo.cache
    (Demo.access_token (Some "tenant-abc")) (Some "tenant-abc")
  = (Validator.Invalid "Token has expired.", Demo.cache).
Proof.
  apply (expired_token_rejected Demo.validator_world 5000 Demo.cache
           [Demo.idp_key] Demo.idp_key Demo.header
           (Demo.access_claims (Some "tenant-abc")) "idp-modulus" 4600).
  - intros _. discriminate.
  - reflexivity.
  - exists Demo.header. repeat split; try reflexivity. discriminate.
  - reflexivity.
  - reflexivity.
  - lia.
  - intros i [= <-]. lia.
  - intros n [=].
Defined.

(** C5, the claim as stated fails: a token signed by the cached key whose
    [exp] lies in the past and whose [iat] lies in the future is refused,
    but for its issue time, the library checking [iat] before [exp]; the
    reason is not [Token has expired.]. *)
Lemma expired_token_with_future_iat_reported_immature :
  Jwt.exp Demo.postdated_claims = Some 1000
  /\ 1000 < 2000
  /\ Validator.is_token_valid Demo.validator_world 2000 Demo.cache
       (Jwt.Signed Demo.header Demo.postdated_claims "idp-modulus") None
     = (Validator.Invalid "Invalid token: The token is not yet valid (iat)",
        Demo.cache)
  /\ Validator.Invalid "Invalid token: The token is not yet valid (iat)"
     <> Validator.Invalid "Token has expired.".
Proof.
  split; [reflexivity|]. split; [lia|]. split; [vm_compute; reflexivity|].
  discriminate.
Qed.

(** Before its expiry the same token is accepted. *)
Example fresh_token_accepted :
  Validator.is_token_valid Demo.validator_world 2000 Demo.cache
    (Demo.access_token (Some "tenant-abc")) (Some "tenant-abc")
  = (Validator.Valid (Demo.access_claims (Some "tenant-abc")), Demo.cache).
Proof. vm_compute. reflexivity. Qed.

(** With an empty cache the validator fetches both documents once. *)
Example first_validation_fills_cache :
  Validator.is_token_valid Demo.validator_world 2000 Validator.empty_cache
    (Demo.access_token None) None
  = (Validator.Valid (Demo.access_claims None), Demo.cache).
Proof. vm_compute. reflexivity. Qed.

(** C6, the claim as stated fails: a token that is valid without a tenant
    requirement and whose [tenant_id] claim is the empty string differs from
    the required [tenant-abc], and the reason given does not mention
    [does not match required tenant_id]. *)
Lemma empty_tenant_claim_reported_missing :
  let token := Demo.access_token (Some EmptyString) in
  Validator.is_token_valid Demo.validator_world 2000 Demo.cache token None
  = (Validator.Valid (Demo.access_claims (Some EmptyString)), Demo.cache)
  /\ Jwt.tenant_id (Demo.access_claims (Some EmptyString)) <> Some "tenant-abc"
  /\ ~ exists message c1,
         Validator.is_token_valid Demo.validator_world 2000 Demo.cache token
           (Some "tenant-abc") = (Validator.Invalid message, c1)
         /\ Validator.mentions "does not match required tenant_id" message.
Proof.
  cbv zeta. split; [vm_compute; reflexivity|]. split; [discriminate|].
  intros (message & c1 & H & Hm).
  vm_compute in H. injection H as <- _.
  exact (not_found_does_not_mention Hm).
Qed.

Lemma tenant_requirement_verdicts_witness :
  Validator.is_token_valid Demo.validator_world 2000 Demo.cache
    (Demo.access_token (Some "tenant-xyz")) (Some "tenant-abc")
  = (Validator.Invalid
       "Token 'tenant_id' (tenant-xyz) does not match required tenant_id (tenant-abc).",
     Demo.cache).
Proof.
  destruct (tenant_requirement_verdicts Demo.validator_world 2000 Demo.cache
              Demo.cache (Demo.access_token (Some "tenant-xyz"))
              (Demo.access_claims (Some "tenant-xyz")) "tenant-abc")
    as (Hdiff & _ & _).
  - vm_compute; reflexivity.
  - discriminate.
  - destruct (Hdiff "tenant-xyz") as [H _]; [reflexivity | discriminate | discriminate |].
    exact H.
Defined.

(** ** Agent resolution *)

Section Resolution.

Import A2A Router.
Local Open Scope list_scope.

(** The dictionary that the tag loop builds gives a key the value of its
    last tag. *)
Lemma fold_add_tag_lookup skill_tags (m : gmap string string) k :
  fold_left add_tag skill_tags m !! k =
    match tag_value k skill_tags with
    | Some v => Some v
    | None => m !! k
    end.
Proof.
  revert m. induction skill_tags as [|tag rest IH]; intros m; [reflexivity|].
  cbn [fold_left tag_value]. rewrite IH.
  destruct (tag_value k rest); [reflexivity|].
  unfold add_tag. destruct (Py.split1 ":" tag) as [[k' v]|]; [|reflexivity].
  destruct (String.eqb k' k) eqn:Hk.
  - apply String.eqb_eq in Hk. subst. apply lookup_insert_eq.
  - apply String.eqb_neq in Hk. by apply lookup_insert_ne.
Qed.

Lemma skill_tags_dict_lookup skill_tags k :
  skill_tags_dict skill_tags !! k = tag_value k skill_tags.
Proof.
  unfold skill_tags_dict. rewrite fold_add_tag_lookup, lookup_empty.
  destruct (tag_value k skill_tags); reflexivity.
Qed.

Lemma items_subset_spec q skill_tags :
  items_subset q (skill_tags_dict skill_tags) = true
  <-> Forall (fun kv => tag_value (fst kv) skill_tags = Some (snd kv)) q.
Proof.
  unfold items_subset. rewrite forallb_forall, List.Forall_forall.
  split; intros H kv Hin; specialize (H kv Hin).
  - apply bool_decide_eq_true_1 in H. by rewrite <- skill_tags_dict_lookup.
  - apply bool_decide_eq_true_2. by rewrite skill_tags_dict_lookup.
Qed.

(** For a filter that asks for something, the test on a skill is the
    superset relation; a skill without tags never passes. *)
Lemma skill_matches_spec q skill :
  q <> [] -> skill_matches q skill = true <-> superset q skill.
Proof.
  intros Hq. unfold skill_matches, superset.
  destruct (tags skill) as [|tag rest] eqn:Htags.
  - split; [discriminate|]. intros H. destruct q as [|kv q]; [done|].
    apply List.Forall_inv in H. discriminate H.
  - apply items_subset_spec.
Qed.

Lemma card_matches_spec q card :
  q <> [] -> card_matches q card = true <-> offers q card.
Proof.
  intros Hq. unfold card_matches, offers.
  rewrite existsb_exists, List.Exists_exists.
  split; intros (skill & Hin & H); exists skill; split; try done;
    by apply (skill_matches_spec q skill Hq).
Qed.

(** The scan returns the first card that offers the filter. *)
Lemma scan_spec q cs :
  q <> [] ->
  match scan q cs with
  | Some card =>
      exists before after,
        cs = before ++ card :: after
        /\ offers q card
        /\ Forall (fun c => ~ offers q c) before
  | None => Forall (fun c => ~ offers q c) cs
  end.
Proof.
  intros Hq. induction cs as [|c rest IH]; cbn [scan]; [constructor|].
  destruct (card_matches q c) eqn:Hc.
  - exists [], rest. split; [reflexivity|]. split; [|constructor].
    by apply card_matches_spec.
  - assert (Hno : ~ offers q c).
    { intros H. apply (card_matches_spec q c Hq) in H. congruence. }
    destruct (scan q rest) as [card|].
    + destruct IH as (before & after & -> & Hoff & Hbefore).
      exists (c :: before), after. split; [reflexivity|]. split; [done|].
      by constructor.
    + by constructor.
Qed.

(** C7. Agent resolution. The filter is [type: agent_type], with
    [tenant_id] from the session state added for a tenant-specific type;
    a tenant-specific type without a tenant id in the session resolves to
    no agent. Otherwise the answer is the first registered card, in the
    order of the card dictionary, one of whose skills has tags (cut at the
    first colon, a later tag replacing an earlier one with the same key)
    that are a superset of the filter: the card returned offers the filter,
    no card before it does, and when no card is returned none does. *)
Theorem find_agent_card_by_type_first_superset agent agent_type state :
  let tenant_id := state_get state "tenant_id" in
  let registered := dict_values (cards agent) in
  let found := _find_agent_card_by_type agent agent_type state in
  match filter_query agent_type state with
  | None =>
      In agent_type tenant_specific_agents
      /\ Py.truthy tenant_id = false
      /\ found = None
  | Some q =>
      q = ("type", agent_type) ::
            (if Py.str_in agent_type tenant_specific_agents
             then [("tenant_id", default EmptyString tenant_id)] else [])
      /\ (In agent_type tenant_specific_agents -> Py.truthy tenant_id = true)
      /\ match found with
         | Some card =>
             exists before after,
               registered = before ++ card :: after
               /\ offers q card
               /\ Forall (fun c => ~ offers q c) before
         | None => Forall (fun c => ~ offers q c) registered
         end
  end.
Proof.
  cbv zeta. unfold _find_agent_card_by_type, filter_query.
  destruct (Py.str_in agent_type tenant_specific_agents) eqn:Hin.
  - destruct (state_get state "tenant_id") as [t|] eqn:Ht.
    + destruct (Py.str_truthy t) eqn:Htr.
      * split; [reflexivity|]. split; [done|]. by apply scan_spec.
      * split; [by apply str_in_In|]. done.
    + split; [by apply str_in_In|]. done.
  - split; [reflexivity|]. split.
    + intros H. apply str_in_In in H. congruence.
    + by apply scan_spec.
Qed.

(** Registration order. A card whose name is new goes to the end of the
    card dictionary. *)
Lemma dict_set_fresh {V} k (v : V) d :
  ~ In k (map fst d) -> dict_set k v d = d ++ [(k, v)].
Proof.
  induction d as [|[k' v'] d IH]; cbn; [reflexivity|]. intros Hnot.
  destruct (String.eqb k' k) eqn:Hk.
  - apply String.eqb_eq in Hk. tauto.
  - rewrite IH by tauto. reflexivity.
Qed.

Lemma init_components_cards connects agent cs :
  NoDup (map name cs) ->
  Forall (fun c => connects c = true) cs ->
  Forall (fun c => ~ In (name c) (map fst (cards agent))) cs ->
  cards (_async_init_components connects agent cs)
  = cards agent ++ map (fun c => (name c, c)) cs.
Proof.
  revert agent. induction cs as [|c cs IH]; intros agent Hnd Hconn Hfresh.
  - cbn. by rewrite app_nil_r.
  - cbn [_async_init_components fold_left map].
    apply NoDup_cons in Hnd as [Hc Hnd].
    apply List.Forall_cons_iff in Hconn as [Hcc Hconn].
    apply List.Forall_cons_iff in Hfresh as [Hcf Hfresh].
    change (fold_left (register connects) cs (register connects agent c))
      with (_async_init_components connects (register connects agent c) cs).
    assert (Hreg : cards (register connects agent c) = cards agent ++ [(name c, c)]).
    { unfold register. rewrite Hcc. cbn. by apply dict_set_fresh. }
    rewrite IH; [| done | done |].
    + rewrite Hreg, <- app_assoc. reflexivity.
    + rewrite Hreg. apply List.Forall_forall. intros c' Hin.
      rewrite map_app, in_app_iff. cbn. intros [H | [H | []]].
      * rewrite List.Forall_forall in Hfresh. by apply (Hfresh c').
      * apply Hc. rewrite H. apply list_elem_of_In. by apply in_map.
Qed.

(** With distinct names and every connection built, the router scans the
    cards in the order in which they were handed over. *)
Lemma registration_order connects agent_cards :
  NoDup (map name agent_cards) ->
  Forall (fun c => connects c = true) agent_cards ->
  dict_values (cards (create connects agent_cards)) = agent_cards.
Proof.
  intros Hnd Hconn. unfold create.
  rewrite init_components_cards; [| done | done |].
  - cbn. unfold dict_values. rewrite map_map. cbn. apply map_id.
  - apply List.Forall_forall. intros c _ [].
Qed.

End Resolution.

(** The scenario of the spec: [horizon] with tenant [tenant-abc] picks the
    card tagged [type:horizon] and [tenant_id:tenant-abc]. *)
Example horizon_resolves_to_tenant_card :
  Router._find_agent_card_by_type Demo.routing_agent "horizon"
    {[ "tenant_id" := Some "tenant-abc" ]}
  = Some Demo.secure_horizon_card.
Proof. vm_compute. reflexivity. Qed.

Example horizon_without_tenant_resolves_to_nothing :
  Router._find_agent_card_by_type Demo.routing_agent "horizon" ∅ = None.
Proof. vm_compute. reflexivity. Qed.

Example horizon_other_tenant_resolves_to_nothing :
  Router._find_agent_card_by_type Demo.routing_agent "horizon"
    {[ "tenant_id" := Some "tenant-xyz" ]}
  = None.
Proof. vm_compute. reflexivity. Qed.

Example weather_resolves :
  Router._find_agent_card_by_type Demo.routing_agent "weather" ∅
  = Some Demo.weather_card.
Proof. vm_compute. reflexivity. Qed.

(** A later tag with the same key replaces the earlier one. *)
Example later_tag_wins :
  Router.tag_value "type" ["type:weather"; "type:horizon"] = Some "horizon".
Proof. reflexivity. Qed.

(** ** Dispatch *)

Section SendMessage.

Import A2A Router.
Local Open Scope list_scope.

Variable REDIRECT_URI : option string.

Lemma state_get_insert_ne (state : gmap string (option string)) k k' v :
  k <> k' -> state_get (<[k := v]> state) k' = state_get state k'.
Proof. intros H. unfold state_get. by rewrite lookup_insert_ne. Qed.

(** The redirect branch: the task is saved, the answer is the dumped
    dictionary of [initiate_oauth_flow], nothing is handed to the event
    loop and no remote agent is called. *)
Lemma send_message_redirect agent u agent_type task state w card :
  _find_agent_card_by_type agent agent_type state = Some card ->
  security_truthy (security card) = true ->
  Py.truthy (state_get state "access_token") = false ->
  send_message REDIRECT_URI agent u agent_type task state w =
    (Returned (Json.dumps (initiate_oauth_flow REDIRECT_URI (name card)
                             (default ∅ (security card)) (u_task_id u))),
     <["context_id" := Some (contextId (new_task u task state))]> state,
     {| task_store := PersistentTaskStore.save (new_task u task state) (task_store w);
        remote_calls := remote_calls w;
        background := background w |}).
Proof.
  intros Hfind Hsec Htok. unfold send_message. rewrite Hfind, Hsec.
  rewrite state_get_insert_ne by discriminate. rewrite Htok. reflexivity.
Qed.

(** The dispatch branch, as the module stands: [asyncio] is not among the
    module's names, so the call that would start the background work
    raises [NameError] after the task has been saved. *)
Lemma send_message_dispatch agent u agent_type task state w card :
  _find_agent_card_by_type agent agent_type state = Some card ->
  security_truthy (security card) && negb (Py.truthy (state_get state "access_token"))
    = false ->
  send_message REDIRECT_URI agent u agent_type task state w =
    (Raised "name 'asyncio' is not defined",
     <["active_agent" := Some (name card)]>
       (<["context_id" := Some (contextId (new_task u task state))]> state),
     {| task_store := PersistentTaskStore.save (new_task u task state) (task_store w);
        remote_calls := remote_calls w;
        background := background w |}).
Proof.
  intros Hfind Hgate. unfold send_message. rewrite Hfind.
  rewrite state_get_insert_ne by discriminate. rewrite Hgate. reflexivity.
Qed.

(** C4, as amended. When the matched card has a non-empty security block
    and the session state has no access token, [send_message] saves the
    task in state [submitted], calls no remote agent and hands nothing to
    the event loop. If the block names a non-empty [authorization_uri] the
    answer is the JSON object with [redirect_url] (the URI, a question
    mark, and the query [response_type=code], [client_id] the agent's name,
    [redirect_uri], the fixed scopes, and [state] the JSON object holding
    the task id) and [task_id]; otherwise the answer is the JSON object
    with the error [Authorization URI not found in security details.]. *)
Theorem secure_card_without_token_redirects_or_reports
    agent u agent_type task state w card sec :
  _find_agent_card_by_type agent agent_type state = Some card ->
  security card = Some sec ->
  sec <> ∅ ->
  Py.truthy (state_get state "access_token") = false ->
  let r := send_message REDIRECT_URI agent u agent_type task state w in
  let w' := snd r in
  remote_calls w' = remote_calls w
  /\ background w' = background w
  /\ task_store w' = PersistentTaskStore.save (new_task u task state) (task_store w)
  /\ A2A.state (new_task u task state) = submitted
  /\ fst (fst r) =
       Returned (Json.dumps
         (if Py.truthy (sec !! "authorization_uri") then
            [("redirect_url",
              (default EmptyString (sec !! "authorization_uri") ++ "?" ++
               Url.urlencode
                 [("response_type", "code");
                  ("client_id", name card);
                  ("redirect_uri",
                   default "http://localhost:8083/callback" REDIRECT_URI);
                  ("scope", "openid profile email api:read");
                  ("state", Json.dumps [("task_id", u_task_id u)])])%string);
             ("task_id", u_task_id u)]
          else [("error", "Authorization URI not found in security details.")])).
Proof.
  intros Hfind Hsec Hne Htok. cbv zeta.
  rewrite (send_message_redirect agent u agent_type task state w card Hfind);
    [| | exact Htok].
  - cbn [fst snd task_store remote_calls background]. rewrite Hsec.
    repeat split. unfold initiate_oauth_flow.
    change (default ∅ (Some sec)) with sec.
    destruct (Py.truthy (sec !! "authorization_uri")); reflexivity.
  - rewrite Hsec. cbn. by rewrite bool_decide_eq_false_2.
Qed.

End SendMessage.

Lemma secure_card_without_token_redirects_or_reports_witness :
  fst (fst (Router.send_message None Demo.routing_agent Demo.uuids "horizon"
              "check my order" {[ "tenant_id" := Some "tenant-abc" ]}
              Demo.empty_world))
  = Router.Returned (Json.dumps
      [("redirect_url",
        "http://idp/auth?response_type=code&client_id=Horizon+Agent+-+Tenant+ABC&redirect_uri=http%3A%2F%2Flocalhost%3A8083%2Fcallback&scope=openid+profile+email+api%3Aread&state=%7B%22task_id%22%3A+%22task-1%22%7D");
       ("task_id", "task-1")]).
Proof.
  destruct (secure_card_without_token_redirects_or_reports None
              Demo.routing_agent Demo.uuids "horizon" "check my order"
              {[ "tenant_id" := Some "tenant-abc" ]} Demo.empty_world
              Demo.secure_horizon_card {[ "authorization_uri" := "http://idp/auth" ]})
    as (_ & _ & _ & _ & H).
  - vm_compute; reflexivity.
  - reflexivity.
  - intros H. apply (f_equal (fun m => m !! "authorization_uri")) in H.
    vm_compute in H. discriminate H.
  - vm_compute; reflexivity.
  - rewrite H. vm_compute. reflexivity.
Defined.

(** The dumped redirect dictionary opens with its first key, whatever the
    URL and the task id. *)
Lemma dumps_redirect_opening url task_id :
  exists rest,
    Json.dumps [("redirect_url", url); ("task_id", task_id)]
    = String "{" (Py.dquote ++ String "r" rest).
Proof.
  unfold Json.dumps, Py.join. cbn [map fst snd String.concat].
  unfold Json.dumps_str at 1.
  change (Json.escape "redirect_url") with "redirect_url".
  eexists. reflexivity.
Qed.

(** C4, the claim as stated fails: the matched card has a security block,
    the session state has no access token, and the answer is the error
    object, which holds no [redirect_url]. *)
Lemma security_block_without_uri_gives_no_redirect :
  let r := Router.send_message None Demo.calendar_agent Demo.uuids "calendar"
             "my events" ∅ Demo.empty_world in
  Router._find_agent_card_by_type Demo.calendar_agent "calendar" ∅
    = Some Demo.bare_security_card
  /\ A2A.security Demo.bare_security_card = Some {[ "type" := "oauth2" ]}
  /\ Router.state_get ∅ "access_token" = None
  /\ fst (fst r) = Router.Returned (Json.dumps
       [("error", "Authorization URI not found in security details.")])
  /\ ~ exists url task_id,
         fst (fst r) = Router.Returned (Json.dumps
           [("redirect_url", url); ("task_id", task_id)]).
Proof.
  cbv zeta. split; [vm_compute; reflexivity|]. split; [reflexivity|].
  split; [reflexivity|]. split; [vm_compute; reflexivity|].
  intros (url & task_id & H).
  destruct (dumps_redirect_opening url task_id) as [rest Hs]. rewrite Hs in H.
  vm_compute in H. discriminate H.
Qed.

Section Background.

Import A2A Router.
Local Open Scope list_scope.

Variable remote : list RemoteCall -> SendMessageResponse.

(** The background coroutine calls the remote agent at most once, with the
    request and headers it was given: there is no second call and no
    exchange of the refresh token. *)
Lemma process_response_calls_at_most_once agent d fail_message_id w :
  let w' := _send_message_and_process_response remote agent d fail_message_id w in
  remote_calls w' = remote_calls w
  \/ remote_calls w' = dispatch_call d :: remote_calls w.
Proof.
  cbv zeta. unfold _send_message_and_process_response.
  destruct (dict_get _ _); [|by left].
  destruct (remote _); by right.
Qed.

(** Whatever the remote agent answers that is not a task marks the task as
    failed. *)
Lemma process_response_error agent d fail_message_id w card code message :
  dict_get (to_agent (dispatch_call d)) (remote_agent_connections agent) = Some card ->
  remote (dispatch_call d :: remote_calls w) = ErrorResponse code message ->
  _send_message_and_process_response remote agent d fail_message_id w =
    {| task_store :=
         PersistentTaskStore.task_failed (dispatch_task_id d)
           {| messageId := fail_message_id; role := "agent";
              parts := ["Failed to send message"]; message_contextId := None |}
           (task_store w);
       remote_calls := dispatch_call d :: remote_calls w;
       background := background w |}.
Proof.
  intros Hconn Hresp. unfold _send_message_and_process_response.
  rewrite Hconn, Hresp. reflexivity.
Qed.

End Background.

(** C8. At the failing input, a request for the weather agent in an empty
    session: the task is saved in state [submitted], and then the call that
    should start the background work raises [NameError], because the
    module never imports [asyncio]; nothing is handed to the event loop, no
    remote agent is called, and no confirmation is returned. *)
Theorem send_message_raises_instead_of_dispatching :
  let r := Router.send_message None Demo.routing_agent Demo.uuids "weather"
             "what is the weather in london" ∅ Demo.empty_world in
  Py.str_in "asyncio" Router.module_globals = false
  /\ fst (fst r) = Router.Raised "name 'asyncio' is not defined"
  /\ A2A.state <$> Router.task_store (snd r) !! "task-1" = Some A2A.submitted
  /\ Router.background (snd r) = []
  /\ Router.remote_calls (snd r) = [].
Proof. cbv zeta. repeat split; vm_compute; reflexivity. Qed.

(** C2. At the failing input, the scenario of the router's own refresh
    test: the session holds an access token and a refresh token, and the
    remote agent answers the first call with an expired-token error and
    would accept a second one. The coroutine makes the one call with the
    old token, marks the task as failed, and stops. *)
Theorem expired_token_fails_task_without_refresh :
  let w := Router._send_message_and_process_response Demo.expiring_remote
             Demo.routing_agent Demo.horizon_dispatch "message-3"
             Demo.world_after_send in
  A2A.state <$> Router.task_store Demo.world_after_send !! "task-1"
    = Some A2A.submitted
  /\ Router.remote_calls w = [Router.dispatch_call Demo.horizon_dispatch]
  /\ Router.headers (Router.dispatch_call Demo.horizon_dispatch)
     = [("Authorization", "Bearer expired-token")]
  /\ A2A.state <$> Router.task_store w !! "task-1" = Some A2A.failed
  /\ (A2A.status_message <$> Router.task_store w !! "task-1")
     = Some (Some {| A2A.messageId := "message-3"; A2A.role := "agent";
                     A2A.parts := ["Failed to send message"];
                     A2A.message_contextId := None |}).
Proof. cbv zeta. repeat split; vm_compute; reflexivity. Qed.

(** ** The task lifecycle *)

Section Lifecycle.

Import A2A.
Local Open Scope list_scope.

Variable b64decode_utf8 : string -> option string.
Variable clients : gmap string Idp.Client.
Variable cfg : Idp.Config.
Variable loads_state : string -> Host.StateData.
Variable encode_jwt : Jwt.Header -> Jwt.Claims -> string -> string.
Variable REDIRECT_URI : option string.
Variable remote : list Router.RemoteCall -> SendMessageResponse.
Variable agent : Router.RoutingAgent.

Local Abbreviation handle_callback :=
  (Host.handle_callback b64decode_utf8 clients cfg loads_state encode_jwt).
Local Abbreviation step :=
  (Host.step b64decode_utf8 clients cfg loads_state encode_jwt REDIRECT_URI remote agent).
Local Abbreviation trace :=
  (Host.trace b64decode_utf8 clients cfg loads_state encode_jwt REDIRECT_URI remote agent).
Local Abbreviation fresh_run :=
  (Host.fresh_run b64decode_utf8 clients cfg loads_state encode_jwt REDIRECT_URI remote agent).
Local Abbreviation run :=
  (Host.run b64decode_utf8 clients cfg loads_state encode_jwt REDIRECT_URI remote agent).
Local Abbreviation transition :=
  (Host.transition b64decode_utf8 clients cfg loads_state encode_jwt).
Local Abbreviation store sys := (Router.task_store (Host.world sys)).

Lemma send_message_store u agent_type task st w :
  let w' := snd (Router.send_message REDIRECT_URI agent u agent_type task st w) in
  Router.task_store w' = Router.task_store w
  \/ Router.task_store w'
     = PersistentTaskStore.save (Router.new_task u task st) (Router.task_store w).
Proof.
  cbv zeta. unfold Router.send_message.
  destruct (Router._find_agent_card_by_type _ _ _); [|by left].
  destruct (_ && _); [by right|].
  destruct (Router.create_task _ _) as [w2|] eqn:Hc; [|by right].
  unfold Router.create_task in Hc.
  destruct (Py.str_in _ _); [|discriminate]. injection Hc as <-. by right.
Qed.

Lemma handle_callback_store now rnd q sys :
  let sys' := snd (handle_callback now rnd q sys) in
  store sys' = store sys
  \/ exists task_id t,
       PersistentTaskStore.get task_id (store sys) = Some t
       /\ store sys' = PersistentTaskStore.save (set_state working t) (store sys).
Proof.
  cbv zeta. unfold Host.handle_callback.
  destruct (_ || _); [by left|].
  destruct (loads_state _) as [|task_id]; [by left|].
  destruct (negb (Py.truthy task_id)); [by left|].
  destruct (Idp.generate_token _ _ _ _ _ _ _) as [token_response codes].
  destruct (negb _); [by left|]. cbn.
  destruct (PersistentTaskStore.get _ _) as [t|] eqn:Hget; [|by left].
  right. by exists (default EmptyString task_id), t.
Qed.

Lemma step_store_change op sys :
  Host.fresh op sys ->
  Host.store_change (store sys) (store (step op sys)).
Proof.
  destruct op as [u agent_type task | d fail_message_id | now rnd q]; intros Hfresh.
  - cbn in Hfresh. unfold Host.step.
    pose proof (send_message_store u agent_type task (Host.session sys)
                  (Host.world sys)) as H. cbv zeta in H.
    destruct (Router.send_message _ _ _ _ _ _ _) as [[o st] w']. cbn in H |- *.
    destruct H as [H | H]; [by apply Host.Unchanged|].
    apply (Host.Created _ _ u task (Host.session sys)); [exact H | exact Hfresh].
  - cbn. unfold Router._send_message_and_process_response.
    destruct (Router.dict_get _ _); [|by apply Host.Unchanged].
    destruct (remote _); cbn; [by eapply Host.Accepted | by eapply Host.Failed | by eapply Host.Failed].
  - cbn. destruct (handle_callback_store now rnd q sys) as [H | (tid & t & Hget & H)].
    + by apply Host.Unchanged.
    + by eapply Host.Authorized.
Qed.

(** Every operation keeps each task under its own id. *)
Lemma store_change_keyed before after :
  Host.store_change before after ->
  PersistentTaskStore.keyed before -> PersistentTaskStore.keyed after.
Proof.
  intros [-> | u task st -> _ | tid rid -> | tid msg -> | tid t Hget ->] Hk k t';
    unfold PersistentTaskStore.keyed, PersistentTaskStore.save,
      PersistentTaskStore.set_remote_task_id, PersistentTaskStore.task_failed,
      PersistentTaskStore.get in *.
  - apply Hk.
  - rewrite lookup_insert. case_decide as Hd.
    + intros [= <-]. exact Hd.
    + apply Hk.
  - rewrite lookup_alter. case_decide as Hd.
    + subst k. destruct (before !! tid) as [t0|] eqn:H0; cbn; [|discriminate].
      intros [= <-]. destruct (terminal (state t0)); cbn; by apply Hk.
    + apply Hk.
  - rewrite lookup_alter. case_decide as Hd.
    + subst k. destruct (before !! tid) as [t0|] eqn:H0; cbn; [|discriminate].
      intros [= <-]. destruct (terminal (state t0)); cbn; by apply Hk.
    + apply Hk.
  - rewrite lookup_insert. case_decide as Hd.
    + intros [= <-]. exact Hd.
    + apply Hk.
Qed.

(** The case analysis of a guarded store operation on one task id. *)
Local Ltac guarded_alter :=
  rewrite lookup_alter; case_decide; [|by left]; subst;
  match goal with
  | |- context [Router.task_store ?w !! ?k] =>
      let t := fresh "t" in
      destruct (Router.task_store w !! k) as [t|]; cbn; [|by left];
      destruct (terminal (state t)) eqn:?; [by left|];
      right; exists (state t); cbn; auto
  end.

(** One operation, on a store that keeps tasks under their ids and with a
    fresh id for a creation, is a [transition] on every task id. *)
Lemma step_transition op sys task_id :
  PersistentTaskStore.keyed (store sys) ->
  Host.fresh op sys ->
  transition op sys task_id (Host.state_of task_id sys)
    (Host.state_of task_id (step op sys)).
Proof.
  intros Hk Hfresh. unfold Host.state_of, PersistentTaskStore.get.
  destruct op as [u agent_type task | d fail_message_id | now rnd q].
  - cbn [Host.transition]. cbn in Hfresh. unfold Host.step.
    pose proof (send_message_store u agent_type task (Host.session sys)
                  (Host.world sys)) as H. cbv zeta in H.
    destruct (Router.send_message _ _ _ _ _ _ _) as [[o st] w']. cbn in H |- *.
    destruct H as [-> | ->]; [by left|].
    unfold PersistentTaskStore.save, PersistentTaskStore.get in *. cbn [Router.new_task id].
    rewrite lookup_insert. case_decide as Hd; [|by left].
    subst task_id. rewrite Hfresh. right. done.
  - cbn [Host.transition Host.step Host.world].
    unfold Router._send_message_and_process_response.
    destruct (Router.dict_get _ _); [|by left].
    destruct (remote _); cbn [Router.task_store];
      unfold PersistentTaskStore.set_remote_task_id, PersistentTaskStore.task_failed.
    + guarded_alter.
    + guarded_alter.
    + guarded_alter.
  - cbn [Host.transition Host.step]. unfold Host.authorizes, Host.handle_callback.
    destruct (_ || _); [reflexivity|].
    destruct (loads_state _) as [|tid]; [reflexivity|].
    destruct tid as [t|]; [|reflexivity].
    destruct (negb (Py.truthy (Some t))); [reflexivity|].
    destruct (Idp.generate_token _ _ _ _ _ _ _) as [token_response codes].
    destruct (Idp.status token_response =? 200); cbn [negb]; [|reflexivity].
    change (default EmptyString (Some t)) with t.
    cbn [fst snd Host.world Router.task_store].
    unfold PersistentTaskStore.get, PersistentTaskStore.save.
    destruct (String.eqb t task_id) eqn:Ht.
    + apply String.eqb_eq in Ht. subst t.
      destruct (store sys !! task_id) as [task|] eqn:Hget; [|by rewrite Hget].
      pose proof (Hk _ _ Hget) as Hid. cbn [set_state id].
      rewrite Hid, lookup_insert_eq. reflexivity.
    + apply String.eqb_neq in Ht.
      destruct (store sys !! t) as [task|] eqn:Hget; [|reflexivity].
      pose proof (Hk _ _ Hget) as Hid. cbn [set_state id].
      rewrite Hid, lookup_insert_ne by done. reflexivity.
Qed.

(** The system at each point of a run: its store keeps tasks under their
    ids, and the next operation draws a fresh id. *)
Lemma run_prefix ops sys i op :
  PersistentTaskStore.keyed (store sys) ->
  fresh_run ops sys ->
  ops !! i = Some op ->
  PersistentTaskStore.keyed (store (run (take i ops) sys))
  /\ Host.fresh op (run (take i ops) sys).
Proof.
  revert sys i. induction ops as [|a rest IH]; intros sys i Hk Hfresh Hop;
    [discriminate Hop|].
  destruct Hfresh as [Ha Hrest]. destruct i as [|i].
  - injection Hop as <-. done.
  - cbn [take]. unfold Host.run. cbn [fold_left].
    apply (IH (step a sys) i); [|done|done].
    eapply store_change_keyed; [by apply step_store_change | done].
Qed.

Lemma trace_lookup task_id ops sys i :
  (i <= length ops)%nat ->
  trace task_id ops sys !! i
  = Some (Host.state_of task_id (run (take i ops) sys)).
Proof.
  revert sys i. induction ops as [|a rest IH]; intros sys i Hi.
  - destruct i; [reflexivity | cbn in Hi; lia].
  - destruct i as [|i]; [reflexivity|].
    cbn [take]. unfold Host.run. cbn [fold_left].
    change (trace task_id (a :: rest) sys !! S i)
      with (trace task_id rest (step a sys) !! i).
    apply IH. cbn in Hi. lia.
Qed.

Lemma run_snoc ops sys i op :
  ops !! i = Some op ->
  run (take (S i) ops) sys = step op (run (take i ops) sys).
Proof.
  intros Hop. rewrite (take_S_r _ _ _ Hop). unfold Host.run.
  by rewrite fold_left_app.
Qed.

(** C3, as amended. Along every sequence of operations (task creation
    with a fresh id, dispatch result processing, OAuth callback) on a store
    that keeps tasks under their ids, the state of a task before and
    after the operation at position [i] is a [transition]: task creation
    leaves the state or creates the task in state [submitted]; the
    processing of a dispatch result leaves it or moves a state that is
    not terminal to [working] or [failed]; the callback writes [working]
    over the state, whatever it is, of the stored task that its state
    parameter names when its code exchange succeeds, and leaves the state
    otherwise. So every operation other than the callback moves the state
    forward along submitted -> working -> completed|failed and leaves a
    terminal state as it is. *)
Theorem task_state_forward_until_terminal ops sys task_id i op :
  PersistentTaskStore.keyed (store sys) ->
  fresh_run ops sys ->
  ops !! i = Some op ->
  let sys_i := run (take i ops) sys in
  let before := Host.state_of task_id sys_i in
  let after := Host.state_of task_id (step op sys_i) in
  trace task_id ops sys !! i = Some before
  /\ trace task_id ops sys !! S i = Some after
  /\ transition op sys_i task_id before after
  /\ ((forall now rnd q, op <> Host.OAuthCallback now rnd q) ->
      forall s s', before = Some s -> after = Some s' ->
        Host.forward s s' /\ (terminal s = true -> s' = s)).
Proof.
  intros Hk Hfresh Hop sys_i before after.
  pose proof (lookup_lt_Some _ _ _ Hop) as Hlen.
  destruct (run_prefix ops sys i op Hk Hfresh Hop) as [Hki Hfi].
  pose proof (step_transition op sys_i task_id Hki Hfi) as Htr.
  fold before after in Htr.
  split; [apply trace_lookup; lia|].
  split; [unfold after, sys_i; rewrite <- (run_snoc ops sys i op Hop);
          apply trace_lookup; lia|].
  split; [exact Htr|].
  intros Hnot s s' Hb Ha. rewrite Hb, Ha in Htr.
  destruct op as [u agent_type task | d fail_message_id | now rnd q];
    cbn [Host.transition] in Htr.
  - destruct Htr as [[= ->] | [[=] _]]. split; [by left | done].
  - destruct Htr as [[= ->] | (s0 & [= <-] & Ht & [[= ->] | [= ->]])].
    + split; [by left | done].
    + split; [|by rewrite Ht].
      destruct s; try discriminate Ht; [right; reflexivity | by left].
    + split; [|by rewrite Ht].
      destruct s; try discriminate Ht; right; reflexivity.
  - by destruct (Hnot now rnd q).
Qed.

(** A callback whose code exchange succeeds and whose state names a stored
    task writes [working], whatever the task's state was. *)
Lemma callback_overwrites_state now rnd q sys task_id t token_response codes :
  Py.truthy (Host.query_code q) = true ->
  Py.truthy (Host.query_state q) = true ->
  loads_state (default EmptyString (Host.query_state q))
    = Host.StateObject (Some task_id) ->
  task_id <> EmptyString ->
  Idp.generate_token b64decode_utf8 clients cfg now rnd (Host.AUTHORIZATION_CODES sys)
    (Host.exchange_request (default EmptyString (Host.query_code q)))
    = (token_response, codes) ->
  Idp.status token_response = 200 ->
  store sys !! task_id = Some t ->
  id t = task_id ->
  Host.state_of task_id (snd (handle_callback now rnd q sys)) = Some working.
Proof.
  intros Hc Hs Hl Hne Hgt Hst Hget Hid. unfold Host.handle_callback.
  rewrite Hc, Hs, Hl. cbn [negb orb Py.truthy].
  apply str_truthy_ne in Hne. rewrite Hne. cbn [negb default].
  rewrite Hgt, Hst. cbn [negb Z.eqb Pos.eqb].
  unfold Host.state_of, PersistentTaskStore.get. cbn. 
  unfold PersistentTaskStore.get. rewrite Hget.
  unfold PersistentTaskStore.save. cbn. rewrite Hid, lookup_insert_eq. reflexivity.
Qed.

End Lifecycle.

Lemma task_state_forward_until_terminal_witness :
  Host.forward A2A.submitted A2A.failed.
Proof.
  destruct (task_state_forward_until_terminal
              Demo.b64decode_utf8 Idp.CLIENT_REGISTRY Demo.cfg Demo.loads_state
              Demo.encode_jwt None Demo.expiring_remote Demo.routing_agent
              Demo.lifecycle_ops Demo.expired_session_system "task-1" 1%nat
              (Host.ProcessResponse Demo.horizon_dispatch "message-3"))
    as (_ & _ & _ & Hforward).
  - intros k t H. vm_compute in H. discriminate H.
  - vm_compute. repeat split.
  - reflexivity.
  - destruct (Hforward ltac:(discriminate) A2A.submitted A2A.failed) as [H _].
    + vm_compute. reflexivity.
    + vm_compute. reflexivity.
    + exact H.
Defined.

(** C3, the claim as stated fails: in the run of the refused request
    followed by an OAuth callback, the task is created [submitted], marked
    [failed] by the dispatch result, and then set to [working] by the
    callback: a terminal state is left, and the move is not forward. *)
Lemma callback_moves_failed_task_to_working :
  Host.trace Demo.b64decode_utf8 Idp.CLIENT_REGISTRY Demo.cfg Demo.loads_state
    Demo.encode_jwt None Demo.expiring_remote Demo.routing_agent
    "task-1" Demo.lifecycle_ops Demo.expired_session_system
  = [None; Some A2A.submitted; Some A2A.failed; Some A2A.working]
  /\ A2A.terminal A2A.failed = true
  /\ ~ Host.forward A2A.failed A2A.working.
Proof.
  split; [vm_compute; reflexivity|]. split; [reflexivity|].
  intros [H | H]; [discriminate H | vm_compute in H; discriminate H].
Qed.

(** The callback alone on a stored task in state [completed]. *)
Example callback_moves_completed_task_to_working :
  let t := A2A.set_state A2A.completed
             (Router.new_task Demo.uuids "check my order" Demo.horizon_state) in
  let sys := {| Host.AUTHORIZATION_CODES := {[ "c0de" := Demo.plain_code ]};
                Host.session := Demo.horizon_state;
                Host.world := {| Router.task_store := {[ "task-1" := t ]};
                                 Router.remote_calls := [];
                                 Router.background := [] |} |} in
  Host.state_of "task-1"
    (snd (Host.handle_callback Demo.b64decode_utf8 Idp.CLIENT_REGISTRY Demo.cfg
            Demo.loads_state Demo.encode_jwt 1000 "r1" Demo.callback_query sys))
  = Some A2A.working.
Proof. vm_compute. reflexivity. Qed.

(** The session after the callback: the access token of the exchange, and
    no refresh token, since the token endpoint issues none. *)
Example callback_stores_no_refresh_token :
  let sys' := snd (Host.handle_callback Demo.b64decode_utf8 Idp.CLIENT_REGISTRY
                     Demo.cfg Demo.loads_state Demo.encode_jwt 1000 "r1"
                     Demo.callback_query Demo.expired_session_system) in
  Host.session sys' !! "refresh_token" = Some None
  /\ Host.session sys' !! "access_token" = Some (Some "jwt-signed-by-idp-modulus")
  /\ Host.AUTHORIZATION_CODES sys' !! "c0de" = None.
Proof. cbv zeta. repeat split; vm_compute; reflexivity. Qed.

(** * Further properties *)

(** ** Splitting and joining *)

Lemma split_nonempty c s : Py.split c s <> [].
Proof.
  destruct s as [|a rest]; cbn; [discriminate|].
  destruct (Ascii.eqb a c); [discriminate|].
  destruct (Py.split c rest); discriminate.
Qed.

Lemma concat_cons_string sep a w ws :
  String.concat sep (String a w :: ws) = String a (String.concat sep (w :: ws)).
Proof. destruct ws; reflexivity. Qed.

(** Joining what a split on a character gave, with that character, gives
    the string back: [c.join(s.split(c)) == s]. *)
Lemma join_split c s : Py.join (String c EmptyString) (Py.split c s) = s.
Proof.
  unfold Py.join. induction s as [|a rest IH]; [reflexivity|].
  cbn [Py.split]. destruct (Ascii.eqb a c) eqn:Hac.
  - apply Ascii.eqb_eq in Hac. subst a.
    destruct (Py.split c rest) as [|w ws] eqn:Hs; [by apply split_nonempty in Hs|].
    change (String.concat (String c EmptyString) (EmptyString :: w :: ws))
      with (String c (String.concat (String c EmptyString) (w :: ws))).
    by rewrite IH.
  - destruct (Py.split c rest) as [|w ws] eqn:Hs; [by apply split_nonempty in Hs|].
    rewrite concat_cons_string. by rewrite IH.
Qed.

(** A string without the separator is cut nowhere. *)
Lemma split_no_separator c s :
  ~ In c (list_ascii_of_string s) -> Py.split c s = [s].
Proof.
  induction s as [|a rest IH]; [reflexivity|]. cbn [Py.split list_ascii_of_string In].
  intros Hnot. destruct (Ascii.eqb a c) eqn:Hac.
  - apply Ascii.eqb_eq in Hac. tauto.
  - rewrite IH by tauto. reflexivity.
Qed.

Lemma split_cons_separator c s :
  Py.split c (String c s) = EmptyString :: Py.split c s.
Proof. cbn [Py.split]. by rewrite (Ascii.eqb_refl c). Qed.

Lemma split_app_separator c k s :
  ~ In c (list_ascii_of_string k) ->
  Py.split c (k ++ String c s) = k :: Py.split c s.
Proof.
  induction k as [|a k IH]; intros Hnot.
  - apply split_cons_separator.
  - change (String a k ++ String c s)%string with (String a (k ++ String c s)).
    cbn [Py.split]. cbn [list_ascii_of_string In] in Hnot.
    destruct (Ascii.eqb a c) eqn:Hac.
    + apply Ascii.eqb_eq in Hac. tauto.
    + rewrite IH by tauto. reflexivity.
Qed.

(** [split(c, 1)] cuts at the first separator: the part before it is the
    longest prefix without one. *)
Lemma split1_app c k v :
  ~ In c (list_ascii_of_string k) ->
  Py.split1 c (k ++ String c v) = Some (k, v).
Proof.
  induction k as [|a k IH]; intros Hnot.
  - change (EmptyString ++ String c v)%string with (String c v).
    cbn [Py.split1]. by rewrite (Ascii.eqb_refl c).
  - change (String a k ++ String c v)%string with (String a (k ++ String c v)).
    cbn [Py.split1]. cbn [list_ascii_of_string In] in Hnot.
    destruct (Ascii.eqb a c) eqn:Hac.
    + apply Ascii.eqb_eq in Hac. tauto.
    + rewrite IH by tauto. reflexivity.
Qed.

Lemma split1_spec c s k v :
  Py.split1 c s = Some (k, v) ->
  s = (k ++ String c v)%string /\ ~ In c (list_ascii_of_string k).
Proof.
  revert k. induction s as [|a rest IH]; intros k; [discriminate|].
  cbn [Py.split1]. destruct (Ascii.eqb a c) eqn:Hac.
  - apply Ascii.eqb_eq in Hac. subst a. intros [= <- <-]. split; [reflexivity | tauto].
  - destruct (Py.split1 c rest) as [[k' v']|]; [|discriminate].
    intros [= <- <-]. destruct (IH k' eq_refl) as [-> Hk].
    split; [reflexivity|]. cbn. intros [H | H]; [|tauto].
    subst. by rewrite (Ascii.eqb_refl c) in Hac.
Qed.

Lemma forallb_false_exists {A} (f : A -> bool) l :
  forallb f l = false -> exists x, In x l /\ f x = false.
Proof.
  induction l as [|a l IH]; cbn; [discriminate|].
  destruct (f a) eqn:Ha; cbn.
  - intros H. destruct (IH H) as (x & Hin & Hx). eauto.
  - intros _. eauto.
Qed.

(** ** The token endpoint: authentication, grants and the code store *)

Section TokenEndpointMore.

Variable b64decode_utf8 : string -> option string.
Variable clients : gmap string Idp.Client.
Variable cfg : Idp.Config.

Local Abbreviation generate_token := (Idp.generate_token b64decode_utf8 clients cfg).
Local Abbreviation authenticates := (Idp.authenticates b64decode_utf8 clients).

(** The answers of the [client_credentials] branch. *)
Lemma client_credentials_answers now rnd client_id client req r :
  r = Idp.client_credentials_grant cfg now rnd client_id client req ->
  Idp.status r = 200
  \/ r = Idp.error_response 400 "invalid_scope" None
  \/ r = Idp.server_error.
Proof.
  intros ->. unfold Idp.client_credentials_grant.
  destruct (forallb _ _); [|auto].
  destruct (Idp.create_access_token _ _ _ _ _ _ _); auto.
Qed.

(** Past authentication no answer is a 401. *)
Lemma authenticated_not_401 now rnd codes req client_id client :
  authenticates req client_id client ->
  Idp.status (fst (generate_token now rnd codes req)) <> 401.
Proof.
  intros Hauth.
  rewrite (generate_token_authenticated _ _ _ _ _ _ _ _ _ Hauth).
  case_bool_decide as Hcc.
  - cbn [fst].
    destruct (client_credentials_answers now rnd client_id client req _ eq_refl)
      as [E | [E | E]]; rewrite E; discriminate.
  - case_bool_decide as Hac; [|discriminate].
    destruct (Idp.form req !! "code" ≫= _) as [[code data]|]; [|discriminate].
    cbn [fst].
    destruct (redeem_answers cfg now rnd client_id req data _ eq_refl)
      as [E | [[E _] | E]]; rewrite E; discriminate.
Qed.

(** A request either authenticates, or is answered 401 [invalid_client]
    with the store as it was. *)
Lemma authentication_cases now rnd codes req :
  (exists client_id client, authenticates req client_id client)
  \/ ((~ exists client_id client, authenticates req client_id client)
      /\ exists descr,
           generate_token now rnd codes req
           = (Idp.error_response 401 "invalid_client" (Some descr), codes)).
Proof.
  unfold Idp.authenticates, Idp.generate_token.
  destruct (Idp.credentials b64decode_utf8 req) as [cid sec].
  destruct cid as [cid|]; cbn.
  - destruct (clients !! cid) as [client|] eqn:Hcl.
    + case_bool_decide as Hsec; cbn.
      * left. exists cid, client. by rewrite Hsec.
      * right. split; [|eauto].
        intros (c' & cl' & [= ? ?] & Hcl'). subst c' sec.
        rewrite Hcl in Hcl'. injection Hcl' as <-. by apply Hsec.
    + right. split; [|eauto].
      intros (c' & cl' & [= ? ?] & Hcl'). congruence.
  - right. split; [|eauto]. intros (c' & cl' & [=] & _).
Qed.

(** What a request does to the store: nothing, or the removal of the
    code that an authenticated [authorization_code] request names. *)
Lemma generate_token_store now rnd codes req :
  snd (generate_token now rnd codes req) = codes
  \/ exists code data client_id client,
       authenticates req client_id client
       /\ Idp.form req !! "grant_type" = Some "authorization_code"
       /\ Idp.form req !! "code" = Some code
       /\ codes !! code = Some data
       /\ generate_token now rnd codes req
          = (Idp.redeem cfg now rnd client_id req data, delete code codes).
Proof.
  destruct (authentication_cases now rnd codes req)
    as [(cid & client & Hauth) | (_ & descr & Heq)]; [|left; by rewrite Heq].
  rewrite (generate_token_authenticated _ _ _ _ _ _ _ _ _ Hauth).
  case_bool_decide as Hcc; [by left|].
  case_bool_decide as Hac; [|by left].
  destruct (Idp.form req !! "code") as [code|] eqn:Hcode; cbn; [|by left].
  destruct (codes !! code) as [data|] eqn:Hdata; cbn; [|by left].
  right. exists code, data, cid, client. done.
Qed.

(** X1. The endpoint answers 401 exactly to the requests that do not
    authenticate; it then reports [invalid_client] and leaves the code
    store alone, whatever the grant type and the code named. *)
Theorem unauthenticated_iff_401 now rnd codes req :
  (Idp.status (fst (generate_token now rnd codes req)) = 401
   <-> ~ exists client_id client, authenticates req client_id client)
  /\ (Idp.status (fst (generate_token now rnd codes req)) = 401 ->
      Idp.body_get "error" (Idp.body (fst (generate_token now rnd codes req)))
      = Some (Idp.JStr "invalid_client")
      /\ snd (generate_token now rnd codes req) = codes).
Proof.
  destruct (authentication_cases now rnd codes req)
    as [(cid & client & Hauth) | (Hno & descr & Heq)].
  - pose proof (authenticated_not_401 now rnd codes req cid client Hauth) as Hne.
    split; [split|]; intros H; try contradiction. exfalso. apply H. eauto.
  - rewrite Heq. cbn. split; [split|]; auto.
Qed.

(** X2. The store only ever loses the code that an authenticated
    [authorization_code] request names: no request adds a code, changes
    one, or removes another, and a code is removed only together with its
    redemption attempt. *)
Theorem generate_token_only_removes_named_code now rnd codes req :
  (forall code, snd (generate_token now rnd codes req) !! code = codes !! code
                \/ snd (generate_token now rnd codes req) !! code = None)
  /\ (forall code data,
        codes !! code = Some data ->
        snd (generate_token now rnd codes req) !! code = None ->
        Idp.form req !! "code" = Some code
        /\ Idp.form req !! "grant_type" = Some "authorization_code"
        /\ exists client_id client, authenticates req client_id client).
Proof.
  destruct (generate_token_store now rnd codes req)
    as [Heq | (c0 & d0 & cid & client & Hauth & Hgrant & Hcode & Hdata & Heq)];
    rewrite Heq; cbn [snd].
  - split; [by left|]. intros code data H1 H2. congruence.
  - split.
    + intros code. rewrite lookup_delete. case_decide; [by right | by left].
    + intros code data H1. rewrite lookup_delete. case_decide as Hc; [|congruence].
      subst c0. eauto 10.
Qed.

(** X3. An authenticated request is refused with [unsupported_grant_type]
    exactly when its grant type is neither of the two that the endpoint
    serves; [implicit] and [refresh_token] are among the refused. *)
Theorem unsupported_grant_type_iff now rnd codes req client_id client :
  authenticates req client_id client ->
  (Idp.body_get "error" (Idp.body (fst (generate_token now rnd codes req)))
   = Some (Idp.JStr "unsupported_grant_type")
   <-> Idp.form req !! "grant_type" <> Some "client_credentials"
       /\ Idp.form req !! "grant_type" <> Some "authorization_code")
  /\ (Idp.form req !! "grant_type" <> Some "client_credentials" ->
      Idp.form req !! "grant_type" <> Some "authorization_code" ->
      generate_token now rnd codes req
      = ({| Idp.status := 400;
            Idp.body := [("error", Idp.JStr "unsupported_grant_type")] |}, codes)).
Proof.
  intros Hauth.
  rewrite (generate_token_authenticated _ _ _ _ _ _ _ _ _ Hauth).
  case_bool_decide as Hcc.
  - split; [|intros H; contradiction]. split; [|intros [H _]; contradiction].
    cbn [fst]. intros H. exfalso.
    destruct (client_credentials_answers now rnd client_id client req _ eq_refl)
      as [H2 | [H2 | H2]].
    + unfold Idp.client_credentials_grant in *.
      destruct (forallb _ _); [|discriminate H2].
      destruct (Idp.create_access_token _ _ _ _ _ _ _); discriminate H.
    + rewrite H2 in H. discriminate H.
    + rewrite H2 in H. discriminate H.
  - case_bool_decide as Hac.
    + split; [|intros _ H; contradiction]. split; [|intros [_ H]; contradiction].
      intros H. exfalso.
      destruct (Idp.form req !! "code" ≫= _) as [[code data]|]; [|discriminate H].
      cbn [fst] in H. unfold Idp.redeem in H.
      destruct (negb _ || _); [discriminate H|].
      destruct (_ <? _); [discriminate H|].
      destruct (Py.truthy _).
      * destruct (Idp.form req !! "code_verifier") as [v|]; [|discriminate H].
        destruct (negb (Py.str_truthy v)); [discriminate H|].
        destruct (negb (bool_decide _)); [discriminate H|].
        destruct (Idp.create_access_token _ _ _ _ _ _ _); [|discriminate H].
        destruct (Idp.create_id_token _ _ _ _ _); discriminate H.
      * destruct (Idp.create_access_token _ _ _ _ _ _ _); [|discriminate H].
        destruct (Idp.create_id_token _ _ _ _ _); discriminate H.
    + split; [|reflexivity]. split; [done | reflexivity].
Qed.


(** X4. HTTP Basic credentials take precedence over the form fields: a header
    [Basic <b64>] whose payload decodes to [id:secret], both non-empty,
    gives the client id and secret whatever the form holds; the id ends
    at the first colon, so the secret may hold colons. *)
Theorem basic_header_precedes_form req encoded id secret :
  Idp.authorization req = Some ("Basic " ++ encoded) ->
  ~ In " "%char (list_ascii_of_string encoded) ->
  b64decode_utf8 encoded = Some (id ++ String ":" secret) ->
  ~ In ":"%char (list_ascii_of_string id) ->
  id <> EmptyString ->
  secret <> EmptyString ->
  Idp.credentials b64decode_utf8 req = (Some id, Some secret).
Proof.
  intros Hhdr Hsp Hdec Hcolon Hid Hsec.
  unfold Idp.credentials, Idp.basic_credentials. rewrite Hhdr.
  change ("Basic " ++ encoded)%string with ("Basic" ++ String " " encoded)%string.
  assert (Hstart : Py.startswith "Basic " ("Basic" ++ String " " encoded) = true)
    by (destruct encoded; vm_compute; reflexivity).
  rewrite Hstart.
  rewrite split_app_separator
    by (cbn; intros H; repeat destruct H as [H | H]; discriminate H || done).
  rewrite (split_no_separator _ _ Hsp). rewrite Hdec.
  rewrite (split1_app _ _ _ Hcolon). cbn [Py.truthy].
  apply str_truthy_ne in Hid. apply str_truthy_ne in Hsec.
  rewrite Hid, Hsec. reflexivity.
Qed.

(** X5. Without a usable Basic header the form fields are used: no header, a
    header of another scheme, a payload that does not decode, one without
    a colon, or one with an empty id or an empty secret (then both come
    from the form). *)
Theorem unusable_basic_header_falls_back_to_form req :
  (Idp.authorization req = None
   \/ (exists h, Idp.authorization req = Some h
                 /\ Py.startswith "Basic " h = false)
   \/ (exists h encoded rest,
         Idp.authorization req = Some h
         /\ Py.split " " h = "Basic" :: encoded :: rest
         /\ (b64decode_utf8 encoded = None
             \/ exists decoded,
                  b64decode_utf8 encoded = Some decoded
                  /\ (~ In ":"%char (list_ascii_of_string decoded)
                      \/ (exists secret, decoded = String ":" secret)
                      \/ exists id, decoded = (id ++ ":")%string
                                    /\ ~ In ":"%char (list_ascii_of_string id))))) ->
  Idp.credentials b64decode_utf8 req
  = (Idp.form req !! "client_id", Idp.form req !! "client_secret").
Proof.
  unfold Idp.credentials, Idp.basic_credentials.
  intros [-> | [(h & -> & Hs) | (h & encoded & rest & -> & Hsplit & Hdec)]].
  - reflexivity.
  - rewrite Hs. reflexivity.
  - destruct (Py.startswith "Basic " h); [|reflexivity].
    rewrite Hsplit.
    destruct Hdec as [-> | (decoded & -> & Hbad)]; [reflexivity|].
    destruct Hbad as [Hno | [(secret & ->) | (id & -> & Hno)]].
    + destruct (Py.split1 ":" decoded) as [[k v]|] eqn:Hs1; [|reflexivity].
      apply split1_spec in Hs1 as [-> _]. exfalso. apply Hno.
      clear. induction k as [|a k IH]; cbn; [by left | by right].
    + cbn [Py.split1]. rewrite (Ascii.eqb_refl ":"). reflexivity.
    + change (id ++ ":")%string with (id ++ String ":" EmptyString)%string.
      rewrite (split1_app _ _ _ Hno). cbn [Py.truthy Py.str_truthy].
      by rewrite orb_true_r.
Qed.

(** X6. A [client_credentials] request is refused with [invalid_scope] exactly
    when one of the space-separated pieces of its [scope] field is not an
    allowed scope of the client; the pieces include the empty ones that
    doubled, leading or trailing spaces give. *)
Theorem invalid_scope_iff now rnd codes req client_id client :
  authenticates req client_id client ->
  Idp.form req !! "grant_type" = Some "client_credentials" ->
  (fst (generate_token now rnd codes req) = Idp.error_response 400 "invalid_scope" None
   <-> exists scope,
         In scope (Py.split " " (default EmptyString (Idp.form req !! "scope")))
         /\ ~ In scope (Idp.allowed_scopes client)).
Proof.
  intros Hauth Hgrant.
  rewrite (generate_token_authenticated _ _ _ _ _ _ _ _ _ Hauth), Hgrant.
  rewrite bool_decide_eq_true_2 by reflexivity. cbn [fst].
  unfold Idp.client_credentials_grant.
  destruct (forallb _ _) eqn:Hall.
  - split.
    + intros H. destruct (Idp.create_access_token _ _ _ _ _ _ _); discriminate H.
    + intros (scope & Hin & Hnot). rewrite forallb_forall in Hall.
      apply Hall in Hin. apply str_in_In in Hin. contradiction.
  - split; [|reflexivity]. intros _.
    apply forallb_false_exists in Hall as (scope & Hin & Hs).
    exists scope. split; [done|]. intros H. apply str_in_In in H. congruence.
Qed.

(** X7. A [client_credentials] request all of whose scopes are allowed is
    served, on a server that can sign, with an access token only: its
    subject is the client, it carries no tenant, and its [scope] claim and
    the [scope] of the answer are the requested string, character for
    character. No ID token is issued and the code store is not touched. *)
Theorem client_credentials_granted now rnd codes req client_id client scope kid pk :
  authenticates req client_id client ->
  Idp.form req !! "grant_type" = Some "client_credentials" ->
  Idp.form req !! "scope" = Some scope ->
  Forall (fun s => In s (Idp.allowed_scopes client)) (Py.split " " scope) ->
  Idp.can_sign cfg kid pk ->
  generate_token now rnd codes req =
    ({| Idp.status := 200;
        Idp.body :=
          [("access_token",
            Idp.JTok (Jwt.Signed {| Jwt.kid := Some kid; Jwt.alg := Some "RS256" |}
              {| Jwt.iss := Some "http://localhost:5000";
                 Jwt.aud := Some "http://localhost:8081";
                 Jwt.sub := Some client_id;
                 Jwt.exp := Some (now + 3600);
                 Jwt.iat := Some now;
                 Jwt.nbf := None;
                 Jwt.auth_time := None;
                 Jwt.scope := Some scope;
                 Jwt.tenant_id := None;
                 Jwt.email := None;
                 Jwt.profile := None;
                 Jwt.nonce := None |} pk));
           ("token_type", Idp.JStr "Bearer");
           ("expires_in", Idp.JNum 3600);
           ("scope", Idp.JStr scope)] |}, codes).
Proof.
  intros Hauth Hgrant Hscope Hall (Hgen & Hpk & key & rest & Hjwks & Hkid).
  rewrite (generate_token_authenticated _ _ _ _ _ _ _ _ _ Hauth), Hgrant.
  rewrite bool_decide_eq_true_2 by reflexivity.
  unfold Idp.client_credentials_grant. rewrite Hscope.
  change (default EmptyString (Some scope)) with scope.
  assert (Hfor : forallb (fun s => Py.str_in s (Idp.allowed_scopes client))
                   (Py.split " " scope) = true).
  { apply forallb_forall. intros s Hin. apply str_in_In.
    rewrite List.Forall_forall in Hall. by apply Hall. }
  rewrite Hfor.
  unfold Idp.create_access_token, Idp.generate_jwt.
  rewrite Hgen, Hjwks, Hpk, Hkid. cbn [Py.truthy].
  rewrite (join_split " " scope). reflexivity.
Qed.


(** A 200 from the [authorization_code] branch is the redemption of a
    stored code by an authenticated client. *)
Lemma exchange_200 now rnd codes req :
  Idp.form req !! "grant_type" = Some "authorization_code" ->
  Idp.status (fst (generate_token now rnd codes req)) = 200 ->
  exists client_id client code data,
    authenticates req client_id client
    /\ Idp.form req !! "code" = Some code
    /\ codes !! code = Some data
    /\ generate_token now rnd codes req
       = (Idp.redeem cfg now rnd client_id req data, delete code codes).
Proof.
  intros Hgrant H200.
  destruct (authentication_cases now rnd codes req)
    as [(cid & client & Hauth) | (_ & descr & Heq)];
    [|rewrite Heq in H200; discriminate H200].
  exists cid, client. revert H200.
  rewrite (generate_token_authenticated _ _ _ _ _ _ _ _ _ Hauth), Hgrant.
  rewrite bool_decide_eq_false_2 by discriminate.
  rewrite bool_decide_eq_true_2 by reflexivity.
  destruct (Idp.form req !! "code") as [code|] eqn:Hcode; cbn; [|discriminate].
  destruct (codes !! code) as [data|] eqn:Hdata; cbn; [|discriminate].
  intros _. exists code, data. done.
Qed.

(** A redemption answers 200 only past every check, and then with both
    tokens issued. *)
Lemma redeem_200 now rnd client_id req data :
  Idp.status (Idp.redeem cfg now rnd client_id req data) = 200 ->
  Idp.form req !! "redirect_uri" = Some (Idp.code_redirect_uri data)
  /\ Idp.code_client_id data = client_id
  /\ now <= Idp.expires_at data
  /\ (Py.truthy (Idp.code_challenge data) = true ->
      exists verifier,
        Idp.form req !! "code_verifier" = Some verifier
        /\ verifier <> EmptyString
        /\ Idp.code_challenge data = Some (computed_challenge verifier))
  /\ exists access_token id_token,
       Idp.create_access_token cfg now rnd client_id (Idp.code_scopes data)
         (Some (Idp.user_sub (Idp.code_user data)))
         (Some (Idp.user_tenant_id (Idp.code_user data))) = Some access_token
       /\ Idp.create_id_token cfg now client_id (Idp.code_user data)
            (Idp.code_scopes data) = Some id_token
       /\ Idp.body (Idp.redeem cfg now rnd client_id req data)
          = [("access_token", Idp.JTok access_token);
             ("id_token", Idp.jtok id_token);
             ("token_type", Idp.JStr "Bearer");
             ("expires_in", Idp.JNum 3600);
             ("scope", Idp.JStr (Py.join " " (Idp.code_scopes data)))].
Proof.
  unfold Idp.redeem.
  destruct (bool_decide (Some (Idp.code_redirect_uri data)
                         = Idp.form req !! "redirect_uri")) eqn:Huri;
    [|discriminate].
  destruct (String.eqb (Idp.code_client_id data) client_id) eqn:Hcid;
    [|discriminate].
  cbn [negb orb].
  destruct (Idp.expires_at data <? now) eqn:Hexp; [discriminate|].
  apply bool_decide_eq_true_1 in Huri. apply String.eqb_eq in Hcid.
  apply Z.ltb_ge in Hexp.
  destruct (Py.truthy (Idp.code_challenge data)) eqn:Htr.
  - destruct (Idp.form req !! "code_verifier") as [v|]; [|discriminate].
    destruct (Py.str_truthy v) eqn:Hv; [|discriminate]. cbn [negb].
    destruct (bool_decide (Some (computed_challenge v) = Idp.code_challenge data))
      eqn:Hch; [|discriminate].
    cbn [negb].
    destruct (Idp.create_access_token _ _ _ _ _ _ _) as [at_|]; [|discriminate].
    destruct (Idp.create_id_token _ _ _ _ _) as [it|]; [|discriminate].
    intros _. split; [done|]. split; [done|]. split; [lia|]. split.
    + intros _. exists v. split; [done|]. split; [by apply str_truthy_ne|].
      apply bool_decide_eq_true_1 in Hch. done.
    + eauto.
  - destruct (Idp.create_access_token _ _ _ _ _ _ _) as [at_|]; [|discriminate].
    destruct (Idp.create_id_token _ _ _ _ _) as [it|]; [|discriminate].
    intros _. split; [done|]. split; [done|]. split; [lia|]. split; [discriminate|].
    eauto.
Qed.

(** X8. Every successful code exchange passed every check: an
    [authorization_code] request is answered 200 only if the client
    authenticated, the code was stored for that client and that redirect
    URI, the code had not expired, and, when the code was issued with a
    challenge, the request carried a verifier whose S256 transform is that
    challenge. *)
Theorem exchange_success_implies_checks now rnd codes req :
  Idp.form req !! "grant_type" = Some "authorization_code" ->
  Idp.status (fst (generate_token now rnd codes req)) = 200 ->
  exists client_id client code data,
    authenticates req client_id client
    /\ Idp.form req !! "code" = Some code
    /\ codes !! code = Some data
    /\ Idp.form req !! "redirect_uri" = Some (Idp.code_redirect_uri data)
    /\ Idp.code_client_id data = client_id
    /\ now <= Idp.expires_at data
    /\ (Py.truthy (Idp.code_challenge data) = true ->
        exists verifier,
          Idp.form req !! "code_verifier" = Some verifier
          /\ verifier <> EmptyString
          /\ Idp.code_challenge data = Some (computed_challenge verifier)).
Proof.
  intros Hgrant H200.
  destruct (exchange_200 now rnd codes req Hgrant H200)
    as (cid & client & code & data & Hauth & Hcode & Hdata & Heq).
  rewrite Heq in H200. cbn [fst] in H200.
  destruct (redeem_200 now rnd cid req data H200) as (Huri & Hcid & Hexp & Hpkce & _).
  exists cid, client, code, data. done.
Qed.

(** X9. A code issued without a challenge is redeemed without PKCE: with the
    client, the redirect URI and the time right, the exchange succeeds
    whether the request carries a verifier or not, and whatever it is. *)
Theorem exchange_without_challenge_ignores_verifier
    now rnd codes req client_id client code data kid pk :
  authenticates req client_id client ->
  Idp.form req !! "grant_type" = Some "authorization_code" ->
  Idp.form req !! "code" = Some code ->
  codes !! code = Some data ->
  Idp.can_sign cfg kid pk ->
  Idp.form req !! "redirect_uri" = Some (Idp.code_redirect_uri data) ->
  Idp.code_client_id data = client_id ->
  now <= Idp.expires_at data ->
  Py.truthy (Idp.code_challenge data) = false ->
  Idp.status (fst (generate_token now rnd codes req)) = 200
  /\ snd (generate_token now rnd codes req) = delete code codes
  /\ exists access_token id_token,
       Idp.create_access_token cfg now rnd client_id (Idp.code_scopes data)
         (Some (Idp.user_sub (Idp.code_user data)))
         (Some (Idp.user_tenant_id (Idp.code_user data))) = Some access_token
       /\ Idp.create_id_token cfg now client_id (Idp.code_user data)
            (Idp.code_scopes data) = Some (Some id_token)
       /\ Idp.body (fst (generate_token now rnd codes req))
          = [("access_token", Idp.JTok access_token);
             ("id_token", Idp.JTok id_token);
             ("token_type", Idp.JStr "Bearer");
             ("expires_in", Idp.JNum 3600);
             ("scope", Idp.JStr (Py.join " " (Idp.code_scopes data)))].
Proof.
  intros Hauth Hgrant Hcode Hdata (Hgen & Hpk & key & rest & Hjwks & Hkid)
         Huri Hcid Hexp Hch.
  rewrite (exchange_pops _ _ _ _ _ _ _ _ _ _ _ Hauth Hgrant Hcode Hdata).
  cbn [fst snd]. unfold Idp.redeem. rewrite Huri, Hcid, Hch.
  rewrite bool_decide_eq_true_2 by reflexivity.
  rewrite String.eqb_refl. cbn [negb orb].
  replace (Idp.expires_at data <? now) with false
    by (symmetry; apply Z.ltb_ge; lia).
  unfold Idp.create_access_token, Idp.create_id_token, Idp.generate_jwt.
  rewrite Hgen, Hjwks, Hpk, Hkid. cbn.
  split; [reflexivity|]. split; [reflexivity|]. eauto.
Qed.

End TokenEndpointMore.

(** ** The validator: what acceptance means, and the caches *)

Section TokenValidatorMore.

Variable w : Validator.World.

Local Abbreviation is_token_valid := (Validator.is_token_valid w).

Lemma find_some_kid kid ks key :
  List.find (fun k => bool_decide (Jwt.jwk_kid k = kid)) ks = Some key ->
  In key ks /\ Jwt.jwk_kid key = kid.
Proof.
  intros H. apply List.find_some in H as [Hin Hk].
  split; [done|]. by apply bool_decide_eq_true_1 in Hk.
Qed.

(** The claim checks pass only on claims that satisfy every one of them,
    and then return the claims as they are. *)
Lemma validate_claims_passed now cl issuer audience decoded :
  Jwt.validate_claims now cl issuer audience = inr decoded ->
  decoded = cl
  /\ (forall i, Jwt.iat cl = Some i -> i <= now)
  /\ (forall n, Jwt.nbf cl = Some n -> n <= now)
  /\ (forall e, Jwt.exp cl = Some e -> now < e)
  /\ (forall i, issuer = Some i -> Jwt.iss cl = Some i)
  /\ Jwt.aud cl = Some audience.
Proof.
  unfold Jwt.validate_claims, Jwt.validate_iat, Jwt.validate_nbf, Jwt.validate_exp,
    Jwt.validate_iss, Jwt.validate_aud.
  intros H.
  assert (Hiat : forall i, Jwt.iat cl = Some i -> i <= now).
  { intros i Hi. rewrite Hi in H.
    destruct (now <? i) eqn:Hlt; [discriminate H|]. apply Z.ltb_ge in Hlt. lia. }
  assert (H1 : match Jwt.nbf cl with
               | Some n => if now <? n then inl (B := Jwt.Claims)
                                               (Jwt.InvalidTokenError
                                                  "The token is not yet valid (nbf)")
                           else inr cl
               | None => inr cl
               end = inr cl
               /\ match Jwt.exp cl with
                  | Some e => if e <=? now then inl (B := Jwt.Claims)
                                                  Jwt.ExpiredSignatureError
                              else inr cl
                  | None => inr cl
                  end = inr cl
               /\ match issuer with
                  | Some i => match Jwt.iss cl with
                              | Some i' => if String.eqb i i' then inr cl
                                           else inl (B := Jwt.Claims)
                                                  Jwt.InvalidIssuerError
                              | None => inl (Jwt.missing_claim "iss")
                              end
                  | None => inr cl
                  end = inr cl
               /\ match Jwt.aud cl with
                  | Some a0 =>
                      if negb (Py.str_truthy a0) then inl (Jwt.missing_claim "aud")
                      else if String.eqb a0 audience then inr cl
                           else inl Jwt.InvalidAudienceError
                  | None => inl (Jwt.missing_claim "aud")
                  end = inr decoded).
  { destruct (Jwt.iat cl) as [i|]; [destruct (now <? i); [discriminate H|]|];
      (destruct (Jwt.nbf cl) as [n|]; [destruct (now <? n); [discriminate H|]|]);
      (destruct (Jwt.exp cl) as [e|]; [destruct (e <=? now); [discriminate H|]|]);
      (destruct issuer as [i0|];
       [destruct (Jwt.iss cl) as [i'|];
        [destruct (String.eqb i0 i'); [|discriminate H] | discriminate H]|]);
      auto. }
  destruct H1 as (Hn & He & Hi & Ha).
  assert (Hdec : decoded = cl /\ Jwt.aud cl = Some audience).
  { destruct (Jwt.aud cl) as [a0|]; [|discriminate Ha].
    destruct (negb (Py.str_truthy a0)); [discriminate Ha|].
    destruct (String.eqb a0 audience) eqn:Haa; [|discriminate Ha].
    apply String.eqb_eq in Haa. injection Ha as <-. by subst. }
  destruct Hdec as [-> Haud].
  split; [done|]. split; [done|]. split; [|split; [|split; [|done]]].
  - intros n Hnb. rewrite Hnb in Hn.
    destruct (now <? n) eqn:Hlt; [discriminate Hn|]. apply Z.ltb_ge in Hlt. lia.
  - intros e Hex. rewrite Hex in He.
    destruct (e <=? now) eqn:Hle; [discriminate He|]. apply Z.leb_gt in Hle. lia.
  - intros i -> . destruct (Jwt.iss cl) as [i'|]; [|discriminate Hi].
    destruct (String.eqb i i') eqn:Hii; [|discriminate Hi].
    apply String.eqb_eq in Hii. by subst.
Qed.

(** The tenant check accepts only the claims it was given, and, when a
    tenant is required, only with that tenant. *)
Lemma check_tenant_passed decoded required_tenant_id accepted :
  Validator.check_tenant decoded required_tenant_id = Validator.Valid accepted ->
  accepted = decoded
  /\ (Py.truthy required_tenant_id = true ->
      Jwt.tenant_id decoded = required_tenant_id).
Proof.
  unfold Validator.check_tenant.
  destruct (Py.truthy required_tenant_id).
  - destruct (negb (Py.truthy (Jwt.tenant_id decoded))); [discriminate|].
    case_bool_decide as Ht; [|discriminate]. cbn. by intros [= <-].
  - intros [= <-]. split; [done | discriminate].
Qed.

(** X10. Acceptance is sound. A token is accepted only if it is a JWT whose
    header names, by a non-empty key id, a key of the key set in use, it
    is signed by that key, its expiry, when it has one, lies in the
    future, its issuer is the one of the discovery document (when that
    names one), its audience is the resource server, and, when a tenant is
    required, its tenant claim is that tenant; its issue time and its
    not-before time, when it has them, do not lie in the future. The
    claims returned are those of the token. *)
Theorem accepted_token_is_sound now c token required_tenant_id decoded c1 :
  is_token_valid now c token required_tenant_id = (Validator.Valid decoded, c1) ->
  exists header signer jwks_data key cfg,
    token = Jwt.Signed header decoded signer
    /\ Validator.get_jwks w c = (inr jwks_data, c1)
    /\ Validator.oidc_config c1 = Some cfg
    /\ Py.truthy (Jwt.kid header) = true
    /\ In key jwks_data
    /\ Jwt.jwk_kid key = Jwt.kid header
    /\ signer = Jwt.jwk_n key
    /\ (forall e, Jwt.exp decoded = Some e -> now < e)
    /\ (forall i, Validator.issuer cfg = Some i -> Jwt.iss decoded = Some i)
    /\ Jwt.aud decoded = Some "http://localhost:8081"
    /\ (Py.truthy required_tenant_id = true ->
        Jwt.tenant_id decoded = required_tenant_id)
    /\ (forall i, Jwt.iat decoded = Some i -> i <= now)
    /\ (forall n, Jwt.nbf decoded = Some n -> n <= now).
Proof.
  unfold Validator.is_token_valid.
  destruct token as [h cl k | s].
  2:{ destruct s; [discriminate|].
      destruct (Validator.get_jwks w c) as [[err|ks] c2]; [discriminate|].
      cbn. discriminate. }
  destruct (Validator.get_jwks w c) as [[err|ks] c2] eqn:Hget; [discriminate|].
  unfold Validator.validate. cbn [Jwt.get_unverified_header].
  destruct (Py.truthy (Jwt.kid h)) eqn:Hkid; [|discriminate]. cbn [negb].
  destruct (List.find _ ks) as [key|] eqn:Hfind; [|discriminate].
  destruct (Validator.oidc_config c2) as [cfg|] eqn:Hcfg; [|discriminate].
  destruct (Jwt.alg h); [|discriminate].
  unfold Jwt.decode.
  destruct (String.eqb k (Jwt.jwk_n key)) eqn:Hsig; [|discriminate]. cbn [negb].
  destruct (Jwt.validate_claims now cl (Validator.issuer cfg) "http://localhost:8081")
    as [err|d] eqn:Hval; [destruct err; discriminate|].
  apply validate_claims_passed in Hval as (-> & Hiat & Hnbf & Hexp & Hiss & Haud).
  intros [= Hten <-]. apply check_tenant_passed in Hten as [<- Hten].
  apply String.eqb_eq in Hsig. subst k.
  apply find_some_kid in Hfind as [Hin Hk].
  exists h, (Jwt.jwk_n key), ks, key, cfg. repeat split; done.
Qed.


(** X11. Once the key set is cached the network is out of the picture: every
    later validation gives the verdict it would give in any other world
    and leaves the cache as it is. A key that the server publishes later
    is never seen; there is no path that empties the cache. *)
Theorem cached_keys_are_final (w' : Validator.World) now c ks token required_tenant_id :
  Validator.jwks c = Some ks ->
  is_token_valid now c token required_tenant_id
  = Validator.is_token_valid w' now c token required_tenant_id
  /\ snd (is_token_valid now c token required_tenant_id) = c.
Proof.
  intros Hj. unfold Validator.is_token_valid.
  rewrite (get_jwks_cached w c ks Hj), (get_jwks_cached w' c ks Hj).
  destruct token as [h cl k | [|a s]]; done.
Qed.

(** X12. A failure to get the key set is reported and not remembered. When
    [get_jwks] fails, the reason is one of three (discovery unreachable,
    no [jwks_uri] in the discovery document, key set unreachable), every
    non-empty token is refused with [Failed to get JWKS: ] followed by
    that reason, and the cache still holds no key set, so the next
    validation tries again. *)
Theorem jwks_failure_is_reported_not_cached now c token required_tenant_id error c1 :
  Validator.get_jwks w c = (inl error, c1) ->
  token <> Jwt.Opaque EmptyString ->
  is_token_valid now c token required_tenant_id
  = (Validator.Invalid ("Failed to get JWKS: " ++ error), c1)
  /\ Validator.jwks c1 = None
  /\ ((exists e, error = ("Error fetching OIDC config: " ++ e)%string /\ c1 = c)
      \/ error = "jwks_uri not found in OIDC configuration."
      \/ exists e, error = ("Error fetching JWKS: " ++ e)%string).
Proof.
  intros Hget Hne. split; [|].
  - unfold Validator.is_token_valid. rewrite Hget.
    destruct token as [h cl k | [|a s]]; done.
  - revert Hget. unfold Validator.get_jwks, Validator.get_oidc_config.
    destruct (Validator.jwks c) as [ks0|] eqn:Hj; [discriminate|].
    destruct (Validator.oidc_config c) as [cfg|].
    + destruct (negb _); [intros [= <- <-]; auto|].
      destruct (Validator.fetch_keys _ _) as [e|]; [|discriminate].
      intros [= <- <-]. split; [done|]. right. right. eauto.
    + destruct (Validator.fetch_config _ _) as [e|cfg].
      * intros [= <- <-]. split; [done|]. left. eauto.
      * destruct (negb _); [intros [= <- <-]; auto|].
        destruct (Validator.fetch_keys _ _) as [e|]; [|discriminate].
        intros [= <- <-]. split; [done|]. right. right. eauto.
Qed.

End TokenValidatorMore.


(** ** Tokens of the authorization server, at the validator *)

Section IssueAndValidate.

Variable cfg : Idp.Config.
Variable w : Validator.World.

(** In a provisioned deployment the validator finds the signing key in
    its cache: the verdict on a token signed by the server is that of the
    signature and claim checks, and the cache stays as it is. *)
Lemma provisioned_verdict c key kid pk claims now required_tenant_id :
  Deployment.provisioned cfg c key kid pk ->
  let token := Jwt.Signed {| Jwt.kid := Some kid; Jwt.alg := Some "RS256" |}
                 claims pk in
  Validator.is_token_valid w now c token required_tenant_id
  = (match Jwt.decode now token key (Some "http://localhost:5000")
             "http://localhost:8081" with
     | inl e => Validator.handle e
     | inr decoded_token => Validator.check_tenant decoded_token required_tenant_id
     end, c).
Proof.
  intros (Hgen & Hpk & Hkid & Hne & Hn & rest & doc & Hjwks & Hcj & Hco & Hiss) token.
  rewrite (is_token_valid_decode w now c c (key :: rest) doc token key).
  - by rewrite Hiss.
  - by apply get_jwks_cached.
  - done.
  - eexists. split; [reflexivity|]. cbn [Jwt.kid Jwt.alg Py.truthy].
    split; [by apply str_truthy_ne|]. split; [|discriminate].
    cbn [List.find]. by rewrite bool_decide_eq_true_2.
Qed.

(** X13. An access token of the server is accepted by the validator from
    its issue until one hour later, and refused as expired from then on.
    Times are whole seconds; stated so that it also holds of a clock with
    fractions, the library truncating the expiry: at a time [now] from
    the issue on, the verdict is the token's own claims up to
    [issued + 3599], and [Token has expired.] from [issued + 3600] on. *)
Theorem issued_access_token_valid_for_one_hour
    c key kid pk issued rnd client_id scopes user_sub tenant_id token now :
  Deployment.provisioned cfg c key kid pk ->
  Idp.create_access_token cfg issued rnd client_id scopes user_sub tenant_id
    = Some token ->
  issued <= now ->
  exists header claims,
    token = Jwt.Signed header claims pk
    /\ Jwt.exp claims = Some (issued + 3600)
    /\ Jwt.iat claims = Some issued
    /\ (now <= issued + 3599 ->
        Validator.is_token_valid w now c token None = (Validator.Valid claims, c))
    /\ (issued + 3600 <= now ->
        Validator.is_token_valid w now c token None
        = (Validator.Invalid "Token has expired.", c)).
Proof.
  intros Hprov.
  pose proof Hprov as (Hgen & Hpk & Hkid & Hne & Hn & rest & doc & Hjwks & _).
  unfold Idp.create_access_token, Idp.generate_jwt.
  rewrite Hgen, Hjwks, Hpk, Hkid. intros [= <-] Hnow.
  eexists _, _. split; [reflexivity|]. split; [reflexivity|].
  split; [reflexivity|].
  rewrite (provisioned_verdict c key kid pk _ now None Hprov).
  unfold Jwt.decode. rewrite Hn, String.eqb_refl. cbn [negb].
  unfold Jwt.validate_claims, Jwt.validate_iat, Jwt.validate_nbf, Jwt.validate_exp.
  cbn [Jwt.iat Jwt.nbf Jwt.exp].
  replace (now <? issued) with false by (symmetry; apply Z.ltb_ge; lia).
  split; intros Hb.
  - replace (issued + 3600 <=? now) with false by (symmetry; apply Z.leb_gt; lia).
    unfold Jwt.validate_iss, Jwt.validate_aud. cbn. reflexivity.
  - replace (issued + 3600 <=? now) with true by (symmetry; apply Z.leb_le; lia).
    reflexivity.
Qed.

(** X14. Tenant isolation, end to end. An access token issued for a user
    of tenant [t] is, from its issue and within its lifetime, accepted by
    a resource server that requires [t] and refused, with a message naming
    both tenants, by one that requires any other tenant. *)
Theorem issued_token_serves_its_tenant_only
    c key kid pk issued rnd client_id scopes user_sub t required token now :
  Deployment.provisioned cfg c key kid pk ->
  t <> EmptyString ->
  required <> EmptyString ->
  Idp.create_access_token cfg issued rnd client_id scopes user_sub (Some t)
    = Some token ->
  issued <= now ->
  now <= issued + 3599 ->
  exists claims,
    Jwt.tenant_id claims = Some t
    /\ Validator.is_token_valid w now c token (Some required)
       = (if bool_decide (t = required) then Validator.Valid claims
          else Validator.Invalid
                 ("Token 'tenant_id' (" ++ t ++ ") does not match required tenant_id ("
                  ++ required ++ ")."), c).
Proof.
  intros Hprov Ht Hreq Htok Hfrom Hnow.
  pose proof Hprov as (Hgen & Hpk & Hkid & Hne & Hn & rest & doc & Hjwks & _).
  revert Htok. unfold Idp.create_access_token, Idp.generate_jwt.
  rewrite Hgen, Hjwks, Hpk, Hkid. intros [= <-].
  apply str_truthy_ne in Ht, Hreq.
  match goal with |- context [Jwt.Signed _ ?cl _] => exists cl end.
  split; [cbn [Jwt.tenant_id Py.truthy]; by rewrite Ht|].
  rewrite (provisioned_verdict c key kid pk _ now (Some required) Hprov).
  unfold Jwt.decode. rewrite Hn, String.eqb_refl. cbn [negb].
  unfold Jwt.validate_claims, Jwt.validate_iat, Jwt.validate_nbf, Jwt.validate_exp.
  cbn [Jwt.iat Jwt.nbf Jwt.exp].
  replace (now <? issued) with false by (symmetry; apply Z.ltb_ge; lia).
  replace (issued + 3600 <=? now) with false by (symmetry; apply Z.leb_gt; lia).
  unfold Jwt.validate_iss, Jwt.validate_aud. cbn.
  unfold Validator.check_tenant. cbn [Py.truthy Jwt.tenant_id].
  rewrite Ht, Hreq. cbn [negb default Py.truthy]. rewrite Ht. cbn [negb default].
  case_bool_decide as H1; case_bool_decide as H2; try reflexivity;
    exfalso; [apply H2; congruence | apply H1; congruence].
Qed.

(** X15. An ID token is not an access token: its audience is the client,
    so the validator refuses it, from its issue on, with
    [Invalid audience.] within its lifetime and as expired after it,
    unless the client happens to be named like the resource server. A
    client with the empty name is left out: its audience claim counts as
    missing. *)
Theorem id_token_is_refused_as_access_token
    c key kid pk issued client_id user scopes token now required_tenant_id :
  Deployment.provisioned cfg c key kid pk ->
  Idp.create_id_token cfg issued client_id user scopes = Some (Some token) ->
  client_id <> "http://localhost:8081" ->
  client_id <> EmptyString ->
  issued <= now ->
  (now <= issued + 3599 ->
   Validator.is_token_valid w now c token required_tenant_id
   = (Validator.Invalid "Invalid audience.", c))
  /\ (issued + 3600 <= now ->
      Validator.is_token_valid w now c token required_tenant_id
      = (Validator.Invalid "Token has expired.", c)).
Proof.
  intros Hprov.
  pose proof Hprov as (Hgen & Hpk & Hkid & Hne & Hn & rest & doc & Hjwks & _).
  unfold Idp.create_id_token, Idp.generate_jwt.
  rewrite Hgen, Hjwks, Hpk, Hkid. cbn. intros [= <-] Hcid Hcne Hfrom.
  rewrite (provisioned_verdict c key kid pk _ now required_tenant_id Hprov).
  unfold Jwt.decode. rewrite Hn, String.eqb_refl. cbn [negb].
  unfold Jwt.validate_claims, Jwt.validate_iat, Jwt.validate_nbf, Jwt.validate_exp.
  cbn [Jwt.iat Jwt.nbf Jwt.exp].
  replace (now <? issued) with false by (symmetry; apply Z.ltb_ge; lia).
  split; intros Hb.
  - replace (issued + 3600 <=? now) with false by (symmetry; apply Z.leb_gt; lia).
    unfold Jwt.validate_iss, Jwt.validate_aud. cbn.
    apply str_truthy_ne in Hcne. rewrite Hcne. cbn [negb].
    apply String.eqb_neq in Hcid. rewrite Hcid. reflexivity.
  - replace (issued + 3600 <=? now) with true by (symmetry; apply Z.leb_le; lia).
    reflexivity.
Qed.

End IssueAndValidate.

(** ** The browser flow: authorize, login, consent *)

Section BrowserFlow.

Variable clients : gmap string Idp.Client.
Variable users : gmap string Idp.User.
Variable cfg : Idp.Config.
Variable b64decode_utf8 : string -> option string.

Local Abbreviation authorize_get := (IdpFlow.authorize_get clients).
Local Abbreviation authorize_post := (IdpFlow.authorize_post users).
Local Abbreviation consent := (IdpFlow.consent cfg).
Local Abbreviation step := (IdpFlow.step clients users cfg b64decode_utf8).
Local Abbreviation run := (IdpFlow.run clients users cfg b64decode_utf8).
Local Abbreviation sound := (IdpFlow.sound clients users).
Local Abbreviation registered := (IdpFlow.registered clients).

(** X16. [GET /authorize] shows the login page exactly when the query names a
    registered client together with one of its redirect URIs, compared as
    whole strings; it then remembers the request in the session.
    Otherwise it answers 400 and leaves the session as it was. *)
Theorem authorize_get_accepts_iff_registered request_args session :
  ((exists name, fst (authorize_get request_args session)
                 = IdpFlow.Rendered (IdpFlow.Login name None))
   <-> exists id uri,
         request_args !! "client_id" = Some id
         /\ request_args !! "redirect_uri" = Some uri
         /\ registered id uri)
  /\ ((forall name, fst (authorize_get request_args session)
                    <> IdpFlow.Rendered (IdpFlow.Login name None)) ->
      authorize_get request_args session
      = (IdpFlow.Text "Invalid client or redirect URI" 400, session))
  /\ (forall id uri,
        request_args !! "client_id" = Some id ->
        request_args !! "redirect_uri" = Some uri ->
        registered id uri ->
        exists ar,
          IdpFlow.auth_request (snd (authorize_get request_args session)) = Some ar
          /\ IdpFlow.client_id ar = id
          /\ IdpFlow.redirect_uri ar = uri
          /\ IdpFlow.args ar = request_args
          /\ IdpFlow.user (snd (authorize_get request_args session))
             = IdpFlow.user session).
Proof.
  unfold IdpFlow.authorize_get, IdpFlow.registered.
  destruct (request_args !! "client_id") as [id|] eqn:Hid; cbn.
  2:{ split; [split|split].
      - intros [name H]. discriminate H.
      - intros (id & uri & H & _). discriminate H.
      - reflexivity.
      - intros id uri H. discriminate H. }
  destruct (clients !! id) as [client|] eqn:Hcl; cbn.
  2:{ split; [split|split].
      - intros [name H]. discriminate H.
      - intros (id' & uri & [= <-] & _ & cl & Hc & _). congruence.
      - reflexivity.
      - intros id' uri [= <-] _ (cl & Hc & _). congruence. }
  destruct (request_args !! "redirect_uri") as [uri|] eqn:Huri.
  2:{ split; [split|split].
      - intros [name H]. discriminate H.
      - intros (id' & uri & _ & H & _). discriminate H.
      - reflexivity.
      - intros id' uri _ H. discriminate H. }
  destruct (Py.str_in uri (Idp.redirect_uri client)) eqn:Hin.
  - apply str_in_In in Hin. split; [split|split].
    + intros _. exists id, uri. eauto.
    + intros _. eauto.
    + intros H. exfalso. by apply (H (Idp.client_name client)).
    + intros id' uri' [= <-] [= <-] _. eexists. cbn. eauto 6.
  - split; [split|split].
    + intros [name H]. discriminate H.
    + intros (id' & uri' & [= <-] & [= <-] & cl & Hc & Hi).
      rewrite Hcl in Hc. injection Hc as <-. apply str_in_In in Hi. congruence.
    + reflexivity.
    + intros id' uri' [= <-] [= <-] (cl & Hc & Hi).
      rewrite Hcl in Hc. injection Hc as <-. apply str_in_In in Hi. congruence.
Qed.

(** What the two [authorize] branches do to the session. *)
Lemma authorize_get_session request_args session :
  snd (authorize_get request_args session) = session
  \/ exists ar,
       registered (IdpFlow.client_id ar) (IdpFlow.redirect_uri ar)
       /\ snd (authorize_get request_args session)
          = {| IdpFlow.auth_request := Some ar;
               IdpFlow.user := IdpFlow.user session |}.
Proof.
  unfold IdpFlow.authorize_get, IdpFlow.registered.
  destruct (request_args !! "client_id") as [id|]; cbn; [|by left].
  destruct (clients !! id) as [client|] eqn:Hcl; cbn; [|by left].
  destruct (request_args !! "redirect_uri") as [uri|]; [|by left].
  destruct (Py.str_in uri _) eqn:Hin; [|by left].
  right. eexists. split; [|reflexivity]. cbn.
  exists client. split; [done|]. by apply str_in_In.
Qed.

(** The session's user changes only through a login with the password of
    the registry; a failed login leaves the session as it was. *)
Lemma authorize_post_session form session :
  snd (authorize_post form session) = session
  \/ exists name u,
       form !! "username" = Some name
       /\ users !! name = Some u
       /\ form !! "password" = Some (Idp.password u)
       /\ snd (authorize_post form session)
          = {| IdpFlow.auth_request := IdpFlow.auth_request session;
               IdpFlow.user := Some u |}.
Proof.
  unfold IdpFlow.authorize_post.
  destruct (form !! "username") as [name|] eqn:Hn; cbn.
  - destruct (users !! name) as [u|] eqn:Hus.
    + case_bool_decide as Hp.
      * right. exists name, u. done.
      * left. by destruct (IdpFlow.auth_request session).
    + left. by destruct (IdpFlow.auth_request session).
  - left. by destruct (IdpFlow.auth_request session).
Qed.

(** [consent] stores a code only on approval of a [code] request, in a
    session that holds both the request and a user; the code is then the
    one drawn, bound to that request and user, and the session is
    emptied. In every other case the store is untouched. *)
Lemma consent_store now rnd form session codes :
  snd (consent now rnd form session codes) = codes
  \/ exists ar u,
       IdpFlow.auth_request session = Some ar
       /\ IdpFlow.user session = Some u
       /\ form !! "consent" = Some "true"
       /\ IdpFlow.args ar !! "response_type" = Some "code"
       /\ consent now rnd form session codes
          = (IdpFlow.Redirect
               {| IdpFlow.base := IdpFlow.redirect_uri ar;
                  IdpFlow.replaced := IdpFlow.Query;
                  IdpFlow.params :=
                    [("code", IdpFlow.PStr rnd);
                     ("state", IdpFlow.pstr (IdpFlow.args ar !! "state"))] |},
             IdpFlow.empty_session,
             <[rnd := {| Idp.code_client_id := IdpFlow.client_id ar;
                         Idp.code_user := u;
                         Idp.code_scopes :=
                           Py.split " " (default EmptyString (IdpFlow.args ar !! "scope"));
                         Idp.code_redirect_uri := IdpFlow.redirect_uri ar;
                         Idp.expires_at := now + 300;
                         Idp.code_challenge := IdpFlow.args ar !! "code_challenge";
                         Idp.code_challenge_method :=
                           IdpFlow.args ar !! "code_challenge_method" |}]> codes).
Proof.
  unfold IdpFlow.consent.
  destruct (IdpFlow.auth_request session) as [ar|]; [|by left].
  destruct (IdpFlow.user session) as [u|]; [|by left].
  case_bool_decide as Hc; [|by left].
  destruct (_ || _).
  - destruct (Idp.create_access_token _ _ _ _ _ _ _); [|by left].
    destruct (Idp.create_id_token _ _ _ _ _); by left.
  - case_bool_decide as Hcode; [|by left]. right. exists ar, u. done.
Qed.

(** The session after [consent]: kept, or emptied. *)
Lemma consent_session now rnd form session codes :
  snd (fst (consent now rnd form session codes)) = session
  \/ snd (fst (consent now rnd form session codes)) = IdpFlow.empty_session.
Proof.
  unfold IdpFlow.consent.
  destruct (IdpFlow.auth_request session) as [ar|]; [|by left].
  destruct (IdpFlow.user session) as [u|]; [|by left].
  case_bool_decide as Hc; [|by left].
  destruct (_ || _).
  - destruct (Idp.create_access_token _ _ _ _ _ _ _); [|by left].
    destruct (Idp.create_id_token _ _ _ _ _); [by right | by left].
  - case_bool_decide as Hcode; [by right | by left].
Qed.

Lemma empty_session_sound codes :
  (forall code data, codes !! code = Some data ->
     registered (Idp.code_client_id data) (Idp.code_redirect_uri data)
     /\ exists name, users !! name = Some (Idp.code_user data)) ->
  sound {| IdpFlow.session := IdpFlow.empty_session; IdpFlow.codes := codes |}.
Proof. intros H. split; [|split]; cbn; [discriminate | discriminate | exact H]. Qed.

(** Every view keeps the state sound. *)
Lemma step_sound now rnd r st : sound st -> sound (step now rnd r st).
Proof.
  intros (Har & Hu & Hc). destruct r as [request_args | form | form | request].
  - cbn [IdpFlow.step].
    destruct (authorize_get_session request_args (IdpFlow.session st))
      as [-> | (ar & Hreg & ->)]; [done|].
    split; [|split]; cbn; [by intros ? [= <-] | exact Hu | exact Hc].
  - cbn [IdpFlow.step].
    destruct (authorize_post_session form (IdpFlow.session st))
      as [-> | (name & u & _ & Hus & _ & ->)]; [done|].
    split; [|split]; cbn; [exact Har | intros ? [= <-]; eauto | exact Hc].
  - unfold IdpFlow.step.
    pose proof (consent_store now rnd form (IdpFlow.session st) (IdpFlow.codes st))
      as Hst.
    pose proof (consent_session now rnd form (IdpFlow.session st) (IdpFlow.codes st))
      as Hse.
    destruct (consent now rnd form (IdpFlow.session st) (IdpFlow.codes st))
      as [[resp s'] c'] eqn:Hcons.
    cbn [fst snd] in Hst, Hse.
    assert (Hcodes : forall code data, c' !! code = Some data ->
              registered (Idp.code_client_id data) (Idp.code_redirect_uri data)
              /\ exists name, users !! name = Some (Idp.code_user data)).
    { destruct Hst as [-> | (ar & u & Ear & Eu & _ & _ & [= _ _ ->])]; [exact Hc|].
      intros code data. rewrite lookup_insert. case_decide.
      - intros [= <-]. cbn. split; [by apply Har | by apply Hu].
      - apply Hc. }
    destruct Hse as [-> | ->].
    + split; [|split]; cbn; [exact Har | exact Hu | exact Hcodes].
    + by apply empty_session_sound.
  - split; [|split]; cbn; [exact Har | exact Hu |].
    intros code data Hl.
    destruct (generate_token_store b64decode_utf8 clients cfg
                now rnd (IdpFlow.codes st) request)
      as [Heq | (c0 & d0 & cid & client & _ & _ & _ & _ & Heq)];
      rewrite Heq in Hl.
    + by apply (Hc code).
    + apply (Hc code). cbn [snd] in Hl. rewrite lookup_delete in Hl. by case_decide.
Qed.

(** X17. Codes are only ever issued to registered clients, for their registered
    redirect URIs, on behalf of registered users: whatever requests a
    browser and the clients send, in whatever order, every code in the
    store names a registered client with one of its own redirect URIs and
    a user of the registry. *)
Theorem stored_codes_are_for_registered_parties rs code data :
  IdpFlow.codes (run rs IdpFlow.initial) !! code = Some data ->
  registered (Idp.code_client_id data) (Idp.code_redirect_uri data)
  /\ exists name, users !! name = Some (Idp.code_user data).
Proof.
  assert (Hrun : forall rs st, sound st -> sound (run rs st)).
  { clear. intros rs. induction rs as [|[[now rnd] r] rest IH]; intros st Hs; [done|].
    apply IH. by apply step_sound. }
  assert (Hinit : sound IdpFlow.initial).
  { split; [|split]; cbn; intros; discriminate. }
  destruct (Hrun rs _ Hinit) as (_ & _ & Hc). apply Hc.
Qed.


(** With the client, the redirect URI and PKCE right, what remains is the
    clock. *)
Lemma redeem_by_the_clock now rnd client_id req data kid pk :
  Idp.can_sign cfg kid pk ->
  Idp.form req !! "redirect_uri" = Some (Idp.code_redirect_uri data) ->
  Idp.code_client_id data = client_id ->
  (Py.truthy (Idp.code_challenge data) = false
   \/ exists verifier,
        Idp.form req !! "code_verifier" = Some verifier
        /\ verifier <> EmptyString
        /\ Idp.code_challenge data = Some (computed_challenge verifier)) ->
  exists access_token id_token,
    Idp.create_access_token cfg now rnd client_id (Idp.code_scopes data)
      (Some (Idp.user_sub (Idp.code_user data)))
      (Some (Idp.user_tenant_id (Idp.code_user data))) = Some access_token
    /\ Idp.create_id_token cfg now client_id (Idp.code_user data)
         (Idp.code_scopes data) = Some (Some id_token)
    /\ Idp.redeem cfg now rnd client_id req data =
       if Idp.expires_at data <? now
       then Idp.error_response 400 "invalid_grant"
              (Some "Authorization code has expired")
       else {| Idp.status := 200;
               Idp.body :=
                 [("access_token", Idp.JTok access_token);
                  ("id_token", Idp.JTok id_token);
                  ("token_type", Idp.JStr "Bearer");
                  ("expires_in", Idp.JNum 3600);
                  ("scope", Idp.JStr (Py.join " " (Idp.code_scopes data)))] |}.
Proof.
  intros (Hgen & Hpk & key & rest & Hjwks & Hkid) Huri Hcid Hpkce.
  unfold Idp.redeem. rewrite Huri, Hcid.
  rewrite bool_decide_eq_true_2 by reflexivity.
  rewrite String.eqb_refl. cbn [negb orb].
  unfold Idp.create_access_token, Idp.create_id_token, Idp.generate_jwt.
  rewrite Hgen, Hjwks, Hpk, Hkid. cbn [negb fmap option_fmap option_map].
  eexists _, _. split; [reflexivity|]. split; [reflexivity|].
  destruct (Idp.expires_at data <? now); [reflexivity|].
  destruct Hpkce as [-> | (v & -> & Hv & Hch)]; [reflexivity|].
  rewrite Hch. apply str_truthy_ne in Hv. rewrite Hv. cbn [negb].
  rewrite bool_decide_eq_true_2 by reflexivity. cbn [negb].
  destruct (Py.truthy _); reflexivity.
Qed.

(** X18. From consent to tokens. A code that [consent] issues at time [issued]
    can be exchanged, by the client it was issued to, with the redirect
    URI of the request and PKCE satisfied, exactly until [issued + 300]:
    up to then the exchange answers 200 with tokens made for the
    consenting user and the scopes of the request; later it answers
    [invalid_grant], the code has expired. *)
Theorem consented_code_redeemable_for_300_seconds
    issued rnd form session codes ar u now rnd2 req client kid pk :
  IdpFlow.auth_request session = Some ar ->
  IdpFlow.user session = Some u ->
  form !! "consent" = Some "true" ->
  IdpFlow.args ar !! "response_type" = Some "code" ->
  Idp.authenticates b64decode_utf8 clients req (IdpFlow.client_id ar) client ->
  Idp.form req !! "grant_type" = Some "authorization_code" ->
  Idp.form req !! "code" = Some rnd ->
  Idp.form req !! "redirect_uri" = Some (IdpFlow.redirect_uri ar) ->
  (Py.truthy (IdpFlow.args ar !! "code_challenge") = false
   \/ exists verifier,
        Idp.form req !! "code_verifier" = Some verifier
        /\ verifier <> EmptyString
        /\ IdpFlow.args ar !! "code_challenge" = Some (computed_challenge verifier)) ->
  Idp.can_sign cfg kid pk ->
  let scopes := Py.split " " (default EmptyString (IdpFlow.args ar !! "scope")) in
  let answer :=
    fst (Idp.generate_token b64decode_utf8 clients cfg now rnd2
           (snd (consent issued rnd form session codes)) req) in
  (Idp.status answer = 200 <-> now <= issued + 300)
  /\ (now <= issued + 300 ->
      exists access_token id_token,
        Idp.create_access_token cfg now rnd2 (IdpFlow.client_id ar) scopes
          (Some (Idp.user_sub u)) (Some (Idp.user_tenant_id u)) = Some access_token
        /\ Idp.create_id_token cfg now (IdpFlow.client_id ar) u scopes
           = Some (Some id_token)
        /\ Idp.body_get "access_token" (Idp.body answer) = Some (Idp.JTok access_token)
        /\ Idp.body_get "id_token" (Idp.body answer) = Some (Idp.JTok id_token))
  /\ (issued + 300 < now ->
      answer = Idp.error_response 400 "invalid_grant"
                 (Some "Authorization code has expired")).
Proof.
  intros Har Hu Hcons Hrt Hauth Hgrant Hcode Huri Hpkce Hsign. cbv zeta.
  assert (Heq : snd (consent issued rnd form session codes)
                = <[rnd := {| Idp.code_client_id := IdpFlow.client_id ar;
                              Idp.code_user := u;
                              Idp.code_scopes :=
                                Py.split " " (default EmptyString
                                                (IdpFlow.args ar !! "scope"));
                              Idp.code_redirect_uri := IdpFlow.redirect_uri ar;
                              Idp.expires_at := issued + 300;
                              Idp.code_challenge := IdpFlow.args ar !! "code_challenge";
                              Idp.code_challenge_method :=
                                IdpFlow.args ar !! "code_challenge_method" |}]> codes).
  { unfold IdpFlow.consent. rewrite Har, Hu, Hcons, Hrt.
    rewrite bool_decide_eq_true_2 by reflexivity.
    rewrite !(bool_decide_eq_false_2 (Some "code" = Some _)) by discriminate.
    cbn [orb]. rewrite bool_decide_eq_true_2 by reflexivity. reflexivity. }
  rewrite Heq.
  rewrite (exchange_pops b64decode_utf8 clients cfg now rnd2 _ req _ client rnd _
             Hauth Hgrant Hcode (lookup_insert_eq _ _ _)).
  cbn [fst].
  destruct (redeem_by_the_clock now rnd2 (IdpFlow.client_id ar) req
              {| Idp.code_client_id := IdpFlow.client_id ar;
                 Idp.code_user := u;
                 Idp.code_scopes :=
                   Py.split " " (default EmptyString (IdpFlow.args ar !! "scope"));
                 Idp.code_redirect_uri := IdpFlow.redirect_uri ar;
                 Idp.expires_at := issued + 300;
                 Idp.code_challenge := IdpFlow.args ar !! "code_challenge";
                 Idp.code_challenge_method :=
                   IdpFlow.args ar !! "code_challenge_method" |}
              kid pk Hsign Huri eq_refl Hpkce)
    as (access_token & id_token & Hat & Hit & ->).
  cbn [Idp.expires_at Idp.code_scopes Idp.code_user] in *.
  destruct (issued + 300 <? now) eqn:Hexp.
  - apply Z.ltb_lt in Hexp. split; [|split].
    + cbn. split; [discriminate | lia].
    + lia.
    + reflexivity.
  - apply Z.ltb_ge in Hexp. split; [|split].
    + cbn. split; [lia | reflexivity].
    + intros _. exists access_token, id_token. done.
    + lia.
Qed.

End BrowserFlow.

(** ** The router: registration, selection and the session's context *)

Section RoutingMore.

Import A2A Router Registration.

Local Open Scope list_scope.

Lemma dict_set_In {V} k (v : V) d kv :
  In kv (dict_set k v d) -> kv = (k, v) \/ In kv d.
Proof.
  induction d as [|[k' v'] rest IH]; cbn [dict_set].
  - intros [<- | []]. by left.
  - destruct (String.eqb k' k).
    + intros [<- | H]; [by left | right; by right].
    + intros [<- | H]; [right; by left|].
      destruct (IH H) as [-> | H']; [by left | right; by right].
Qed.

Lemma dict_set_keys {V} k (v : V) d k0 :
  In k0 (map fst (dict_set k v d)) <-> k0 = k \/ In k0 (map fst d).
Proof.
  induction d as [|[k' v'] rest IH]; cbn [dict_set map fst In].
  - intuition.
  - destruct (String.eqb k' k) eqn:Hk; cbn [map fst In].
    + apply String.eqb_eq in Hk. subst k'. intuition.
    + rewrite IH. intuition.
Qed.

Lemma dict_set_NoDup {V} k (v : V) d :
  List.NoDup (map fst d) -> List.NoDup (map fst (dict_set k v d)).
Proof.
  induction d as [|[k' v'] rest IH]; cbn [dict_set map fst].
  - intros _. constructor; [intros []|constructor].
  - intros Hnd. apply List.NoDup_cons_iff in Hnd as [Hnot Hnd].
    destruct (String.eqb k' k) eqn:Hk; cbn [map fst].
    + apply String.eqb_eq in Hk. subst k'. by constructor.
    + apply String.eqb_neq in Hk. constructor; [|by apply IH].
      rewrite dict_set_keys. intros [-> | H]; [by apply Hk | by apply Hnot].
Qed.

Lemma dict_get_In {V} k (v : V) d :
  List.NoDup (map fst d) -> In (k, v) d -> dict_get k d = Some v.
Proof.
  unfold dict_get. induction d as [|[k' v'] rest IH]; [intros _ []|].
  cbn [map fst List.find]. intros Hnd. apply List.NoDup_cons_iff in Hnd as [Hnot Hnd].
  intros [[= -> ->] | Hin].
  - by rewrite String.eqb_refl.
  - destruct (String.eqb k' k) eqn:Hk.
    + apply String.eqb_eq in Hk. subst k'. exfalso. apply Hnot.
      apply (in_map fst) in Hin. exact Hin.
    + by apply IH.
Qed.

Lemma scan_In q cs card : scan q cs = Some card -> In card cs.
Proof.
  induction cs as [|c rest IH]; cbn [scan]; [discriminate|].
  destruct (card_matches q c); [intros [= <-]; by left | intros H; right; by apply IH].
Qed.

Lemma register_invariant connects Q agent card :
  Q card -> registry_invariant connects Q agent ->
  registry_invariant connects Q (register connects agent card).
Proof.
  intros HQ (Heq & Hnd & Hall). unfold register.
  destruct (connects card) eqn:Hc; [|done].
  split; [|split]; cbn.
  - by rewrite Heq.
  - by apply dict_set_NoDup.
  - apply List.Forall_forall. intros kv Hin.
    apply dict_set_In in Hin as [-> | Hin]; [done|].
    rewrite List.Forall_forall in Hall. by apply Hall.
Qed.

Lemma init_components_invariant connects Q agent agent_cards :
  Forall Q agent_cards -> registry_invariant connects Q agent ->
  registry_invariant connects Q (_async_init_components connects agent agent_cards).
Proof.
  unfold _async_init_components. revert agent.
  induction agent_cards as [|c rest IH]; intros agent Hall Hinv; [done|].
  apply Forall_cons_1 in Hall as [Hc Hrest]. cbn [fold_left].
  apply IH; [done|]. by apply register_invariant.
Qed.

(** X19. Whatever cards the router is created with, in whatever order and with
    whatever names, a card that [_find_agent_card_by_type] selects is one
    of them, its connection was built, and the connection stored under its
    name is its own: the dispatch never finds the client missing, and
    never reaches another agent's connection. *)
Theorem selected_card_is_registered_and_connected
    connects agent_cards agent_type state card :
  _find_agent_card_by_type (create connects agent_cards) agent_type state
    = Some card ->
  In card agent_cards
  /\ connects card = true
  /\ dict_get (name card) (remote_agent_connections (create connects agent_cards))
     = Some card.
Proof.
  assert (Hinv : registry_invariant connects (fun c => In c agent_cards)
                   (create connects agent_cards)).
  { apply init_components_invariant.
    - apply List.Forall_forall. auto.
    - split; [reflexivity|]. split; constructor. }
  destruct Hinv as (Heq & Hnd & Hall).
  unfold _find_agent_card_by_type. destruct (filter_query _ _) as [q|]; [|discriminate].
  intros Hscan. apply scan_In in Hscan. unfold dict_values in Hscan.
  apply in_map_iff in Hscan as ([k c] & Hc & Hin). cbn in Hc. subst c.
  rewrite List.Forall_forall in Hall. destruct (Hall _ Hin) as (Hname & HQ & Hcon).
  cbn in Hname, HQ, Hcon. subst k.
  split; [done|]. split; [done|]. rewrite Heq. by apply dict_get_In.
Qed.

Lemma scan_unique q cs card :
  q <> [] -> In card cs -> offers q card ->
  (forall c, In c cs -> offers q c -> c = card) ->
  scan q cs = Some card.
Proof.
  intros Hq Hin Hoff Huniq. pose proof (scan_spec q cs Hq) as Hs.
  destruct (scan q cs) as [c|].
  - destruct Hs as (before & after & -> & Hc & _). f_equal. apply Huniq; [|done].
    apply in_or_app. right. by left.
  - rewrite List.Forall_forall in Hs. by destruct (Hs card Hin).
Qed.

Lemma filter_query_nonempty agent_type state q :
  filter_query agent_type state = Some q -> q <> [].
Proof.
  unfold filter_query. destruct (Py.str_in _ _).
  - destruct (state_get _ _) as [t|]; [|discriminate].
    destruct (Py.str_truthy t); [|discriminate]. by intros [= <-].
  - by intros [= <-].
Qed.

(** X20. When exactly one of the cards offers what a request asks for, that
    card is selected whatever the order in which the cards were
    registered. *)
Theorem unique_offer_found_in_any_order
    connects agent_cards reordered agent_type state q card :
  NoDup (map name agent_cards) ->
  Forall (fun c => connects c = true) agent_cards ->
  agent_cards ≡ₚ reordered ->
  filter_query agent_type state = Some q ->
  In card agent_cards ->
  offers q card ->
  (forall c, In c agent_cards -> offers q c -> c = card) ->
  _find_agent_card_by_type (create connects reordered) agent_type state = Some card.
Proof.
  intros Hnd Hcon Hperm Hq Hin Hoff Huniq.
  unfold _find_agent_card_by_type. rewrite Hq.
  rewrite registration_order.
  - apply scan_unique; [by eapply filter_query_nonempty | | done |].
    + by apply (Permutation_in _ Hperm).
    + intros c Hc. apply Huniq. by apply (Permutation_in _ (Permutation_sym Hperm)).
  - by rewrite <- (Permutation_map name Hperm).
  - rewrite List.Forall_forall in Hcon |- *. intros c Hc. apply Hcon.
    by apply (Permutation_in _ (Permutation_sym Hperm)).
Qed.

Section Sending.

Variable REDIRECT_URI : option string.

(** X21. No task without an agent. When the session has no tenant for a
    tenant-specific type, or no registered card offers what is asked, the
    answer is the apology and nothing is written: no task is stored, the
    session keeps its context, nothing is dispatched. *)
Theorem unroutable_request_changes_nothing agent u agent_type task state w :
  (forall q, filter_query agent_type state = Some q ->
             Forall (fun c => ~ offers q c) (dict_values (cards agent))) ->
  send_message REDIRECT_URI agent u agent_type task state w
  = (Returned ("I'm sorry, I can't find an agent with the type '" ++ agent_type
               ++ "'. Please choose from the available agent types."),
     state, w).
Proof.
  intros Hno. unfold send_message.
  assert (Hfind : _find_agent_card_by_type agent agent_type state = None).
  { unfold _find_agent_card_by_type.
    destruct (filter_query agent_type state) as [q|] eqn:Hq; [|done].
    pose proof (scan_spec q (dict_values (cards agent))
                  (filter_query_nonempty _ _ _ Hq)) as Hs.
    destruct (scan q _) as [c|]; [|done].
    destruct Hs as (before & after & Heq & Hc & _).
    specialize (Hno q eq_refl). rewrite List.Forall_forall in Hno.
    destruct (Hno c); [|done]. rewrite Heq. apply in_or_app. right. by left. }
  by rewrite Hfind.
Qed.

(** What a routed request does to the session and the store, whichever
    way it ends. *)
Lemma send_message_found agent u agent_type task state w card :
  _find_agent_card_by_type agent agent_type state = Some card ->
  let r := send_message REDIRECT_URI agent u agent_type task state w in
  state_get (snd (fst r)) "context_id" = Some (contextId (new_task u task state))
  /\ state_get (snd (fst r)) "tenant_id" = state_get state "tenant_id"
  /\ task_store (snd r) = PersistentTaskStore.save (new_task u task state) (task_store w).
Proof.
  intros Hfind.
  destruct (security_truthy (security card)
            && negb (Py.truthy (state_get state "access_token"))) eqn:Hgate.
  - apply andb_prop in Hgate as [Hsec Htok]. apply negb_true_iff in Htok.
    rewrite (send_message_redirect REDIRECT_URI agent u agent_type task state w card
               Hfind Hsec Htok). cbn [fst snd task_store].
    split; [|split]; [|by rewrite state_get_insert_ne|done].
    unfold state_get. by rewrite lookup_insert_eq.
  - rewrite (send_message_dispatch REDIRECT_URI agent u agent_type task state w card
               Hfind Hgate). cbn [fst snd task_store].
    split; [|split]; [| |done].
    + rewrite state_get_insert_ne by discriminate.
      unfold state_get. by rewrite lookup_insert_eq.
    + by rewrite !state_get_insert_ne.
Qed.

(** X22. One context per session. The first routed request of a session fixes
    the context id; every later routed request of the session files its
    task under the same id, so that after two requests both tasks are in
    the store with the context id that the session holds. *)
Theorem tasks_of_a_session_share_the_context
    agent u1 u2 type1 task1 type2 task2 state w card1 card2 :
  let r1 := send_message REDIRECT_URI agent u1 type1 task1 state w in
  let r2 := send_message REDIRECT_URI agent u2 type2 task2 (snd (fst r1)) (snd r1) in
  _find_agent_card_by_type agent type1 state = Some card1 ->
  _find_agent_card_by_type agent type2 (snd (fst r1)) = Some card2 ->
  u_context_id u1 <> EmptyString ->
  u_task_id u1 <> u_task_id u2 ->
  exists t1 t2,
    task_store (snd r2) !! u_task_id u1 = Some t1
    /\ task_store (snd r2) !! u_task_id u2 = Some t2
    /\ contextId t1 = contextId t2
    /\ state_get (snd (fst r2)) "context_id" = Some (contextId t1).
Proof.
  intros r1 r2 H1 H2 Hctx Hids.
  destruct (send_message_found agent u1 type1 task1 state w card1 H1)
    as (Hc1 & _ & Hs1).
  destruct (send_message_found agent u2 type2 task2 (snd (fst r1)) (snd r1) card2 H2)
    as (Hc2 & _ & Hs2).
  fold r1 in Hc1, Hs1. fold r1 r2 in Hc2, Hs2.
  assert (Htruthy : Py.truthy (Some (contextId (new_task u1 task1 state))) = true).
  { cbn [new_task contextId].
    destruct (Py.truthy (state_get state "context_id")) eqn:Ht.
    - destruct (state_get state "context_id"); [exact Ht | discriminate Ht].
    - by apply str_truthy_ne. }
  assert (Hsame : contextId (new_task u2 task2 (snd (fst r1)))
                  = contextId (new_task u1 task1 state)).
  { cbn [new_task contextId] in *. rewrite Hc1. by rewrite Htruthy. }
  exists (new_task u1 task1 state), (new_task u2 task2 (snd (fst r1))).
  rewrite Hs2, Hs1. unfold PersistentTaskStore.save. cbn [new_task id].
  split; [|split; [|split]].
  - rewrite lookup_insert_ne by (intros E; by apply Hids).
    by rewrite lookup_insert_eq.
  - by rewrite lookup_insert_eq.
  - symmetry. exact Hsame.
  - rewrite Hc2. by rewrite Hsame.
Qed.

End Sending.

(** X23. The Horizon agent started for a tenant is selected for the sessions of
    that tenant and for no other: the filter that the router builds for a
    request matches the agent's skill exactly when the request asks for
    the type [horizon] and the session's tenant id is the (non-empty) one
    that the agent was started with. *)
Theorem horizon_skill_serves_its_tenant_only agent_type state tenant_id :
  (exists q, filter_query agent_type state = Some q
             /\ skill_matches q (Horizon.skill tenant_id) = true)
  <-> agent_type = "horizon"
      /\ state_get state "tenant_id" = Some tenant_id
      /\ tenant_id <> EmptyString.
Proof.
  assert (Htype : forall k, tag_value k (tags (Horizon.skill tenant_id))
            = if String.eqb "tenant_id" k then Some tenant_id
              else if String.eqb "type" k then Some "horizon" else None).
  { intros k. cbn [Horizon.skill tags tag_value].
    change ("tenant_id:" ++ tenant_id)%string
      with ("tenant_id" ++ String ":" tenant_id)%string.
    rewrite (split1_app ":" "tenant_id" tenant_id)
      by (vm_compute; intuition discriminate).
    change (Py.split1 ":" "type:horizon") with (Some ("type", "horizon")).
    destruct (String.eqb "tenant_id" k); [done|].
    destruct (String.eqb "type" k); done. }
  split.
  - intros (q & Hq & Hm).
    apply skill_matches_spec in Hm; [|by eapply filter_query_nonempty].
    unfold superset in Hm. revert Hq. unfold filter_query.
    destruct (Py.str_in agent_type tenant_specific_agents) eqn:Hin.
    + apply str_in_In in Hin. destruct Hin as [<- | []].
      destruct (state_get state "tenant_id") as [t|]; [|discriminate].
      destruct (Py.str_truthy t) eqn:Ht; [|discriminate]. intros [= <-].
      apply Forall_cons_1 in Hm as [_ Hm]. apply Forall_cons_1 in Hm as [Hm _].
      cbn [fst snd] in Hm. rewrite Htype in Hm. cbn in Hm. injection Hm as <-.
      split; [done|]. split; [done|]. by apply str_truthy_ne.
    + intros [= <-]. apply Forall_cons_1 in Hm as [Hm _].
      cbn [fst snd] in Hm. rewrite Htype in Hm. cbn in Hm. injection Hm as <-.
      discriminate Hin.
  - intros (-> & Hten & Hne).
    exists [("type", "horizon"); ("tenant_id", tenant_id)]. split.
    + unfold filter_query. change (Py.str_in "horizon" tenant_specific_agents) with true.
      rewrite Hten. apply str_truthy_ne in Hne. by rewrite Hne.
    + apply skill_matches_spec; [discriminate|]. unfold superset.
      repeat constructor; cbn [fst snd]; by rewrite Htype.
Qed.

End RoutingMore.

(** ** The callback: what an exchange leaves behind *)

Section CallbackMore.

Variable b64decode_utf8 : string -> option string.
Variable clients : gmap string Idp.Client.
Variable cfg : Idp.Config.
Variable loads_state : string -> Host.StateData.
Variable encode_jwt : Jwt.Header -> Jwt.Claims -> string -> string.

Local Abbreviation handle_callback :=
  (Host.handle_callback b64decode_utf8 clients cfg loads_state encode_jwt).
Local Abbreviation token_text := (Host.token_text encode_jwt).

(** The request that the callback posts authenticates by its form fields
    alone, as the Horizon client. *)
Lemma exchange_request_credentials code :
  Idp.credentials b64decode_utf8 (Host.exchange_request code)
  = (Some "Horizon Agent - Tenant ABC", Some "horizon_secret_abc").
Proof. reflexivity. Qed.

Lemma exchange_request_authenticates code client_id client :
  Idp.authenticates b64decode_utf8 clients (Host.exchange_request code)
    client_id client ->
  client_id = "Horizon Agent - Tenant ABC".
Proof. intros [Hc _]. rewrite exchange_request_credentials in Hc. congruence. Qed.

(** X24. A callback that redirects has redeemed the code of its query: the
    code was stored for the Horizon client and the callback URI, without a
    PKCE challenge, and had not expired. The code is gone from the store,
    the session holds the text of the access token issued for the code's
    user, its refresh token is [None] (the server issues none), and every
    other key of the session is as it was. *)
Theorem callback_redirect_effects now rnd q sys url sys' :
  handle_callback now rnd q sys = (Host.RedirectResponse url, sys') ->
  exists code data access_token,
    Host.query_code q = Some code
    /\ Host.AUTHORIZATION_CODES sys !! code = Some data
    /\ Idp.code_client_id data = "Horizon Agent - Tenant ABC"
    /\ Idp.code_redirect_uri data = "http://localhost:8083/callback"
    /\ Py.truthy (Idp.code_challenge data) = false
    /\ now <= Idp.expires_at data
    /\ Host.AUTHORIZATION_CODES sys' = delete code (Host.AUTHORIZATION_CODES sys)
    /\ Idp.create_access_token cfg now rnd "Horizon Agent - Tenant ABC"
         (Idp.code_scopes data) (Some (Idp.user_sub (Idp.code_user data)))
         (Some (Idp.user_tenant_id (Idp.code_user data))) = Some access_token
    /\ Host.session sys' !! "access_token" = Some (Some (token_text access_token))
    /\ Host.session sys' !! "refresh_token" = Some None
    /\ forall k, k <> "access_token" -> k <> "refresh_token" ->
                 Host.session sys' !! k = Host.session sys !! k.
Proof.
  unfold Host.handle_callback.
  destruct (Host.query_code q) as [code|] eqn:Hqc; [|discriminate].
  destruct (negb (Py.truthy (Some code)) || negb (Py.truthy (Host.query_state q)));
    [discriminate|].
  destruct (loads_state _) as [|task_id]; [discriminate|].
  destruct (negb (Py.truthy task_id)); [discriminate|].
  change (default EmptyString (Some code)) with code.
  destruct (Idp.generate_token _ _ _ _ _ _ _) as [token_response codes] eqn:Hgen.
  destruct (Idp.status token_response =? 200) eqn:H200; [|discriminate].
  cbn [negb]. intros [= <- <-]. apply Z.eqb_eq in H200.
  destruct (exchange_200 b64decode_utf8 clients cfg now rnd
              (Host.AUTHORIZATION_CODES sys) (Host.exchange_request code))
    as (cid & client & code' & data & Hauth & Hcode & Hdata & Heq);
    [reflexivity | by rewrite Hgen |].
  apply exchange_request_authenticates in Hauth. subst cid.
  change (Idp.form (Host.exchange_request code) !! "code") with (Some code) in Hcode.
  injection Hcode as <-.
  rewrite Hgen in Heq. injection Heq as -> ->.
  destruct (redeem_200 cfg now rnd _ _ data H200)
    as (Huri & Hcid & Hexp & Hpkce & at_ & it & Hat & Hit & Hbody).
  change (Idp.form (Host.exchange_request code) !! "redirect_uri")
    with (Some "http://localhost:8083/callback") in Huri.
  exists code, data, at_.
  split; [done|]. split; [done|]. split; [done|]. split; [congruence|].
  split.
  { destruct (Py.truthy (Idp.code_challenge data)); [|done].
    destruct (Hpkce eq_refl) as (v & Hv & _). discriminate Hv. }
  split; [done|]. split; [done|]. split; [done|].
  cbn [Host.session]. rewrite Hbody.
  split; [|split].
  - rewrite lookup_insert_ne by discriminate. by rewrite lookup_insert_eq.
  - rewrite lookup_insert_eq. by destruct it.
  - intros k H1 H2. by rewrite !lookup_insert_ne.
Qed.

(** X25. A callback that does not redirect leaves the session and the router's
    world, tasks included, exactly as they were; of the code store it
    changes nothing, or removes the stored code that its query named. *)
Theorem failed_callback_keeps_session_and_tasks now rnd q sys :
  let r := handle_callback now rnd q sys in
  (exists url, fst r = Host.RedirectResponse url)
  \/ (Host.session (snd r) = Host.session sys
      /\ Host.world (snd r) = Host.world sys
      /\ (Host.AUTHORIZATION_CODES (snd r) = Host.AUTHORIZATION_CODES sys
          \/ exists code data,
               Host.query_code q = Some code
               /\ Host.AUTHORIZATION_CODES sys !! code = Some data
               /\ Host.AUTHORIZATION_CODES (snd r)
                  = delete code (Host.AUTHORIZATION_CODES sys))).
Proof.
  cbv zeta. unfold Host.handle_callback.
  destruct (Host.query_code q) as [code|] eqn:Hqc; [|right; auto].
  destruct (negb (Py.truthy (Some code)) || negb (Py.truthy (Host.query_state q)));
    [right; auto|].
  destruct (loads_state _) as [|task_id]; [right; auto|].
  destruct (negb (Py.truthy task_id)); [right; auto|].
  change (default EmptyString (Some code)) with code.
  pose proof (generate_token_store b64decode_utf8 clients cfg now rnd
                (Host.AUTHORIZATION_CODES sys) (Host.exchange_request code)) as Hst.
  destruct (Idp.generate_token _ _ _ _ _ _ _) as [token_response codes] eqn:Hgen.
  destruct (Idp.status token_response =? 200); cbn [negb]; [left; eauto|].
  right. cbn [fst snd Host.session Host.world Host.AUTHORIZATION_CODES].
  split; [done|]. split; [done|].
  destruct Hst as [Hst | (code' & data & cid & client & _ & _ & Hcode & Hdata & Heq)].
  - left. exact Hst.
  - right. change (Idp.form (Host.exchange_request code) !! "code")
      with (Some code) in Hcode. injection Hcode as <-.
    injection Heq as _ ->. eauto.
Qed.

(** X26. The callback cannot redeem a code that was issued with a PKCE
    challenge, since its request carries no verifier: with the Horizon
    client registered, such a code arriving at the callback is answered
    with a 400 from the token endpoint and is consumed all the same, and
    the session and the tasks stay as they were. *)
Theorem callback_loses_pkce_code now rnd q sys code st task_id data client :
  Host.query_code q = Some code ->
  code <> EmptyString ->
  Host.query_state q = Some st ->
  st <> EmptyString ->
  loads_state st = Host.StateObject (Some task_id) ->
  task_id <> EmptyString ->
  clients !! "Horizon Agent - Tenant ABC" = Some client ->
  Idp.client_secret client = "horizon_secret_abc" ->
  Host.AUTHORIZATION_CODES sys !! code = Some data ->
  Py.truthy (Idp.code_challenge data) = true ->
  exists token_response,
    handle_callback now rnd q sys
    = (Host.ExchangeError token_response,
       {| Host.AUTHORIZATION_CODES := delete code (Host.AUTHORIZATION_CODES sys);
          Host.session := Host.session sys;
          Host.world := Host.world sys |})
    /\ Idp.status token_response = 400.
Proof.
  intros Hqc Hcode Hqs Hst Hloads Htask Hclient Hsecret Hdata Hch.
  unfold Host.handle_callback. rewrite Hqc, Hqs.
  apply str_truthy_ne in Hcode, Hst, Htask.
  change (default EmptyString (Some st)) with st.
  change (default EmptyString (Some code)) with code.
  cbn [Py.truthy]. rewrite Hcode, Hst, Hloads. cbn [negb orb Py.truthy].
  rewrite Htask. cbn [negb].
  assert (Hauth : Idp.authenticates b64decode_utf8 clients (Host.exchange_request code)
                    "Horizon Agent - Tenant ABC" client).
  { split; [|done]. rewrite exchange_request_credentials. by rewrite Hsecret. }
  rewrite (exchange_pops b64decode_utf8 clients cfg now rnd _ _ _ _ code data Hauth
             eq_refl eq_refl Hdata).
  assert (H400 : Idp.status (Idp.redeem cfg now rnd "Horizon Agent - Tenant ABC"
                               (Host.exchange_request code) data) = 400).
  { unfold Idp.redeem. rewrite Hch.
    change (Idp.form (Host.exchange_request code) !! "code_verifier") with (@None string).
    destruct (negb _ || negb _); [reflexivity|].
    destruct (_ <? _); reflexivity. }
  rewrite H400. cbn. eexists. split; [reflexivity | exact H400].
Qed.

End CallbackMore.

(** ** The properties on the sample data *)

(** X3, on the sample data. The Horizon client's refresh request is refused as
    an unsupported grant. *)
Lemma unsupported_grant_type_iff_witness :
  Idp.generate_token Demo.b64decode_utf8 Idp.CLIENT_REGISTRY Demo.cfg 1000 "r1"
    Demo.codes Scenario.refresh_request
  = ({| Idp.status := 400;
        Idp.body := [("error", Idp.JStr "unsupported_grant_type")] |}, Demo.codes).
Proof.
  destruct (unsupported_grant_type_iff Demo.b64decode_utf8 Idp.CLIENT_REGISTRY
              Demo.cfg 1000 "r1" Demo.codes Scenario.refresh_request
              "Horizon Agent - Tenant ABC" Demo.horizon_client) as [_ H].
  - split; vm_compute; reflexivity.
  - apply H; vm_compute; discriminate.
Defined.

(** X4, on the sample data. The header's weather client wins over the form's
    other client. *)
Lemma basic_header_precedes_form_witness :
  Idp.credentials Scenario.b64decode_utf8 Scenario.basic_request
  = (Some "weather_agent", Some "weather_secret").
Proof.
  apply (basic_header_precedes_form Scenario.b64decode_utf8 Scenario.basic_request
           "d2VhdGhlcl9hZ2VudDp3ZWF0aGVyX3NlY3JldA==" "weather_agent" "weather_secret").
  - reflexivity.
  - vm_compute. intuition discriminate.
  - reflexivity.
  - vm_compute. intuition discriminate.
  - discriminate.
  - discriminate.
Defined.

(** X5, on the sample data. Under a bearer header the form's credentials are
    the ones read. *)
Lemma unusable_basic_header_falls_back_to_form_witness :
  Idp.credentials Scenario.b64decode_utf8 Scenario.bearer_request
  = (Some "weather_agent", Some "weather_secret").
Proof.
  rewrite (unusable_basic_header_falls_back_to_form Scenario.b64decode_utf8
             Scenario.bearer_request).
  - vm_compute. reflexivity.
  - right. left. exists "Bearer abc". split; reflexivity.
Defined.

(** X6, on the sample data. The weather client may not ask for [profile]. *)
Lemma invalid_scope_iff_witness :
  fst (Idp.generate_token Demo.b64decode_utf8 Idp.CLIENT_REGISTRY Demo.cfg 1000 "r1"
         Demo.codes (Demo.client_credentials (Some "openid profile")))
  = Idp.error_response 400 "invalid_scope" None.
Proof.
  apply (invalid_scope_iff Demo.b64decode_utf8 Idp.CLIENT_REGISTRY Demo.cfg 1000 "r1"
           Demo.codes (Demo.client_credentials (Some "openid profile"))
           "weather_agent" Demo.weather_client).
  - split; vm_compute; reflexivity.
  - vm_compute; reflexivity.
  - exists "profile". split.
    + vm_compute. auto.
    + vm_compute. intuition discriminate.
Defined.

(** X7, on the sample data. The weather client is granted the two scopes it
    may have. *)
Lemma client_credentials_granted_witness :
  Idp.status (fst (Idp.generate_token Demo.b64decode_utf8 Idp.CLIENT_REGISTRY Demo.cfg
                     1000 "r1" Demo.codes
                     (Demo.client_credentials (Some "api:read openid")))) = 200.
Proof.
  rewrite (client_credentials_granted Demo.b64decode_utf8 Idp.CLIENT_REGISTRY Demo.cfg
             1000 "r1" Demo.codes (Demo.client_credentials (Some "api:read openid"))
             "weather_agent" Demo.weather_client "api:read openid"
             "idp-key-1" "idp-modulus").
  - reflexivity.
  - split; vm_compute; reflexivity.
  - vm_compute; reflexivity.
  - vm_compute; reflexivity.
  - change (Py.split " " "api:read openid") with ["api:read"; "openid"].
    repeat (apply List.Forall_cons; [vm_compute; auto 10|]). apply List.Forall_nil.
  - split; [reflexivity|]. split; [reflexivity|].
    eexists _, _; split; reflexivity.
Defined.

(** X8, on the sample data. The successful exchange of the examples was made
    for the stored code. *)
Lemma exchange_success_implies_checks_witness :
  exists data,
    Demo.codes !! "c0de" = Some data /\ 1000 <= Idp.expires_at data.
Proof.
  destruct (exchange_success_implies_checks Demo.b64decode_utf8 Idp.CLIENT_REGISTRY
              Demo.cfg 1000 "r1" Demo.codes (Demo.exchange Demo.good_verifier))
    as (cid & client & code & data & _ & Hcode & Hdata & _ & _ & Hexp & _).
  - vm_compute; reflexivity.
  - vm_compute; reflexivity.
  - exists data. split; [|exact Hexp].
    change (Idp.form (Demo.exchange Demo.good_verifier) !! "code")
      with (Some "c0de") in Hcode.
    injection Hcode as <-. exact Hdata.
Defined.

(** X9, on the sample data. A code issued without a challenge is redeemed
    under a stray verifier. *)
Lemma exchange_without_challenge_ignores_verifier_witness :
  Idp.status (fst (Idp.generate_token Demo.b64decode_utf8 Idp.CLIENT_REGISTRY Demo.cfg
                     1000 "r1" Scenario.plain_codes
                     Scenario.exchange_with_stray_verifier)) = 200.
Proof.
  apply (exchange_without_challenge_ignores_verifier Demo.b64decode_utf8
           Idp.CLIENT_REGISTRY Demo.cfg 1000 "r1" Scenario.plain_codes
           Scenario.exchange_with_stray_verifier
           "Horizon Agent - Tenant ABC" Demo.horizon_client "c0de" Demo.plain_code
           "idp-key-1" "idp-modulus").
  - split; vm_compute; reflexivity.
  - vm_compute; reflexivity.
  - vm_compute; reflexivity.
  - vm_compute; reflexivity.
  - split; [reflexivity|]. split; [reflexivity|].
    eexists _, _; split; reflexivity.
  - vm_compute; reflexivity.
  - reflexivity.
  - vm_compute. discriminate.
  - reflexivity.
Defined.

(** X10, on the sample data. John's token is accepted for his tenant, and then
    its audience is the resource server's. *)
Lemma accepted_token_is_sound_witness :
  Jwt.aud (Demo.access_claims (Some "tenant-abc")) = Some "http://localhost:8081".
Proof.
  destruct (accepted_token_is_sound Demo.validator_world 2000 Demo.cache
              (Demo.access_token (Some "tenant-abc")) (Some "tenant-abc")
              (Demo.access_claims (Some "tenant-abc")) Demo.cache)
    as (_ & _ & _ & _ & _ & _ & _ & _ & _ & _ & _ & _ & _ & _ & Haud & _).
  - vm_compute; reflexivity.
  - exact Haud.
Defined.

(** X11, on the sample data. With the keys cached, going offline changes no
    verdict. *)
Lemma cached_keys_are_final_witness :
  Validator.is_token_valid Demo.validator_world 2000 Demo.cache
    (Demo.access_token (Some "tenant-abc")) None
  = Validator.is_token_valid Scenario.offline_world 2000 Demo.cache
      (Demo.access_token (Some "tenant-abc")) None.
Proof.
  apply (cached_keys_are_final Demo.validator_world Scenario.offline_world 2000
           Demo.cache [Demo.idp_key] (Demo.access_token (Some "tenant-abc")) None).
  reflexivity.
Defined.

(** X12, on the sample data. Offline and with an empty cache, the failure is
    reported and the cache stays empty. *)
Lemma jwks_failure_is_reported_not_cached_witness :
  Validator.is_token_valid Scenario.offline_world 2000 Validator.empty_cache
    (Demo.access_token None) None
  = (Validator.Invalid
       "Failed to get JWKS: Error fetching OIDC config: connection refused",
     Validator.empty_cache).
Proof.
  apply (jwks_failure_is_reported_not_cached Scenario.offline_world 2000
           Validator.empty_cache (Demo.access_token None) None
           "Error fetching OIDC config: connection refused" Validator.empty_cache).
  - vm_compute; reflexivity.
  - discriminate.
Defined.

(** The sample deployment is provisioned. *)
Lemma demo_provisioned :
  Deployment.provisioned Demo.cfg Demo.cache Demo.idp_key "idp-key-1" "idp-modulus".
Proof.
  split; [reflexivity|]. split; [reflexivity|]. split; [reflexivity|].
  split; [discriminate|]. split; [reflexivity|].
  exists [], Demo.oidc. repeat split; reflexivity.
Defined.

(** X13, on the sample data. John's token, issued at 1000, is still accepted
    at 4599. *)
Lemma issued_access_token_valid_for_one_hour_witness :
  Validator.is_token_valid Demo.validator_world 4599 Demo.cache
    (Demo.access_token (Some "tenant-abc")) None
  = (Validator.Valid (Demo.access_claims (Some "tenant-abc")), Demo.cache).
Proof.
  destruct (issued_access_token_valid_for_one_hour Demo.cfg Demo.validator_world
              Demo.cache Demo.idp_key "idp-key-1" "idp-modulus" 1000 "r1"
              "Horizon Agent - Tenant ABC" ["openid"; "profile"; "email"; "api:read"]
              (Some "john.doe") (Some "tenant-abc")
              (Demo.access_token (Some "tenant-abc")) 4599)
    as (header & claims & Htok & _ & _ & Hvalid & _).
  - exact demo_provisioned.
  - vm_compute; reflexivity.
  - lia.
  - injection Htok as <- <-. apply Hvalid. lia.
Defined.

(** X14, on the sample data. John's token is refused by a resource server of
    tenant [tenant-xyz]. *)
Lemma issued_token_serves_its_tenant_only_witness :
  Validator.is_token_valid Demo.validator_world 2000 Demo.cache
    (Demo.access_token (Some "tenant-abc")) (Some "tenant-xyz")
  = (Validator.Invalid
       "Token 'tenant_id' (tenant-abc) does not match required tenant_id (tenant-xyz).",
     Demo.cache).
Proof.
  destruct (issued_token_serves_its_tenant_only Demo.cfg Demo.validator_world
              Demo.cache Demo.idp_key "idp-key-1" "idp-modulus" 1000 "r1"
              "Horizon Agent - Tenant ABC" ["openid"; "profile"; "email"; "api:read"]
              (Some "john.doe") "tenant-abc" "tenant-xyz"
              (Demo.access_token (Some "tenant-abc")) 2000)
    as (claims & _ & Hvalid).
  - exact demo_provisioned.
  - discriminate.
  - discriminate.
  - vm_compute; reflexivity.
  - lia.
  - lia.
  - exact Hvalid.
Defined.

(** X15, on the sample data. John's ID token is refused for its audience. *)
Lemma id_token_is_refused_as_access_token_witness :
  Validator.is_token_valid Demo.validator_world 2000 Demo.cache Scenario.id_token None
  = (Validator.Invalid "Invalid audience.", Demo.cache).
Proof.
  destruct (id_token_is_refused_as_access_token Demo.cfg Demo.validator_world
              Demo.cache Demo.idp_key "idp-key-1" "idp-modulus" 1000
              "Horizon Agent - Tenant ABC" Demo.john ["openid"; "profile"]
              Scenario.id_token 2000 None) as [H _].
  - exact demo_provisioned.
  - vm_compute; reflexivity.
  - discriminate.
  - discriminate.
  - lia.
  - apply H. lia.
Defined.

(** X17, on the sample data. The code that John's visit leaves in the store is
    the Horizon client's, for its callback URI. *)
Lemma stored_codes_are_for_registered_parties_witness :
  IdpFlow.registered Idp.CLIENT_REGISTRY "Horizon Agent - Tenant ABC"
    "http://localhost:8083/callback".
Proof.
  apply (stored_codes_are_for_registered_parties Idp.CLIENT_REGISTRY
           Idp.USER_REGISTRY Demo.cfg Demo.b64decode_utf8 Scenario.visit "c0de"
           Demo.plain_code).
  vm_compute; reflexivity.
Defined.

(** X18, on the sample data. The code of John's consent at 1000 is redeemed at
    1300 and refused at 1301. *)
Lemma consented_code_redeemable_for_300_seconds_witness :
  let answer now :=
    fst (Idp.generate_token Demo.b64decode_utf8 Idp.CLIENT_REGISTRY Demo.cfg now "r2"
           (snd (IdpFlow.consent Demo.cfg 1000 "c0de" Scenario.consent_form
                   Scenario.consenting_session ∅))
           (Host.exchange_request "c0de")) in
  Idp.status (answer 1300) = 200
  /\ answer 1301 = Idp.error_response 400 "invalid_grant"
                     (Some "Authorization code has expired").
Proof.
  cbv zeta.
  assert (Hauth : Idp.authenticates Demo.b64decode_utf8 Idp.CLIENT_REGISTRY
                    (Host.exchange_request "c0de")
                    (IdpFlow.client_id Scenario.authorization_request)
                    Demo.horizon_client)
    by (split; vm_compute; reflexivity).
  assert (Hsign : Idp.can_sign Demo.cfg "idp-key-1" "idp-modulus").
  { split; [reflexivity|]. split; [reflexivity|].
    eexists _, _; split; reflexivity. }
  split.
  - destruct (consented_code_redeemable_for_300_seconds Idp.CLIENT_REGISTRY Demo.cfg
                Demo.b64decode_utf8 1000 "c0de" Scenario.consent_form
                Scenario.consenting_session ∅ Scenario.authorization_request
                Demo.john 1300 "r2" (Host.exchange_request "c0de") Demo.horizon_client
                "idp-key-1" "idp-modulus" eq_refl eq_refl eq_refl eq_refl Hauth
                eq_refl eq_refl eq_refl (or_introl eq_refl) Hsign)
      as (Hiff & _ & _).
    apply Hiff. lia.
  - destruct (consented_code_redeemable_for_300_seconds Idp.CLIENT_REGISTRY Demo.cfg
                Demo.b64decode_utf8 1000 "c0de" Scenario.consent_form
                Scenario.consenting_session ∅ Scenario.authorization_request
                Demo.john 1301 "r2" (Host.exchange_request "c0de") Demo.horizon_client
                "idp-key-1" "idp-modulus" eq_refl eq_refl eq_refl eq_refl Hauth
                eq_refl eq_refl eq_refl (or_introl eq_refl) Hsign)
      as (_ & _ & Hlate).
    apply Hlate. lia.
Defined.

(** X19, on the sample data. The weather card, once selected, has its
    connection. *)
Lemma selected_card_is_registered_and_connected_witness :
  Router.dict_get "Weather Agent" (Router.remote_agent_connections Demo.routing_agent)
  = Some Demo.weather_card.
Proof.
  destruct (selected_card_is_registered_and_connected (fun _ => true) Demo.all_cards
              "weather" ∅ Demo.weather_card) as (_ & _ & H).
  - vm_compute; reflexivity.
  - exact H.
Defined.

(** X20, on the sample data. The weather card is found when the two cards are
    registered the other way round. *)
Lemma unique_offer_found_in_any_order_witness :
  Router._find_agent_card_by_type
    (Router.create (fun _ => true) [Demo.secure_horizon_card; Demo.weather_card])
    "weather" ∅
  = Some Demo.weather_card.
Proof.
  apply (unique_offer_found_in_any_order (fun _ => true) Demo.all_cards
           [Demo.secure_horizon_card; Demo.weather_card] "weather" ∅
           [("type", "weather")] Demo.weather_card).
  - apply (bool_decide_unpack _). vm_compute. exact I.
  - repeat constructor.
  - apply perm_swap.
  - reflexivity.
  - left. reflexivity.
  - apply card_matches_spec; [discriminate | vm_compute; reflexivity].
  - intros c [<- | [<- | []]] Hoff; [reflexivity|].
    apply card_matches_spec in Hoff; [|discriminate].
    vm_compute in Hoff. discriminate Hoff.
Defined.

(** X21, on the sample data. A request for the Horizon agent in a session
    without a tenant. *)
Lemma unroutable_request_changes_nothing_witness :
  Router.send_message None Demo.routing_agent Demo.uuids "horizon" "check my order"
    ∅ Demo.empty_world
  = (Router.Returned "I'm sorry, I can't find an agent with the type 'horizon'. Please choose from the available agent types.",
     ∅, Demo.empty_world).
Proof.
  apply (unroutable_request_changes_nothing None Demo.routing_agent Demo.uuids
           "horizon" "check my order" ∅ Demo.empty_world).
  intros q Hq. vm_compute in Hq. discriminate Hq.
Defined.

(** X22, on the sample data. Two weather requests of a fresh session: both
    tasks are filed under the context drawn for the first. *)
Lemma tasks_of_a_session_share_the_context_witness :
  let r1 := Router.send_message None Demo.routing_agent Demo.uuids "weather"
              "weather in london" ∅ Demo.empty_world in
  let r2 := Router.send_message None Demo.routing_agent Scenario.uuids2 "weather"
              "weather in paris" (snd (fst r1)) (snd r1) in
  exists t1 t2,
    Router.task_store (snd r2) !! "task-1" = Some t1
    /\ Router.task_store (snd r2) !! "task-2" = Some t2
    /\ A2A.contextId t1 = A2A.contextId t2
    /\ Router.state_get (snd (fst r2)) "context_id" = Some (A2A.contextId t1).
Proof.
  apply (tasks_of_a_session_share_the_context None Demo.routing_agent Demo.uuids
           Scenario.uuids2 "weather" "weather in london" "weather" "weather in paris"
           ∅ Demo.empty_world Demo.weather_card Demo.weather_card).
  - vm_compute; reflexivity.
  - vm_compute; reflexivity.
  - discriminate.
  - discriminate.
Defined.

(** X24, on the sample data. The callback of the examples redirects, and
    leaves no refresh token. *)
Lemma callback_redirect_effects_witness :
  Host.session
    (snd (Host.handle_callback Demo.b64decode_utf8 Idp.CLIENT_REGISTRY Demo.cfg
            Demo.loads_state Demo.encode_jwt 1000 "r1" Demo.callback_query
            Demo.system))
  !! "refresh_token" = Some None.
Proof.
  destruct (callback_redirect_effects Demo.b64decode_utf8 Idp.CLIENT_REGISTRY Demo.cfg
              Demo.loads_state Demo.encode_jwt 1000 "r1" Demo.callback_query
              Demo.system "http://localhost:8083/"
              (snd (Host.handle_callback Demo.b64decode_utf8 Idp.CLIENT_REGISTRY
                      Demo.cfg Demo.loads_state Demo.encode_jwt 1000 "r1"
                      Demo.callback_query Demo.system)))
    as (code & data & tok & _ & _ & _ & _ & _ & _ & _ & _ & _ & H & _).
  - vm_compute; reflexivity.
  - exact H.
Defined.

(** X26, on the sample data. The PKCE code of the examples, arriving at the
    callback, is lost. *)
Lemma callback_loses_pkce_code_witness :
  Host.AUTHORIZATION_CODES
    (snd (Host.handle_callback Demo.b64decode_utf8 Idp.CLIENT_REGISTRY Demo.cfg
            Demo.loads_state Demo.encode_jwt 1000 "r1" Demo.callback_query
            Scenario.pkce_system))
  = delete "c0de" Demo.codes.
Proof.
  destruct (callback_loses_pkce_code Demo.b64decode_utf8 Idp.CLIENT_REGISTRY Demo.cfg
              Demo.loads_state Demo.encode_jwt 1000 "r1" Demo.callback_query
              Scenario.pkce_system "c0de" (Json.dumps [("task_id", "task-1")])
              "task-1" Demo.pkce_code Demo.horizon_client)
    as (r & Heq & _).
  - reflexivity.
  - discriminate.
  - reflexivity.
  - vm_compute. discriminate.
  - vm_compute; reflexivity.
  - discriminate.
  - vm_compute; reflexivity.
  - reflexivity.
  - vm_compute; reflexivity.
  - reflexivity.
  - rewrite Heq. reflexivity.
Defined.
